(** * Air-quality analysis helpers: summaries and chart renderers

    A shallow embedding of [src/data_interpretation.py] and
    [src/data_visualization.py].  Tables are pandas data frames, kept here as
    an index plus a list of labelled columns, with the declared categories of
    the columns of category dtype; printing and plotting are recorded as a
    trace of events, and a call returns or raises; what the libraries compute
    from the data, and the exceptions they raise on it, are parameters;
    arithmetic on the percentage column is IEEE-754 binary64, taken from the
    Standard Library's [SpecFloat]. *)

From Stdlib Require Import List String Ascii Bool ZArith QArith Qabs Qpower Lia Lqa.
From Stdlib Require Import Sorting.Sorted Sorting.Permutation.
From Stdlib Require Import Floats.SpecFloat.
From Stdlib Require Import DecimalString.
Import ListNotations.

Local Open Scope string_scope.
Local Open Scope Z_scope.
Local Open Scope list_scope.

(** ** binary64 arithmetic *)

Module Float64.

Definition prec : Z := 53.
Definition emax : Z := 1024.

(** A float64 value; [S754_nan] is NaN. *)
Definition t : Type := spec_float.

(** int64 -> float64, round to nearest even (exact below 2^53). *)
Definition of_int (z : Z) : t := binary_normalize prec emax z 0 false.

Definition div (x y : t) : t := SFdiv prec emax x y.
Definition mul (x y : t) : t := SFmul prec emax x y.
Definition add (x y : t) : t := SFadd prec emax x y.

(** Left-to-right sum, as a loop [acc += x] started at 0.0. *)
Definition sum (l : list t) : t := fold_left add l (S754_zero false).

(** The rational a finite float denotes (0 for the non-finite ones). *)
Definition to_Q (x : t) : Q :=
  match x with
  | S754_finite s m e =>
      let v := (inject_Z (Zpos m) * Qpower 2 e)%Q in
      if s then Qopp v else v
  | _ => 0%Q
  end.

(** Zero or a finite number: neither an infinity nor NaN. *)
Definition is_finite (x : t) : bool :=
  match x with
  | S754_zero _ | S754_finite _ _ _ => true
  | _ => false
  end.

Definition eq_dec (x y : t) : {x = y} + {x <> y}.
Proof. decide equality; solve [apply Bool.bool_dec | apply Z.eq_dec | apply Pos.eq_dec]. Defined.

End Float64.

(** [y] lies at [m] when the location is exact, and otherwise strictly
    between [m] and [m + 1]: below, at or above the middle. *)
Definition located (y : Q) (m : Z) (l : location) : Prop :=
  match l with
  | loc_Exact => (y == inject_Z m)%Q
  | loc_Inexact Lt => (inject_Z m < y /\ y < inject_Z m + (1 # 2))%Q
  | loc_Inexact Eq => (y == inject_Z m + (1 # 2))%Q
  | loc_Inexact Gt => (inject_Z m + (1 # 2) < y /\ y < inject_Z m + 1)%Q
  end.

(** The unit roundoff of binary64, 2^-53. *)
Definition u64 : Q := 1 # 9007199254740992.

(** [f] is a positive normal double with exponent between [lo] and [hi],
    within the relative error [eps] of the positive rational [x]. *)
Definition approximates (f : Float64.t) (x eps : Q) (lo hi : Z) : Prop :=
  exists m e,
    f = S754_finite false m e
    /\ Zpos (digits2_pos m) = 53
    /\ lo <= e <= hi
    /\ (0 < x)%Q
    /\ (Qabs (Float64.to_Q f - x) <= x * eps)%Q.

(** ** Tables *)

(** One entry of a column.  [CNone], [CNaN] and [CNaT] are the three missing
    markers of pandas: None, the float NaN and the missing timestamp. *)
Inductive Cell : Type :=
| CNone
| CNaN
| CNaT
| CStr (s : string)
| CInt (z : Z)
| CFloat (x : Float64.t)
| CTime (t : Z).

Definition Cell_eq_dec (a b : Cell) : {a = b} + {a <> b}.
Proof. decide equality; solve [apply string_dec | apply Z.eq_dec | apply Float64.eq_dec]. Defined.

Arguments Cell_eq_dec : simpl never.

Definition Cell_eqb (a b : Cell) : bool := if Cell_eq_dec a b then true else false.

(** [pd.isna] on one entry; a float that is NaN is the NaN however written. *)
Definition isna (c : Cell) : bool :=
  match c with
  | CNone | CNaN | CNaT | CFloat S754_nan => true
  | _ => false
  end.
Definition notna (c : Cell) : bool := negb (isna c).

(** What an entry is as a key when values are counted: Python equality, under
    which 1 and 1.0 are one key, 0.0 and -0.0 too, every NaN is the one NaN,
    and None, NaN and NaT are three different keys.  Numbers are kept as
    reduced fractions, so that equal keys are identical. *)
Inductive Key : Type :=
| KNone
| KNaN
| KNaT
| KStr (s : string)
| KTime (t : Z)
| KNum (q : Q)
| KInf (negative : bool).

Definition key (c : Cell) : Key :=
  match c with
  | CNone => KNone
  | CNaN => KNaN
  | CNaT => KNaT
  | CStr s => KStr s
  | CTime t => KTime t
  | CInt z => KNum (Qred (inject_Z z))
  | CFloat x =>
      match x with
      | S754_nan => KNaN
      | S754_infinity s => KInf s
      | _ => KNum (Qred (Float64.to_Q x))
      end
  end.

Definition Key_eq_dec (a b : Key) : {a = b} + {a <> b}.
Proof.
  decide equality;
    solve [ apply string_dec | apply Z.eq_dec | apply Bool.bool_dec
          | decide equality; solve [apply Z.eq_dec | apply Pos.eq_dec] ].
Defined.

Arguments Key_eq_dec : simpl never.

(** Two entries that count as one value. *)
Definition same_value (a b : Cell) : bool :=
  if Key_eq_dec (key a) (key b) then true else false.

(** The row index of a frame. *)
Inductive Index : Type :=
| RangeIndex (n : nat)
| DatetimeIndex (ts : list Z)
| LabelIndex (labels : list Cell).

(** A frame: its row index and its columns in order, each under its label.
    A label names one column.  [categories] lists the columns of category
    dtype, each with its declared categories in order: distinct values, none
    of them missing, among which pandas keeps every value of the column that
    is not missing; a category can be declared and held by no row. *)
Record DataFrame : Type := mkFrame {
  index : Index;
  cols : list (string * list Cell);
  categories : list (string * list Cell)
}.

(** A frame without a column of category dtype. *)
Definition mkDataFrame (rows : Index) (columns : list (string * list Cell)) : DataFrame :=
  mkFrame rows columns [].

(** [df.columns] *)
Definition columns (df : DataFrame) : list string := map fst (cols df).

(** [name in df.columns] *)
Definition has_column (name : string) (df : DataFrame) : bool :=
  existsb (String.eqb name) (columns df).

Fixpoint lookup {A : Type} (name : string) (l : list (string * A)) : option A :=
  match l with
  | [] => None
  | (k, v) :: l' => if String.eqb name k then Some v else lookup name l'
  end.

Definition is_some {A : Type} (o : option A) : bool :=
  match o with Some _ => true | None => false end.

(** [df[name]] for a label that is present. *)
Definition getitem (df : DataFrame) (name : string) : option (list Cell) :=
  lookup name (cols df).

(** [df[name].cat.categories], empty for a column of another dtype. *)
Definition categories_of (df : DataFrame) (name : string) : list Cell :=
  match lookup name (categories df) with
  | Some declared => declared
  | None => []
  end.

(** The entries of [l] under other labels than [name]. *)
Definition without {A : Type} (name : string) (l : list (string * A)) : list (string * A) :=
  filter (fun kv => negb (String.eqb name (fst kv))) l.

(** Rows kept by a boolean mask. *)
Fixpoint select {A : Type} (mask : list bool) (l : list A) : list A :=
  match mask, l with
  | b :: mask', x :: l' => if b then x :: select mask' l' else select mask' l'
  | _, _ => []
  end.

Definition index_labels (i : Index) : list Cell :=
  match i with
  | RangeIndex n => map (fun k => CInt (Z.of_nat k)) (seq 0 n)
  | DatetimeIndex ts => map CTime ts
  | LabelIndex ls => ls
  end.

Definition select_index (mask : list bool) (i : Index) : Index :=
  match i with
  | DatetimeIndex ts => DatetimeIndex (select mask ts)
  | _ => LabelIndex (select mask (index_labels i))
  end.

(** [isinstance(df.index, pd.DatetimeIndex)] *)
Definition is_datetime_index (i : Index) : bool :=
  match i with DatetimeIndex _ => true | _ => false end.

(** [df[name] = values]: a column that is present keeps its place, a new one
    is appended. *)
Definition setitem (df : DataFrame) (name : string) (values : list Cell) : DataFrame :=
  mkFrame (index df)
    (if has_column name df
     then map (fun kv => if String.eqb name (fst kv) then (fst kv, values) else kv) (cols df)
     else cols df ++ [(name, values)])
    (without name (categories df)).

(** [df.dropna(subset=[name])] *)
Definition dropna_subset (df : DataFrame) (name : string) : DataFrame :=
  match getitem df name with
  | Some cs =>
      let mask := map notna cs in
      mkFrame (select_index mask (index df))
        (map (fun kv => (fst kv, select mask (snd kv))) (cols df))
        (categories df)
  | None => df
  end.

Fixpoint times_of (cs : list Cell) : option (list Z) :=
  match cs with
  | [] => Some []
  | CTime t :: cs' => option_map (cons t) (times_of cs')
  | _ :: _ => None
  end.

(** [df.set_index(name)]: the column leaves the frame and becomes the index;
    a column of timestamps gives a [DatetimeIndex]. *)
Definition set_index (df : DataFrame) (name : string) : DataFrame :=
  match getitem df name with
  | Some cs =>
      mkFrame
        (match times_of cs with Some ts => DatetimeIndex ts | None => LabelIndex cs end)
        (filter (fun kv => negb (String.eqb name (fst kv))) (cols df))
        (without name (categories df))
  | None => df
  end.

(** ** Series operations *)

Section Sorting.
Context {A : Type}.
Variable leb : A -> A -> bool.

(** [x] goes in front of the first element that is not above it, so equal
    keys keep their order of arrival. *)
Fixpoint insert_desc (x : A) (l : list A) : list A :=
  match l with
  | [] => [x]
  | y :: l' => if leb y x then x :: l else y :: insert_desc x l'
  end.

Definition sort_desc (l : list A) : list A := fold_right insert_desc [] l.
End Sorting.

(** [l] runs from the largest to the smallest under [leb]. *)
Definition descending {A : Type} (leb : A -> A -> bool) (l : list A) : Prop :=
  StronglySorted (fun a b => leb b a = true) l.

(** Distinct values in order of first appearance, each as first written. *)
Fixpoint unique (l : list Cell) : list Cell :=
  match l with
  | [] => []
  | x :: l' => x :: filter (fun y => negb (same_value x y)) (unique l')
  end.

(** The number of entries of [l] that are the value [c]. *)
Definition occurrences (c : Cell) (l : list Cell) : Z :=
  Z.of_nat (count_occ Key_eq_dec (map key l) (key c)).

(** [s.value_counts(dropna=...)] on a column with the categories [declared]
    (none for a column that is not of category dtype): one entry per value
    with its number of rows, largest count first.  The values are the
    declared categories in their order, also those no row holds, and then the
    values of the column in order of first appearance; a missing value counts
    as a value unless [dropna].  Among equal counts pandas settles no order
    once there are more than 16 entries; here they keep the order above. *)
Definition value_counts (dropna : bool) (declared s : list Cell) : list (Cell * Z) :=
  let s' := if dropna then filter notna s else s in
  sort_desc (fun a b => snd a <=? snd b)
    (map (fun c => (c, occurrences c s')) (unique (declared ++ s'))).

(** [counts.reindex(labels, fill_value=fill)] *)
Definition reindex (counts : list (Cell * Z)) (labels : list string) (fill : Z)
  : list (string * Z) :=
  map (fun l =>
         (l, match find (fun kv => Cell_eqb (CStr l) (fst kv)) counts with
             | Some kv => snd kv
             | None => fill
             end)) labels.

(** [s.head(n)]: the first [n] entries, or all but the last [-n] when [n < 0]. *)
Definition head {A : Type} (n : Z) (l : list A) : list A :=
  if 0 <=? n then firstn (Z.to_nat n) l
  else firstn (List.length l - Z.to_nat (- n))%nat l.

(** ** Effects: what a call prints and draws *)

Record CorrMatrix : Type := mkCorr {
  corr_labels : list string;
  corr_values : list (list (option Q))
}.

Inductive Event : Type :=
| Print (msg : string)
| PrintCorr (k : string) (v : Q)
| Figure (figsize : Z * Z)
| Plot (x : Index) (y : list Cell) (label : string)
| BarH (y : list Z) (width : list Z) (color : list string)
| YTicks (ticks : list Z)
| YTickLabels (labels : list string)
| BarText (x : Z) (y : Z) (v : Z) (fraction : Float64.t)
| HeatmapCorr (corr : CorrMatrix)
| HeatmapPivot (rows : list (string * list Cell)) (cbar_label : string)
| Scatter (x y : list Cell) (c : list (option string) + string)
| XLabel (s : string)
| YLabel (s : string)
| Title (s : string)
| Legend
| Grid
| TightLayout
| Savefig (path : string)
| Show.

Inductive Result (A : Type) : Type :=
| Returned (a : A)
| Raised (exc : string).
Arguments Returned {A} a.
Arguments Raised {A} exc.

(** A call yields a result and the events it emitted, in order. *)
Definition Py (A : Type) : Type := Result A * list Event.

Definition ret {A : Type} (a : A) : Py A := (Returned a, []).
Definition raise {A : Type} (exc : string) : Py A := (Raised exc, []).
Definition emit (e : Event) : Py unit := (Returned tt, [e]).

Definition bind {A B : Type} (c : Py A) (k : A -> Py B) : Py B :=
  match fst c with
  | Returned a => let r := k a in (fst r, snd c ++ snd r)
  | Raised exc => (Raised exc, snd c)
  end.

Declare Scope py_scope.
Delimit Scope py_scope with py.
Notation "x <- c ;; k" := (bind c (fun x => k))
  (at level 100, c at next level, right associativity) : py_scope.
Notation "c ;; k" := (bind c (fun _ => k))
  (at level 100, right associativity) : py_scope.

Fixpoint for_each {A : Type} (f : A -> Py unit) (l : list A) : Py unit :=
  match l with
  | [] => ret tt
  | x :: l' => (f x ;; for_each f l')%py
  end.

(** [if save_path: plt.savefig(save_path, ...)]: None and the empty string are falsy. *)
Definition savefig_if (save_path : option string) : Py unit :=
  match save_path with
  | Some p => if String.eqb p "" then ret tt else emit (Savefig p)
  | None => ret tt
  end.

(** A library call that returns or raises and emits nothing. *)
Definition call {A : Type} (r : Result A) : Py A := (r, []).

Definition result {A : Type} (c : Py A) : Result A := fst c.
Definition trace {A : Type} (c : Py A) : list Event := snd c.

Definition Zsum (l : list Z) : Z := fold_right Z.add 0 l.

(** [range(n)] *)
Definition range (n : nat) : list Z := map Z.of_nat (seq 0 n).

(** [enumerate(l)] *)
Definition enumerate {A : Type} (l : list A) : list (Z * A) := combine (range (List.length l)) l.

(** [d.get(k, default)] *)
Definition dict_get (d : list (string * string)) (k : string) (default : string) : string :=
  match lookup k d with Some v => v | None => default end.

(** [l[i]] on a Python list: negative positions count from the end, anything
    outside raises IndexError. *)
Definition list_item {A : Type} (l : list A) (i : Z) : Py A :=
  let n := Z.of_nat (List.length l) in
  let j := if i <? 0 then i + n else i in
  if (0 <=? j) && (j <? n) then
    match nth_error l (Z.to_nat j) with
    | Some x => ret x
    | None => raise "IndexError"
    end
  else raise "IndexError".

(** [df[name]] as a statement: KeyError when the label is absent. *)
Definition column (df : DataFrame) (name : string) : Py (list Cell) :=
  match getitem df name with
  | Some cs => ret cs
  | None => raise "KeyError"
  end.

Fixpoint map_py {A B : Type} (f : A -> Py B) (l : list A) : Py (list B) :=
  match l with
  | [] => ret []
  | x :: l' => (y <- f x ;; ys <- map_py f l' ;; ret (y :: ys))%py
  end.

(** ** src/data_interpretation.py *)

Module DataInterpretation.

Definition ICA_ORDER : list string :=
  ["Buena"; "Moderada"; "Dañina para grupos sensibles"; "Muy dañina"; "Peligrosa"].

Definition ICA_PALETTE : list (string * string) :=
  [ ("Buena", "#2ECC71");
    ("Moderada", "#F1C40F");
    ("Dañina para grupos sensibles", "#E67E22");
    ("Muy dañina", "#E74C3C");
    ("Peligrosa", "#8E44AD") ].

Definition DEFAULT_COLS : list string :=
  ["pm2_5"; "pm10"; "co"; "no"; "no2"; "o3"; "so2"; "nh3"].

(** The reference table, built afresh by every call. *)
Definition show_ica_health_table (_ : unit) : DataFrame :=
  let ica_health_table :=
    mkDataFrame (RangeIndex 5)
      [ ("Categoría ICA",
         map CStr ["Buena"; "Moderada"; "Dañina para grupos sensibles"; "Muy dañina"; "Peligrosa"]);
        ("Rango PM2.5 (µg/m³)",
         map CStr ["0–12"; "12.1–35.4"; "35.5–55.4"; "55.5–150.4"; ">150.4"]);
        ("Impacto en la salud",
         map CStr [ "Sin efectos visibles";
                    "Leve irritación en personas sensibles";
                    "Riesgo respiratorio leve";
                    "Efectos respiratorios y cardíacos";
                    "Riesgo alto para toda la población" ]) ] in
  ica_health_table.

(** [conteo / conteo.sum() * 100] on one entry: both integers become
    doubles, then a division and a multiplication in binary64. *)
Definition porcentaje_of (conteo total : Z) : Float64.t :=
  Float64.mul (Float64.div (Float64.of_int conteo) (Float64.of_int total))
              (Float64.of_int 100).

Definition category_distribution (df_clean : DataFrame) (cat_col : string)
  : Py (option DataFrame) :=
  if negb (has_column cat_col df_clean) then
    (emit (Print " No se encontró la columna 'ica_category'. Asegúrate de ejecutar la sección de procesamiento de datos.") ;;
     ret None)%py
  else
    (s <- column df_clean cat_col ;;
     let counts := value_counts false (categories_of df_clean cat_col) s in
     (* .rename_axis('Categoría').reset_index(name='conteo'); the counted
        values keep the dtype of the column *)
     let categoria_counts :=
       mkFrame (RangeIndex (List.length counts))
         [ ("Categoría", map fst counts);
           ("conteo", map (fun kv => CInt (snd kv)) counts) ]
         (match lookup cat_col (categories df_clean) with
          | Some declared => [("Categoría", declared)]
          | None => []
          end) in
     let conteo := map snd counts in
     let categoria_counts :=
       setitem categoria_counts "porcentaje"
         (map (fun c => CFloat (porcentaje_of c (Zsum conteo))) conteo) in
     ret (Some categoria_counts))%py.

End DataInterpretation.

(** ** src/data_visualization.py *)

(** What the module takes from outside: pandas' timestamp parser and calendar
    fields, its pivot table and Pearson correlation, Python's [str.upper],
    the colour table of [src.data_processing], and what matplotlib and seaborn
    make of the data they are asked to draw. *)
Class Externals : Type := {
  (** [pd.to_datetime(column, errors='coerce')], entry by entry; [None] is NaT *)
  to_datetime : list Cell -> list (option Z);
  (** [DatetimeIndex.dayofweek] and [.hour] on one timestamp *)
  dayofweek : Z -> Z;
  hour : Z -> Z;
  (** [pivot_table(values, index, columns, aggfunc='mean')]: the row keys
      with the row of means of each, or the exception it raises *)
  pivot_table_mean : list Cell -> list Cell -> list Cell -> Result (list (Z * list Cell));
  (** the exception [DataFrame.corr] raises when it converts a column that is
      not numeric to floats, if any *)
  float_error : list Cell -> option string;
  (** correlation of two columns as [DataFrame.corr] computes it; [None] is NaN *)
  pearson : list Cell -> list Cell -> option Q;
  str_upper : string -> string;
  (** [dp.get_ica_colors()] *)
  get_ica_colors : list (string * string);
  (** the exception [ax.plot], [plt.scatter] or [sns.heatmap] raises on the
      data it is given, if any *)
  draw_error : Event -> option string
}.

Module DataVisualization.
Section WithExternals.
Context {ext : Externals}.

Definition ICA_COLORS : list (string * string) := get_ica_colors.

Definition CONTAMINANTES : list string :=
  ["co"; "no"; "no2"; "o3"; "so2"; "pm2_5"; "pm10"; "nh3"].

(** A call that draws data: the call is made, and the library may raise on
    what it is given. *)
Definition plot_call (e : Event) : Py unit :=
  (emit e ;;
   match draw_error e with
   | Some exc => raise exc
   | None => ret tt
   end)%py.

(** The parsed column as cells. *)
Definition parse_dates (date : list Cell) : list Cell :=
  map (fun o => match o with Some t => CTime t | None => CNaT end) (to_datetime date).

Definition ensure_datetime_index (df : DataFrame) : DataFrame :=
  if negb (is_datetime_index (index df)) then
    if has_column "date" df then
      match getitem df "date" with
      | Some date =>
          let df := setitem df "date" (parse_dates date) in
          let df := dropna_subset df "date" in
          let df := set_index df "date" in
          df
      | None => df
      end
    else df
  else df.

Definition plot_time_series (df : DataFrame) (columnas : list string)
    (figsize : Z * Z) (titulo : string) (save_path : option string) : Py unit :=
  (let df := ensure_datetime_index df in
   emit (Figure figsize) ;;
   for_each (fun col =>
               if has_column col df then
                 (y <- column df col ;; plot_call (Plot (index df) y (str_upper col)))
               else ret tt) columnas ;;
   emit (XLabel "Fecha") ;;
   emit (YLabel "Concentración (µg/m³)") ;;
   emit (Title titulo) ;;
   emit Legend ;;
   emit Grid ;;
   emit TightLayout ;;
   savefig_if save_path ;;
   emit Show)%py.

Definition orden_ica : list string :=
  ["Buena"; "Moderada"; "Dañina para grupos sensibles"; "Dañina"; "Muy dañina"; "Peligrosa"].

Definition plot_ica_distribution (df : DataFrame) (figsize : Z * Z)
    (save_path : option string) : Py unit :=
  if negb (has_column "ica_category" df) then
    emit (Print "❌ La columna 'ica_category' no existe. Ejecuta add_ica_category() primero.")
  else
    (s <- column df "ica_category" ;;
     let counts :=
       reindex (value_counts true (categories_of df "ica_category") s) orden_ica 0 in
     emit (Figure figsize) ;;
     let colors := map (fun cat => dict_get ICA_COLORS cat "#CCCCCC") (map fst counts) in
     emit (BarH (range (List.length counts)) (map snd counts) colors) ;;
     emit (YTicks (range (List.length counts))) ;;
     emit (YTickLabels (map fst counts)) ;;
     emit (XLabel "Frecuencia") ;;
     emit (Title "Distribución de Categorías ICA") ;;
     emit Grid ;;
     let total := Zsum (map snd counts) in
     for_each (fun iv =>
                 let '(i, v) := iv in
                 (* f"{v} ({v / total:.1%})" *)
                 emit (BarText (v + 1) i v
                         (Float64.div (Float64.of_int v) (Float64.of_int total))))
              (enumerate (map snd counts)) ;;
     emit TightLayout ;;
     savefig_if save_path ;;
     emit Show)%py.

(** The first column the conversion to floats fails on, with its exception. *)
Fixpoint first_error (sub : list (list Cell)) : option string :=
  match sub with
  | [] => None
  | v :: sub' =>
      match float_error v with
      | Some exc => Some exc
      | None => first_error sub'
      end
  end.

(** [df[columnas].corr()]: the selected columns, as often as selected, are
    converted to floats, which raises on one that is not numeric; the result
    is the matrix of their pairwise correlations, labelled by them on both
    axes. *)
Definition corr_of (df : DataFrame) (columnas : list string) : Py CorrMatrix :=
  (sub <- map_py (column df) columnas ;;
   match first_error sub with
   | Some exc => raise exc
   | None => ret (mkCorr columnas (map (fun a => map (fun b => pearson a b) sub) sub))
   end)%py.

Fixpoint position (name : string) (labels : list string) : option nat :=
  match labels with
  | [] => None
  | l :: labels' =>
      if String.eqb name l then Some O else option_map S (position name labels')
  end.

(** [corr[ref]] when one column is labelled [ref]: that column as a series
    over the row labels. *)
Definition corr_column (corr : CorrMatrix) (ref : string) : list (string * option Q) :=
  match position ref (corr_labels corr) with
  | Some j => combine (corr_labels corr) (map (fun row => nth j row None) (corr_values corr))
  | None => []
  end.

(** [serie.drop(labels=[ref], errors='ignore')] *)
Definition drop_label {A : Type} (ref : string) (serie : list (string * A)) : list (string * A) :=
  filter (fun kv => negb (String.eqb ref (fst kv))) serie.

(** [serie.dropna()] *)
Fixpoint dropna (serie : list (string * option Q)) : list (string * Q) :=
  match serie with
  | [] => []
  | (k, Some v) :: serie' => (k, v) :: dropna serie'
  | (_, None) :: serie' => dropna serie'
  end.

(** [serie.sort_values(ascending=False)] *)
Definition sort_values_desc (serie : list (string * Q)) : list (string * Q) :=
  sort_desc (fun a b => Qle_bool (snd a) (snd b)) serie.

Definition plot_correlation_matrix (df : DataFrame) (columnas : option (list string))
    (figsize : Z * Z) (save_path : option string) (ref : string) (top_k : Z)
    (print_top : bool) : Py (option CorrMatrix) :=
  let columnas :=
    match columnas with
    | None => filter (fun c => has_column c df) CONTAMINANTES
    | Some columnas => filter (fun c => has_column c df) columnas
    end in
  if (List.length columnas <? 2)%nat then
    (emit (Print "❌ Se necesitan al menos 2 columnas para calcular correlaciones.") ;;
     ret None)%py
  else
    (corr <- corr_of df columnas ;;
     emit (Figure figsize) ;;
     emit (HeatmapCorr corr) ;;
     emit (Title "Matriz de Correlación entre Contaminantes") ;;
     emit TightLayout ;;
     savefig_if save_path ;;
     emit Show ;;
     (if print_top && existsb (String.eqb ref) (corr_labels corr) then
        if (1 <? count_occ string_dec (corr_labels corr) ref)%nat then
          (* [corr[ref]] is a frame when [ref] labels several columns, and
             [DataFrame.sort_values] is called without its argument [by] *)
          raise "TypeError"
        else
          let serie := sort_values_desc (dropna (drop_label ref (corr_column corr ref))) in
          let top := head top_k serie in
          emit (Print "🔎 Correlaciones más altas con PM2.5:") ;;
          for_each (fun kv => emit (PrintCorr (fst kv) (snd kv))) top
      else ret tt) ;;
     ret (Some corr))%py.

Definition dias : list string :=
  ["Lunes"; "Martes"; "Miércoles"; "Jueves"; "Viernes"; "Sábado"; "Domingo"].

Definition plot_heatmap_hourly (df : DataFrame) (columna : string)
    (figsize : Z * Z) (save_path : option string) : Py unit :=
  let df := ensure_datetime_index df in
  if negb (has_column columna df) then
    emit (Print ("❌ La columna '" ++ columna ++ "' no existe en el DataFrame.")%string)
  else
    match index df with
    | DatetimeIndex ts =>
        (let df_temp := df in
         let df_temp := setitem df_temp "dow" (map (fun t => CInt (dayofweek t)) ts) in
         let df_temp := setitem df_temp "hour" (map (fun t => CInt (hour t)) ts) in
         values <- column df_temp columna ;;
         dow <- column df_temp "dow" ;;
         hours <- column df_temp "hour" ;;
         pivot <- call (pivot_table_mean values dow hours) ;;
         names <- map_py (fun i => list_item dias i) (map fst pivot) ;;
         let pivot := combine names (map snd pivot) in
         emit (Figure figsize) ;;
         plot_call (HeatmapPivot pivot (str_upper columna ++ " (µg/m³)")%string) ;;
         emit (Title ("Patrón Horario de " ++ str_upper columna ++ " por Día de la Semana")%string) ;;
         emit (XLabel "Hora del Día") ;;
         emit (YLabel "Día de la Semana") ;;
         emit TightLayout ;;
         savefig_if save_path ;;
         emit Show)%py
    | _ =>
        (* df_temp.index.dayofweek on an index that has no such field *)
        raise "AttributeError"
    end.

Definition plot_scatter_comparison (df : DataFrame) (col_x col_y : string)
    (figsize : Z * Z) (save_path : option string) : Py unit :=
  if negb (has_column col_x df) || negb (has_column col_y df) then
    emit (Print "❌ Una o ambas columnas no existen en el DataFrame.")
  else
    (emit (Figure figsize) ;;
     (if has_column "ica_category" df then
        (x <- column df col_x ;;
         y <- column df col_y ;;
         cat <- column df "ica_category" ;;
         (* df['ica_category'].map(ICA_COLORS) *)
         let c := map (fun v => match v with
                                | CStr k => lookup k ICA_COLORS
                                | _ => None
                                end) cat in
         plot_call (Scatter x y (inl c)))
      else
        (x <- column df col_x ;;
         y <- column df col_y ;;
         plot_call (Scatter x y (inr "purple")))) ;;
     emit (XLabel (str_upper col_x ++ " (µg/m³)")%string) ;;
     emit (YLabel (str_upper col_y ++ " (µg/m³)")%string) ;;
     emit (Title ("Relación entre " ++ str_upper col_x ++ " y " ++ str_upper col_y)%string) ;;
     emit Grid ;;
     emit TightLayout ;;
     savefig_if save_path ;;
     emit Show)%py.

End WithExternals.
End DataVisualization.

(** ** Parts of a run *)

Section LineChart.
Context {ext : Externals}.
Import DataVisualization.

(** What one requested column does in the line chart. *)
Definition line_step (df : DataFrame) (col : string) : Py unit :=
  if has_column col df then
    (y <- column df col ;; plot_call (Plot (index df) y (str_upper col)))%py
  else ret tt.

(** The lines of the requested columns that the table has. *)
Definition lines (df : DataFrame) (columnas : list string) : list Event :=
  flat_map (fun col =>
              match getitem df col with
              | Some y => [Plot (index df) y (str_upper col)]
              | None => []
              end) columnas.

End LineChart.

(** ** Reading a result *)

Definition Qsum (l : list Q) : Q := fold_right Qplus 0%Q l.

(** The (label, value) lines a call printed as its top list. *)
Definition printed_top (t : list Event) : list (string * Q) :=
  flat_map (fun e => match e with PrintCorr k v => [(k, v)] | _ => [] end) t.

(** The paths a call saved a figure to. *)
Definition saved_files (t : list Event) : list string :=
  flat_map (fun e => match e with Savefig p => [p] | _ => [] end) t.

(** The messages a call printed. *)
Definition printed (t : list Event) : list string :=
  flat_map (fun e => match e with Print msg => [msg] | _ => [] end) t.

(** ** Sample inputs *)

Definition cell_int (c : Cell) : Z := match c with CInt z => z | _ => 0 end.

Definition dot (xs ys : list Z) : Z :=
  Zsum (map (fun p => fst p * snd p) (combine xs ys)).

(** Pearson's r of two columns of integers, to four decimal places; NaN when
    one of them is constant. *)
Definition sample_pearson (a b : list Cell) : option Q :=
  let xs := map cell_int a in
  let ys := map cell_int b in
  let n := Z.of_nat (List.length xs) in
  let cov := n * dot xs ys - Zsum xs * Zsum ys in
  let vx := n * dot xs xs - Zsum xs * Zsum xs in
  let vy := n * dot ys ys - Zsum ys * Zsum ys in
  if vx * vy =? 0 then None
  else Some (Qmake (cov * 10000) (Z.to_pos (Z.sqrt (vx * vy * 100000000)))).

Definition ascii_upper (c : ascii) : ascii :=
  let n := nat_of_ascii c in
  if ((97 <=? n) && (n <=? 122))%nat then ascii_of_nat (n - 32) else c.

Fixpoint string_upper (s : string) : string :=
  match s with
  | EmptyString => EmptyString
  | String c s' => String (ascii_upper c) (string_upper s')
  end.

Definition is_text (c : Cell) : bool := match c with CStr _ => true | _ => false end.
Definition is_number (c : Cell) : bool :=
  match c with CInt _ | CFloat _ => true | _ => false end.

(** What the sample libraries refuse to draw: a line through a column that
    mixes numbers and text, points of which one has no colour, a heatmap of
    nothing. *)
Definition sample_draw_error (e : Event) : option string :=
  match e with
  | Plot _ y _ =>
      if existsb is_text y && existsb is_number y then Some "ValueError" else None
  | Scatter _ _ (inl c) =>
      if forallb is_some c then None else Some "ValueError"
  | HeatmapPivot [] _ => Some "ValueError"
  | _ => None
  end.

(** A small stand-in for the libraries: a timestamp is a number of hours
    since 1970-01-01 00:00 (a Thursday) and only timestamps parse as dates,
    the pivot table is left empty, a column with text in it is not numeric,
    the correlation is [sample_pearson] and upper case is that of ASCII
    letters. *)
Definition sample_externals : Externals := {|
  to_datetime := map (fun c => match c with CTime t => Some t | _ => None end);
  dayofweek := fun t => (t / 24 + 3) mod 7;
  hour := fun t => t mod 24;
  pivot_table_mean := fun _ _ _ => Returned [];
  float_error := fun v => if existsb is_text v then Some "ValueError" else None;
  pearson := sample_pearson;
  str_upper := string_upper;
  get_ica_colors := [("Buena", "#2ECC71"); ("Moderada", "#F1C40F")];
  draw_error := sample_draw_error
|}.

Definition df_sample : DataFrame :=
  mkDataFrame (RangeIndex 3)
    [ ("date", [CTime 0; CStr "bad"; CTime 25]);
      ("pm2_5", [CInt 5; CInt 6; CInt 7]);
      ("pm10", [CInt 2; CInt 6; CInt 7]);
      ("co", [CInt 3; CInt 6; CInt 7]);
      ("ica_category", [CStr "Buena"; CStr "Rara"; CStr "Buena"]) ].

(** Six rows, two of them without a category: one NaN, one None. *)
Definition df_gaps : DataFrame :=
  mkDataFrame (RangeIndex 6)
    [ ("ica_category",
       [CStr "Buena"; CNaN; CStr "Buena"; CNone; CStr "Moderada"; CStr "Buena"]) ].

(** Three rows, three categories. *)
Definition df_three : DataFrame :=
  mkDataFrame (RangeIndex 3)
    [ ("ica_category", [CStr "Buena"; CStr "Moderada"; CStr "Peligrosa"]) ].

(** Four rows of one category. *)
Definition df_uniform : DataFrame :=
  mkDataFrame (RangeIndex 4)
    [ ("pm2_5", [CInt 5; CInt 6; CInt 7; CInt 8]);
      ("ica_category", [CStr "Buena"; CStr "Buena"; CStr "Buena"; CStr "Buena"]) ].

(** A table with the column and no rows. *)
Definition df_empty : DataFrame :=
  mkDataFrame (RangeIndex 0) [ ("pm2_5", []); ("ica_category", []) ].

(** Two rows of one category in a column of category dtype that declares
    the five levels of the reference table. *)
Definition df_declared : DataFrame :=
  mkFrame (RangeIndex 2)
    [ ("pm2_5", [CInt 5; CInt 6]);
      ("ica_category", [CStr "Buena"; CStr "Buena"]) ]
    [ ("ica_category", map CStr DataInterpretation.ICA_ORDER) ].

(** The same column with no rows. *)
Definition df_declared_empty : DataFrame :=
  mkFrame (RangeIndex 0)
    [ ("pm2_5", []); ("ica_category", []) ]
    [ ("ica_category", map CStr DataInterpretation.ICA_ORDER) ].

(** A column that mixes numbers and text. *)
Definition df_mixed : DataFrame :=
  mkDataFrame (DatetimeIndex [0; 1; 2])
    [ ("pm2_5", [CInt 5; CStr "bad"; CInt 7]);
      ("pm10", [CInt 2; CInt 6; CInt 7]) ].

(** A table that is already indexed by time. *)
Definition df_timed : DataFrame :=
  mkDataFrame (DatetimeIndex [0; 1; 2])
    [ ("pm2_5", [CInt 5; CInt 6; CInt 7]) ].

(** ** The rest of src/data_visualization.py *)

(** Drawing calls the two remaining renderers make besides those of [Event]. *)
Inductive Drawing : Type :=
| Core (e : Event)
| RegPlot (x y : list Cell)
| BarHValues (y : list Z) (width : list Cell) (color : list string)
| YTickNames (ticks : list Z) (labels : list string)
| InvertYAxis.

(** A call of one of them: its result and its drawing calls, in order. *)
Definition PyD (A : Type) : Type := Result A * list Drawing.

Definition bindD {A B : Type} (c : PyD A) (k : A -> PyD B) : PyD B :=
  match fst c with
  | Returned a => let r := k a in (fst r, snd c ++ snd r)
  | Raised exc => (Raised exc, snd c)
  end.

(** A call of the first kind, run inside one of the second. *)
Definition lift {A : Type} (c : Py A) : PyD A := (fst c, map Core (snd c)).

Definition draw (d : Drawing) : PyD unit := (Returned tt, [d]).

Declare Scope pyd_scope.
Delimit Scope pyd_scope with pyd.
Notation "x <- c ;; k" := (bindD c (fun x => k))
  (at level 100, c at next level, right associativity) : pyd_scope.
Notation "c ;; k" := (bindD c (fun _ => k))
  (at level 100, right associativity) : pyd_scope.

(** [len(df)] *)
Definition nrows (df : DataFrame) : nat :=
  match index df with
  | RangeIndex n => n
  | DatetimeIndex ts => List.length ts
  | LabelIndex ls => List.length ls
  end.

(** [str(n)] for an int. *)
Definition str_int (n : Z) : string := NilZero.string_of_int (Z.to_int n).

Module DataProcessing.

(** What the renderers use of a [dp.EstacionCalidadAire]: its name, its
    table and its ranking of days, which may raise.  [src.data_processing]
    is a separate module; a station is taken as given. *)
Record EstacionCalidadAire : Type := {
  nombre : string;
  df : DataFrame;
  top_n_dias_mas_contaminados : string -> Z -> Py DataFrame
}.

End DataProcessing.

(** What the two renderers take from the libraries. *)
Class PlotExternals : Type := {
  (** [plt.cm.Reds(np.linspace(0.4, 0.9, n))] *)
  reds_linspace : Z -> Py (list string);
  (** [[str(d) for d in column.dt.date]] *)
  date_names : list Cell -> Py (list string)
}.

Module DataVisualizationRest.
Section WithExternals.
Context {ext : Externals} {pext : PlotExternals}.
Import DataProcessing.

Definition plot_top_n_contaminated_days (estacion : EstacionCalidadAire)
    (columna : string) (n : Z) (figsize : Z * Z) (save_path : option string) : PyD unit :=
  if negb (has_column columna (df estacion)) then
    lift (emit (Print ("❌ La columna '" ++ columna
                       ++ "' no existe en los datos de la estación '"
                       ++ nombre estacion ++ "'.")%string))
  else
    (top_dias <- lift (top_n_dias_mas_contaminados estacion columna n) ;;
     lift (emit (Figure figsize)) ;;
     colors <- lift (reds_linspace n) ;;
     width <- lift (column top_dias columna) ;;
     draw (BarHValues (range (nrows top_dias)) width colors) ;;
     fechas <- lift (column top_dias "date") ;;
     names <- lift (date_names fechas) ;;
     draw (YTickNames (range (nrows top_dias)) names) ;;
     lift (emit (XLabel (str_upper columna ++ " (µg/m³)")%string)) ;;
     lift (emit (YLabel "Fecha")) ;;
     lift (emit (Title ("Top " ++ str_int n ++ " Días más contaminados en "
                        ++ nombre estacion ++ " (" ++ str_upper columna ++ ")")%string)) ;;
     draw InvertYAxis ;;
     lift (emit Grid) ;;
     lift (emit TightLayout) ;;
     lift (savefig_if save_path) ;;
     lift (emit Show))%pyd.


End WithExternals.
End DataVisualizationRest.

(** ** Reading more of a result *)

(** The lines a call drew: x values, y values and label of each. *)
Definition plotted_lines (t : list Event) : list (Index * list Cell * string) :=
  flat_map (fun e => match e with Plot x y l => [(x, y, l)] | _ => [] end) t.

(** The scatter plots a call drew. *)
Definition scatters (t : list Event)
  : list (list Cell * list Cell * (list (option string) + string)) :=
  flat_map (fun e => match e with Scatter x y c => [(x, y, c)] | _ => [] end) t.

(** The figures a call opened. *)
Definition figures (t : list Event) : list (Z * Z) :=
  flat_map (fun e => match e with Figure s => [s] | _ => [] end) t.

(** The events of the first kind among the drawing calls. *)
Definition core_events (t : list Drawing) : list Event :=
  flat_map (fun d => match d with Core e => [e] | _ => [] end) t.

(** Every column has as many entries as the index has rows. *)
Definition rectangular (df : DataFrame) : Prop :=
  Forall (fun kv => List.length (snd kv) = nrows df) (cols df).

(** The entries that parsed, in order. *)
Definition valid_times (parsed : list (option Z)) : list Z :=
  flat_map (fun o => match o with Some t => [t] | None => [] end) parsed.

(** ** More sample inputs *)

(** A station over [df_sample] whose ranking gives the rows with the largest
    value first, as many as asked for. *)
Definition sample_ranking (columna : string) (n : Z) : Py DataFrame :=
  match getitem df_sample columna with
  | Some _ =>
      ret (mkDataFrame (LabelIndex [CInt 2; CInt 0])
             [ ("date", [CTime 25; CTime 0]);
               (columna, [CInt 7; CInt 5]) ])
  | None => raise "KeyError"
  end.

Definition sample_estacion : DataProcessing.EstacionCalidadAire := {|
  DataProcessing.nombre := "Centro";
  DataProcessing.df := df_sample;
  DataProcessing.top_n_dias_mas_contaminados := sample_ranking
|}.

(** Colours as their position on the scale, dates as day numbers. *)
Definition sample_plot_externals : PlotExternals := {|
  reds_linspace := fun n =>
    if n <? 0 then raise "ValueError"
    else ret (map (fun i => ("Reds#" ++ str_int i)%string) (range (Z.to_nat n)));
  date_names := fun cs =>
    match times_of cs with
    | Some ts => ret (map (fun t => ("day " ++ str_int (t / 24))%string) ts)
    | None => raise "AttributeError"
    end
|}.

(** A trace saves to the path it was given, once, or not at all. *)
Definition saves_only (save_path : option string) (t : list Event) : Prop :=
  saved_files t = []
  \/ exists p, save_path = Some p /\ p <> ""%string /\ saved_files t = [p].

(** * Properties *)

Import DataInterpretation.

(** ** Sorting and counting *)

Section SortingFacts.
Context {A : Type}.
Variable leb : A -> A -> bool.
Hypothesis leb_total : forall a b, leb a b = true \/ leb b a = true.
Hypothesis leb_trans : forall a b c, leb a b = true -> leb b c = true -> leb a c = true.

Lemma insert_desc_perm (x : A) (l : list A) :
  Permutation (insert_desc leb x l) (x :: l).
Proof.
  induction l as [|y l IH]; simpl.
  - apply Permutation_refl.
  - destruct (leb y x).
    + apply Permutation_refl.
    + apply Permutation_trans with (y :: x :: l).
      * now apply perm_skip.
      * apply perm_swap.
Qed.

Lemma sort_desc_perm (l : list A) : Permutation (sort_desc leb l) l.
Proof.
  induction l as [|x l IH]; simpl.
  - apply perm_nil.
  - eapply Permutation_trans; [apply insert_desc_perm|]. now apply perm_skip.
Qed.

Lemma insert_desc_sorted (x : A) (l : list A) :
  descending leb l -> descending leb (insert_desc leb x l).
Proof.
  unfold descending. induction 1 as [|y l Hs IH Hy]; simpl.
  - constructor; [constructor | constructor].
  - destruct (leb y x) eqn:E.
    + constructor.
      * now constructor.
      * constructor; [exact E|].
        eapply Forall_impl; [|exact Hy]. intros z Hz. simpl in Hz.
        now apply leb_trans with y.
    + constructor; [exact IH|].
      assert (Hxy : leb x y = true) by (destruct (leb_total x y); congruence).
      eapply Permutation_Forall; [apply Permutation_sym, insert_desc_perm|].
      now constructor.
Qed.

Lemma sort_desc_sorted (l : list A) : descending leb (sort_desc leb l).
Proof.
  induction l as [|x l IH]; simpl.
  - constructor.
  - now apply insert_desc_sorted.
Qed.

End SortingFacts.

Lemma Cell_eqb_eq (a b : Cell) : Cell_eqb a b = true <-> a = b.
Proof.
  unfold Cell_eqb. destruct (Cell_eq_dec a b); split; congruence.
Qed.

Lemma list_sum_map_add {B : Type} (f g : B -> nat) (u : list B) :
  list_sum (map (fun c => f c + g c)%nat u) = (list_sum (map f u) + list_sum (map g u))%nat.
Proof.
  induction u as [|x u IH]; simpl; [reflexivity|]. rewrite IH. lia.
Qed.

Section CountingFacts.
Context {A : Type}.
Variable dec : forall a b : A, {a = b} + {a <> b}.

(** How many of the distinct values [u] equal [y]: one when it is among them. *)
Lemma hits_NoDup (u : list A) (y : A) :
  NoDup u ->
  list_sum (map (fun c => if dec y c then 1 else 0)%nat u)
  = if existsb (fun c => if dec y c then true else false) u then 1%nat else 0%nat.
Proof.
  induction 1 as [|x u Hx Hu IH]; simpl; [reflexivity|].
  destruct (dec y x) as [->|Hne]; simpl.
  - rewrite IH. destruct (existsb _ u) eqn:E; [|reflexivity].
    apply existsb_exists in E. destruct E as [z [Hz E]].
    destruct (dec x z) as [->|]; [contradiction | discriminate].
  - exact IH.
Qed.

(** Counting [l] value by value over distinct values [u] counts the entries
    of [l] whose value is among [u]. *)
Lemma count_by_value (u l : list A) :
  NoDup u ->
  list_sum (map (count_occ dec l) u)
  = List.length (filter (fun y => existsb (fun c => if dec y c then true else false) u) l).
Proof.
  intros Hu. induction l as [|y l IH]; simpl.
  - induction u; simpl; [reflexivity|]. inversion Hu; subst; auto.
  - rewrite (map_ext _ (fun c => (if dec y c then 1 else 0) + count_occ dec l c)%nat).
    + rewrite (list_sum_map_add _ (count_occ dec l)), hits_NoDup, IH by assumption.
      destruct (existsb _ u); reflexivity.
    + intros c. destruct (dec y c); reflexivity.
Qed.

End CountingFacts.

(** ** Values as keys *)

Lemma same_value_iff (a b : Cell) : same_value a b = true <-> key a = key b.
Proof.
  unfold same_value. destruct (Key_eq_dec (key a) (key b)); split; congruence.
Qed.

Lemma same_value_false (a b : Cell) : same_value a b = false <-> key a <> key b.
Proof.
  unfold same_value. destruct (Key_eq_dec (key a) (key b)); split; congruence.
Qed.

Lemma same_value_refl (a : Cell) : same_value a a = true.
Proof. now apply same_value_iff. Qed.

(** A text is the same value as that text only. *)
Lemma key_str (c : Cell) (a : string) : key c = KStr a <-> c = CStr a.
Proof.
  split; [|now intros ->].
  destruct c as [| | |s|z|x|t]; try discriminate.
  - now intros [= ->].
  - destruct x; discriminate.
Qed.

(** What is missing is decided by the key. *)
Lemma isna_key (c : Cell) :
  isna c = match key c with KNone | KNaN | KNaT => true | _ => false end.
Proof.
  destruct c as [| | |s|z|x|t]; try reflexivity. now destruct x.
Qed.

Lemma unique_incl (l : list Cell) (c : Cell) : In c (unique l) -> In c l.
Proof.
  induction l as [|x l IH]; simpl; [tauto|].
  rewrite filter_In. intros [H|[H _]]; [now left | right; now apply IH].
Qed.

(** Every value of [l] has its key among the distinct values. *)
Lemma key_unique_In (l : list Cell) (c : Cell) :
  In c l -> In (key c) (map key (unique l)).
Proof.
  induction l as [|x l IH]; simpl; [tauto|].
  destruct (Key_eq_dec (key x) (key c)) as [E|Hne]; [now left|].
  intros [->|Hin]; [congruence|]. right.
  specialize (IH Hin). apply in_map_iff in IH. destruct IH as [k [Hk Hin']].
  apply in_map_iff. exists k. split; [exact Hk|].
  apply filter_In. split; [exact Hin'|].
  apply negb_true_iff, same_value_false. congruence.
Qed.

(** The distinct values are pairwise different as keys. *)
Lemma key_unique_NoDup (l : list Cell) : NoDup (map key (unique l)).
Proof.
  induction l as [|x l IH]; simpl; constructor.
  - intros Hin. apply in_map_iff in Hin. destruct Hin as [k [Hk Hin]].
    apply filter_In in Hin. destruct Hin as [_ Hne].
    apply negb_true_iff, same_value_false in Hne. congruence.
  - clear -IH. induction (unique l) as [|y u IHu]; simpl; [constructor|].
    inversion IH as [|? ? Hy Hu]; subst.
    destruct (negb (same_value x y)); simpl; [|now apply IHu].
    constructor; [|now apply IHu].
    intros Hin. apply Hy. apply in_map_iff in Hin. destruct Hin as [k [Hk Hin]].
    apply filter_In in Hin. apply in_map_iff. exists k. tauto.
Qed.

Lemma unique_NoDup (l : list Cell) : NoDup (unique l).
Proof. apply (NoDup_map_inv key), key_unique_NoDup. Qed.

(** A text among the values is among the distinct values as it stands. *)
Lemma unique_In_str (l : list Cell) (a : string) :
  In (CStr a) (unique l) <-> In (CStr a) l.
Proof.
  split; [apply unique_incl|]. intros Hin.
  apply key_unique_In in Hin. apply in_map_iff in Hin. destruct Hin as [k [Hk Hin]].
  apply key_str in Hk. now subst.
Qed.

(** A list of values without repetition is its own list of distinct values. *)
Lemma unique_distinct (l : list Cell) : NoDup (map key l) -> unique l = l.
Proof.
  induction l as [|x l IH]; simpl; [reflexivity|]. intros H.
  inversion H as [|? ? Hx Hl]; subst. rewrite (IH Hl). f_equal.
  apply forallb_filter_id, forallb_forall. intros y Hy.
  apply negb_true_iff, same_value_false. intros E. apply Hx. rewrite E. now apply in_map.
Qed.

Lemma occurrences_filter (c : Cell) (l : list Cell) :
  occurrences c l = Z.of_nat (List.length (filter (same_value c) l)).
Proof.
  unfold occurrences. f_equal. induction l as [|y l IH]; simpl; [reflexivity|].
  unfold same_value at 1.
  destruct (Key_eq_dec (key y) (key c)) as [E|Hne], (Key_eq_dec (key c) (key y)) as [E'|Hne'];
    try congruence; simpl; now rewrite IH.
Qed.

(** The rows that hold a text are the rows that read it. *)
Lemma occurrences_str (a : string) (l : list Cell) :
  occurrences (CStr a) l = Z.of_nat (count_occ Cell_eq_dec l (CStr a)).
Proof.
  unfold occurrences. f_equal. change (key (CStr a)) with (KStr a).
  induction l as [|y l IH]; cbn [map count_occ]; [reflexivity|].
  destruct (Key_eq_dec (key y) (KStr a)) as [E|Hne], (Cell_eq_dec y (CStr a)) as [E'|Hne'].
  - now rewrite IH.
  - apply key_str in E. contradiction.
  - subst y. now contradiction Hne.
  - exact IH.
Qed.

Lemma occurrences_nonneg (c : Cell) (l : list Cell) : 0 <= occurrences c l.
Proof. unfold occurrences. lia. Qed.

Lemma occurrences_not_In (c : Cell) (l : list Cell) :
  ~ In (key c) (map key l) -> occurrences c l = 0.
Proof.
  intros H. unfold occurrences.
  now rewrite (proj1 (count_occ_not_In Key_eq_dec _ _) H).
Qed.

Lemma occurrences_In (c : Cell) (l : list Cell) :
  In (key c) (map key l) -> 1 <= occurrences c l.
Proof.
  intros H. apply (count_occ_In Key_eq_dec) in H. unfold occurrences. lia.
Qed.

(** Dropping the missing entries leaves the count of a value that is not
    missing as it was. *)
Lemma occurrences_notna (c : Cell) (l : list Cell) :
  isna c = false -> occurrences c (filter notna l) = occurrences c l.
Proof.
  intros Hc. unfold occurrences. f_equal. induction l as [|y l IH]; [reflexivity|].
  cbn [filter]. unfold notna at 1. destruct (isna y) eqn:E; cbn [negb map count_occ].
  - destruct (Key_eq_dec (key y) (key c)) as [Ek|_]; [|exact IH].
    rewrite isna_key in E, Hc. rewrite Ek in E. congruence.
  - now rewrite IH.
Qed.

(** Counted over the distinct values of a list that holds all of [l], the
    occurrences in [l] add up to its length. *)
Lemma count_unique (d l : list Cell) :
  list_sum (map (fun c => count_occ Key_eq_dec (map key l) (key c)) (unique (d ++ l)))
  = List.length l.
Proof.
  rewrite <- (map_map key (count_occ Key_eq_dec (map key l))).
  rewrite (count_by_value Key_eq_dec) by apply key_unique_NoDup.
  rewrite forallb_filter_id; [apply length_map|].
  apply forallb_forall. intros k Hk. apply in_map_iff in Hk. destruct Hk as [y [<- Hy]].
  apply existsb_exists. exists (key y). split.
  - apply key_unique_In. apply in_or_app. now right.
  - now destruct (Key_eq_dec (key y) (key y)).
Qed.

Lemma Zsum_of_nat (l : list nat) : Zsum (map Z.of_nat l) = Z.of_nat (list_sum l).
Proof.
  unfold Zsum. induction l as [|x l IH]; simpl; [reflexivity|]. rewrite IH. lia.
Qed.

Lemma Zsum_perm (l l' : list Z) : Permutation l l' -> Zsum l = Zsum l'.
Proof.
  unfold Zsum. induction 1; simpl; lia.
Qed.

(** ** Series facts *)

Lemma count_leb_total (a b : Cell * Z) :
  (snd a <=? snd b) = true \/ (snd b <=? snd a) = true.
Proof. rewrite !Z.leb_le. lia. Qed.

Lemma count_leb_trans (a b c : Cell * Z) :
  (snd a <=? snd b) = true -> (snd b <=? snd c) = true -> (snd a <=? snd c) = true.
Proof. rewrite !Z.leb_le. lia. Qed.

Lemma value_counts_perm (dropna : bool) (declared s : list Cell) :
  let s' := if dropna then filter notna s else s in
  Permutation (value_counts dropna declared s)
              (map (fun c => (c, occurrences c s')) (unique (declared ++ s'))).
Proof. intros s'. unfold value_counts. apply sort_desc_perm. Qed.

Lemma value_counts_keys (dropna : bool) (declared s : list Cell) :
  Permutation (map fst (value_counts dropna declared s))
              (unique (declared ++ if dropna then filter notna s else s)).
Proof.
  eapply Permutation_trans; [apply Permutation_map, value_counts_perm|].
  rewrite map_map. simpl. rewrite map_id. apply Permutation_refl.
Qed.

Lemma value_counts_entry (dropna : bool) (declared s : list Cell) (kv : Cell * Z) :
  In kv (value_counts dropna declared s) ->
  snd kv = occurrences (fst kv) (if dropna then filter notna s else s).
Proof.
  intros H. eapply Permutation_in in H; [|apply value_counts_perm].
  apply in_map_iff in H. destruct H as [c [<- _]]. reflexivity.
Qed.

Lemma value_counts_descending (dropna : bool) (declared s : list Cell) :
  descending (fun a b : Cell * Z => snd a <=? snd b) (value_counts dropna declared s).
Proof.
  apply sort_desc_sorted; [apply count_leb_total | apply count_leb_trans].
Qed.

Lemma value_counts_total (dropna : bool) (declared s : list Cell) :
  Zsum (map snd (value_counts dropna declared s))
  = Z.of_nat (List.length (if dropna then filter notna s else s)).
Proof.
  rewrite (Zsum_perm _ _ (Permutation_map snd (value_counts_perm dropna declared s))).
  rewrite map_map. simpl. unfold occurrences.
  rewrite <- (map_map (fun c => count_occ Key_eq_dec _ (key c)) Z.of_nat), Zsum_of_nat.
  f_equal. apply count_unique.
Qed.

Lemma descending_map {A B : Type} (f : A -> B) (lebA : A -> A -> bool)
    (lebB : B -> B -> bool) (l : list A) :
  (forall a b, lebA a b = lebB (f a) (f b)) ->
  descending lebA l -> descending lebB (map f l).
Proof.
  intros Hf. unfold descending. induction 1 as [|x l Hs IH Hx]; simpl; constructor.
  - exact IH.
  - apply Forall_map. eapply Forall_impl; [|exact Hx]. intros a Ha. simpl in *.
    now rewrite <- Hf.
Qed.

(** ** Frames *)

Lemma lookup_existsb {A : Type} (name : string) (l : list (string * A)) :
  existsb (String.eqb name) (map fst l) = match lookup name l with Some _ => true | None => false end.
Proof.
  induction l as [|[k v] l IH]; simpl; [reflexivity|].
  destruct (String.eqb name k); [reflexivity | exact IH].
Qed.

Lemma getitem_has_column (df : DataFrame) (name : string) (s : list Cell) :
  getitem df name = Some s -> has_column name df = true.
Proof.
  unfold getitem, has_column, columns. intros H. now rewrite lookup_existsb, H.
Qed.

Lemma has_column_getitem (df : DataFrame) (name : string) :
  has_column name df = true -> exists s, getitem df name = Some s.
Proof.
  unfold getitem, has_column, columns. rewrite lookup_existsb.
  destruct (lookup name (cols df)) as [s|]; [now exists s | discriminate].
Qed.

Lemma has_column_In (df : DataFrame) (name : string) :
  has_column name df = true <-> In name (columns df).
Proof.
  unfold has_column. rewrite existsb_exists. split.
  - intros [k [Hk E]]. apply String.eqb_eq in E. now subst.
  - intros H. exists name. split; [exact H | apply String.eqb_refl].
Qed.

(** ** The distribution summary *)

(** What [category_distribution] returns on a table that has the column. *)
Lemma category_distribution_eq (df : DataFrame) (cat_col : string) (s : list Cell) :
  getitem df cat_col = Some s ->
  let counts := value_counts false (categories_of df cat_col) s in
  category_distribution df cat_col =
    (Returned (Some
       (mkFrame (RangeIndex (List.length counts))
          [ ("Categoría", map fst counts);
            ("conteo", map CInt (map snd counts));
            ("porcentaje",
             map (fun n => CFloat (porcentaje_of n (Z.of_nat (List.length s))))
                 (map snd counts)) ]
          (match lookup cat_col (categories df) with
           | Some declared => [("Categoría", declared)]
           | None => []
           end))), []).
Proof.
  intros H counts. unfold category_distribution, column.
  rewrite (getitem_has_column _ _ _ H), H.
  unfold bind, ret; cbn [fst snd negb app].
  fold counts.
  unfold setitem. cbn [has_column columns cols index categories existsb map fst orb String.eqb Ascii.eqb Bool.eqb andb].
  subst counts.
  rewrite (value_counts_total false _ s), (map_map snd CInt).
  destruct (lookup cat_col (categories df)); reflexivity.
Qed.

(** ** binary64 facts *)

Lemma located_ext (y y' : Q) (m : Z) (l : location) :
  (y == y')%Q -> located y m l -> located y' m l.
Proof.
  intros E. destruct l as [|[]]; simpl; intros H; lra.
Qed.

Lemma inject_Z_xI (p : positive) : (inject_Z (Zpos p~1) == 2 * inject_Z (Zpos p) + 1)%Q.
Proof.
  change (Zpos p~1) with (2 * Zpos p + 1). rewrite inject_Z_plus, inject_Z_mult.
  reflexivity.
Qed.

Lemma inject_Z_xO (p : positive) : (inject_Z (Zpos p~0) == 2 * inject_Z (Zpos p))%Q.
Proof.
  change (Zpos p~0) with (2 * Zpos p). rewrite inject_Z_mult. reflexivity.
Qed.

(** One step to the right halves the value and keeps track of where it lies. *)
Lemma shr_1_located (mrs : shr_record) (y : Q) :
  0 <= shr_m mrs ->
  located (2 * y) (shr_m mrs) (loc_of_shr_record mrs) ->
  located y (shr_m (shr_1 mrs)) (loc_of_shr_record (shr_1 mrs))
  /\ shr_m (shr_1 mrs) = shr_m mrs / 2.
Proof.
  destruct mrs as [m r s]. cbn [shr_m]. intros Hm H.
  destruct m as [|p|p]; [|destruct p as [p|p|]|lia].
  - split; [|reflexivity].
    destruct r, s; simpl in *; change (inject_Z 0) with 0%Q in *; lra.
  - split.
    + pose proof (inject_Z_xI p) as E.
      destruct r, s; simpl in *; lra.
    + cbn [shr_1 shr_m]. apply (Z.div_unique _ 2 _ 1); lia.
  - split.
    + pose proof (inject_Z_xO p) as E.
      destruct r, s; simpl in *; lra.
    + cbn [shr_1 shr_m]. apply (Z.div_unique _ 2 _ 0); lia.
  - split; [|reflexivity].
    destruct r, s; simpl in *; change (inject_Z 0) with 0%Q in *;
      change (inject_Z 1) with 1%Q in *; lra.
Qed.

Lemma pow2_pos (k : Z) : 0 <= k -> 0 < 2 ^ k.
Proof. intros. apply Z.pow_pos_nonneg; lia. Qed.

Lemma pow2_xO (n : positive) : 2 ^ Zpos n~0 = 2 ^ Zpos n * 2 ^ Zpos n.
Proof.
  replace (Zpos n~0) with (Zpos n + Zpos n) by lia.
  apply Z.pow_add_r; lia.
Qed.

Lemma pow2_xI (n : positive) : 2 ^ Zpos n~1 = 2 * (2 ^ Zpos n * 2 ^ Zpos n).
Proof.
  replace (Zpos n~1) with (1 + (Zpos n + Zpos n)) by lia.
  rewrite !Z.pow_add_r by lia. reflexivity.
Qed.

Lemma iter_pos_shr (n : positive) :
  forall (mrs : shr_record) (y : Q),
    0 <= shr_m mrs ->
    located (inject_Z (2 ^ Zpos n) * y) (shr_m mrs) (loc_of_shr_record mrs) ->
    located y (shr_m (iter_pos shr_1 n mrs)) (loc_of_shr_record (iter_pos shr_1 n mrs))
    /\ shr_m (iter_pos shr_1 n mrs) = shr_m mrs / 2 ^ Zpos n.
Proof.
  induction n as [n IH|n IH|]; intros mrs y Hm H; cbn [iter_pos].
  - assert (E : (inject_Z (2 ^ Zpos n~1) * y
                 == 2 * (inject_Z (2 ^ Zpos n) * (inject_Z (2 ^ Zpos n) * y)))%Q).
    { rewrite pow2_xI, !inject_Z_mult. change (inject_Z 2) with 2%Q. ring. }
    apply (located_ext _ _ _ _ E) in H.
    destruct (shr_1_located mrs _ Hm H) as [H1 E1].
    assert (Hm1 : 0 <= shr_m (shr_1 mrs)) by (rewrite E1; apply Z.div_pos; lia).
    destruct (IH _ _ Hm1 H1) as [H2 E2].
    assert (Hm2 : 0 <= shr_m (iter_pos shr_1 n (shr_1 mrs))).
    { rewrite E2. apply Z.div_pos; [lia | apply pow2_pos; lia]. }
    destruct (IH _ _ Hm2 H2) as [H3 E3].
    split; [exact H3|]. rewrite E3, E2, E1.
    pose proof (pow2_pos (Zpos n) ltac:(lia)).
    rewrite !Z.div_div by lia. f_equal. rewrite pow2_xI. lia.
  - assert (E : (inject_Z (2 ^ Zpos n~0) * y
                 == inject_Z (2 ^ Zpos n) * (inject_Z (2 ^ Zpos n) * y))%Q).
    { rewrite pow2_xO, !inject_Z_mult. ring. }
    apply (located_ext _ _ _ _ E) in H.
    destruct (IH _ _ Hm H) as [H2 E2].
    assert (Hm2 : 0 <= shr_m (iter_pos shr_1 n mrs)).
    { rewrite E2. apply Z.div_pos; [lia | apply pow2_pos; lia]. }
    destruct (IH _ _ Hm2 H2) as [H3 E3].
    split; [exact H3|]. rewrite E3, E2.
    pose proof (pow2_pos (Zpos n) ltac:(lia)).
    rewrite !Z.div_div by lia. f_equal. now rewrite pow2_xO.
  - change (inject_Z (2 ^ 1)) with 2%Q in H. change (2 ^ 1) with 2.
    now apply shr_1_located.
Qed.

Lemma digits2_pos_lower (p : positive) : 2 ^ (Zpos (digits2_pos p) - 1) <= Zpos p.
Proof.
  induction p as [p IH|p IH|]; simpl digits2_pos.
  - rewrite Pos2Z.inj_succ. replace (Z.succ (Zpos (digits2_pos p)) - 1) with (Z.succ (Zpos (digits2_pos p) - 1)) by lia.
    rewrite Z.pow_succ_r by lia. lia.
  - rewrite Pos2Z.inj_succ. replace (Z.succ (Zpos (digits2_pos p)) - 1) with (Z.succ (Zpos (digits2_pos p) - 1)) by lia.
    rewrite Z.pow_succ_r by lia. lia.
  - simpl. lia.
Qed.

Lemma digits2_pos_upper (p : positive) : Zpos p < 2 ^ Zpos (digits2_pos p).
Proof.
  induction p as [p IH|p IH|]; simpl digits2_pos.
  - rewrite Pos2Z.inj_succ, Z.pow_succ_r by lia. lia.
  - rewrite Pos2Z.inj_succ, Z.pow_succ_r by lia. lia.
  - simpl. lia.
Qed.

(** The number of binary digits is settled by the powers of two around. *)
Lemma digits2_pos_unique (p : positive) (k : Z) :
  2 ^ (k - 1) <= Zpos p < 2 ^ k -> Zpos (digits2_pos p) = k.
Proof.
  intros [Hl Hu].
  pose proof (digits2_pos_lower p) as Hl'. pose proof (digits2_pos_upper p) as Hu'.
  set (d := Zpos (digits2_pos p)) in *.
  assert (Hd : 0 < d) by (subst d; lia).
  destruct (Z.lt_trichotomy d k) as [H|[H|H]]; [|exact H|]; exfalso.
  - assert (2 ^ d <= 2 ^ (k - 1)) by (apply Z.pow_le_mono_r; lia). lia.
  - destruct (Z.le_gt_cases 0 k) as [Hk|Hk].
    + assert (2 ^ k <= 2 ^ (d - 1)) by (apply Z.pow_le_mono_r; lia). lia.
    + rewrite (Z.pow_neg_r 2 k) in Hu by lia. lia.
Qed.

(** Rounding to nearest moves the value by half a unit at most. *)
Lemma round_nearest_even_located (m : Z) (l : location) (y : Q) :
  located y m l ->
  (round_nearest_even m l = m \/ round_nearest_even m l = m + 1)
  /\ (- (1 # 2) <= inject_Z (round_nearest_even m l) - y <= 1 # 2)%Q.
Proof.
  intros H. pose proof (inject_Z_plus m 1) as E. change (inject_Z 1) with 1%Q in E.
  destruct l as [|[]]; simpl in *.
  - split; [now left | lra].
  - destruct (Z.even m); [split; [now left | lra]|].
    split; [now right|]. rewrite E. lra.
  - split; [now left | lra].
  - split; [now right|]. rewrite E. lra.
Qed.

Lemma loc_of_shr_record_of_loc (m : Z) (l : location) :
  loc_of_shr_record (shr_record_of_loc m l) = l /\ shr_m (shr_record_of_loc m l) = m.
Proof. destruct l as [|[]]; split; reflexivity. Qed.

(** The first step of [binary_round_aux] on a mantissa of [d >= 53] digits:
    [d - 53] digits are shifted out. *)
Lemma shr_fexp_located (mx : positive) (ex : Z) (lx : location) (y : Q) :
  let d := Zpos (digits2_pos mx) in
  53 <= d ->
  -1074 <= ex + d - 53 ->
  located (inject_Z (2 ^ (d - 53)) * y) (Zpos mx) lx ->
  exists mrs,
    shr_fexp 53 1024 (Zpos mx) ex lx = (mrs, ex + (d - 53))
    /\ located y (shr_m mrs) (loc_of_shr_record mrs)
    /\ 2 ^ 52 <= shr_m mrs < 2 ^ 53.
Proof.
  intros d Hd He H.
  pose proof (digits2_pos_lower mx) as Hl. pose proof (digits2_pos_upper mx) as Hu.
  fold d in Hl, Hu.
  unfold shr_fexp, fexp, emin. cbn [Zdigits2]. fold d.
  replace (Z.max (d + ex - 53) (3 - 1024 - 53) - ex) with (d - 53) by lia.
  destruct (d - 53) as [|n|n] eqn:En; [| |lia].
  - exists (shr_record_of_loc (Zpos mx) lx).
    destruct (loc_of_shr_record_of_loc (Zpos mx) lx) as [-> ->].
    split; [cbn [shr]; f_equal; lia|]. split.
    + eapply located_ext; [|exact H]. change (inject_Z (2 ^ 0)) with 1%Q. ring.
    + replace d with 53 in * by lia. lia.
  - destruct (iter_pos_shr n (shr_record_of_loc (Zpos mx) lx) y) as [H1 E1].
    + destruct (loc_of_shr_record_of_loc (Zpos mx) lx) as [_ ->]. lia.
    + destruct (loc_of_shr_record_of_loc (Zpos mx) lx) as [-> ->]. exact H.
    + eexists. split; [reflexivity|]. split; [exact H1|].
      rewrite E1. destruct (loc_of_shr_record_of_loc (Zpos mx) lx) as [_ ->].
      pose proof (pow2_pos (Zpos n) ltac:(lia)) as Hp.
      assert (E52 : 2 ^ (d - 1) = 2 ^ 52 * 2 ^ Zpos n).
      { rewrite <- Z.pow_add_r by lia. f_equal. lia. }
      assert (E53 : 2 ^ d = 2 ^ 53 * 2 ^ Zpos n).
      { rewrite <- Z.pow_add_r by lia. f_equal. lia. }
      split.
      * apply Z.div_le_lower_bound; lia.
      * apply Z.div_lt_upper_bound; lia.
Qed.

(** [binary_round_aux] on a mantissa of at least 53 digits, away from the
    ends of the exponent range: the result is a normal number, and at the
    scale of its last digit it is within half a unit of the value rounded. *)
Lemma binary_round_aux_spec (mx : positive) (ex : Z) (lx : location) (y : Q) :
  let d := Zpos (digits2_pos mx) in
  53 <= d ->
  -1074 <= ex + d - 53 ->
  ex + d - 52 <= 971 ->
  located (inject_Z (2 ^ (d - 53)) * y) (Zpos mx) lx ->
  exists m e,
    binary_round_aux 53 1024 false (Zpos mx) ex lx = S754_finite false m e
    /\ Zpos (digits2_pos m) = 53
    /\ (e = ex + (d - 53) \/ e = ex + (d - 53) + 1)
    /\ (inject_Z (2 ^ 52) <= y)%Q
    /\ (- (1 # 2) <= inject_Z (Zpos m * 2 ^ (e - (ex + (d - 53)))) - y <= 1 # 2)%Q.
Proof.
  intros d Hd Hlo Hhi H.
  destruct (shr_fexp_located mx ex lx y Hd Hlo H) as [mrs [E1 [Hloc [Hm1l Hm1u]]]].
  fold d in E1. set (e1 := ex + (d - 53)) in *.
  destruct (round_nearest_even_located _ _ _ Hloc) as [Hm2 Hr].
  set (m1 := shr_m mrs) in *.
  set (m2 := round_nearest_even m1 (loc_of_shr_record mrs)) in *.
  assert (Hy : (inject_Z (2 ^ 52) <= y)%Q).
  { assert (Hq : (inject_Z (2 ^ 52) <= inject_Z m1)%Q) by (rewrite <- Zle_Qle; exact Hm1l).
    destruct (loc_of_shr_record mrs) as [|[]]; simpl in Hloc; lra. }
  unfold binary_round_aux. rewrite E1. fold m1. fold m2.
  destruct (Z.eq_dec m2 (2 ^ 53)) as [E2|N2].
  - rewrite E2 in *. exists (4503599627370496%positive), (e1 + 1).
    split; [|split; [reflexivity|split; [now right|split; [exact Hy|]]]].
    + unfold shr_fexp, fexp, emin. cbn [Zdigits2 digits2_pos Pos.succ Z.pow Z.pow_pos Pos.iter Z.mul Pos.mul].
      replace (Z.max (54 + e1 - 53) (3 - 1024 - 53) - e1) with 1 by lia.
      cbn [shr iter_pos shr_record_of_loc shr_1 Z.pow_pos Pos.iter Z.mul Pos.mul shr_m].
      replace (e1 + 1 <=? 1024 - 53) with true by (symmetry; apply Z.leb_le; lia).
      reflexivity.
    + replace (e1 + 1 - e1) with 1 by lia.
      change (Z.pos 4503599627370496 * 2 ^ 1) with (2 ^ 53). exact Hr.
  - assert (Hpos : 0 < m2) by lia.
    destruct m2 as [|p|p] eqn:Ep; try lia.
    assert (Hdig : Zpos (digits2_pos p) = 53) by (apply digits2_pos_unique; lia).
    exists p, e1.
    split; [|split; [exact Hdig|split; [now left|split; [exact Hy|]]]].
    + unfold shr_fexp, fexp, emin. cbn [Zdigits2]. rewrite Hdig.
      replace (Z.max (53 + e1 - 53) (3 - 1024 - 53) - e1) with 0 by lia.
      cbn [shr shr_record_of_loc shr_m].
      replace (e1 <=? 1024 - 53) with true by (symmetry; apply Z.leb_le; lia).
      reflexivity.
    + rewrite Z.sub_diag, Z.pow_0_r, Z.mul_1_r. exact Hr.
Qed.

(** *** Relative error *)

Lemma pow2Q_pos (e : Z) : (0 < 2 ^ e)%Q.
Proof. apply Qpower_0_lt. reflexivity. Qed.

Lemma pow2Q_add (a b : Z) : (2 ^ (a + b) == 2 ^ a * 2 ^ b)%Q.
Proof. apply Qpower_plus. discriminate. Qed.

Lemma pow2Q_inject (k : Z) : 0 <= k -> (inject_Z (2 ^ k) == 2 ^ k)%Q.
Proof. intros Hk. now rewrite Zpower_Qpower. Qed.

Lemma to_Q_finite (m : positive) (e : Z) :
  (Float64.to_Q (S754_finite false m e) == inject_Z (Zpos m) * 2 ^ e)%Q.
Proof. reflexivity. Qed.

(** Rounding a value located at a mantissa of at least 53 digits gives a
    normal double within the relative error [u64] of the value. *)
Lemma binary_round_aux_rel (mx : positive) (ex : Z) (lx : location) (y0 : Q) :
  let d := Zpos (digits2_pos mx) in
  53 <= d ->
  -1074 <= ex + d - 53 ->
  ex + d - 52 <= 971 ->
  located y0 (Zpos mx) lx ->
  exists m e,
    binary_round_aux 53 1024 false (Zpos mx) ex lx = S754_finite false m e
    /\ Zpos (digits2_pos m) = 53
    /\ (e = ex + (d - 53) \/ e = ex + (d - 53) + 1)
    /\ (0 < y0 * 2 ^ ex)%Q
    /\ (Qabs (Float64.to_Q (S754_finite false m e) - y0 * 2 ^ ex) <= y0 * 2 ^ ex * u64)%Q.
Proof.
  intros d Hd Hlo Hhi H.
  pose proof (pow2_pos (d - 53) ltac:(lia)) as Hs.
  assert (Hsq : (0 < inject_Z (2 ^ (d - 53)))%Q).
  { change 0%Q with (inject_Z 0). rewrite <- Zlt_Qlt. exact Hs. }
  set (S := inject_Z (2 ^ (d - 53))) in *.
  set (y := (y0 / S)%Q).
  assert (Ey : (S * y == y0)%Q) by (unfold y; field; lra).
  assert (Hloc : located (S * y) (Zpos mx) lx) by (eapply located_ext; [symmetry; exact Ey | exact H]).
  destruct (binary_round_aux_spec mx ex lx y Hd Hlo Hhi Hloc)
    as [m [e [E [Hdig [He [Hy Hr]]]]]].
  fold d in He, Hr. exists m, e.
  split; [exact E|]. split; [exact Hdig|]. split; [exact He|].
  set (e1 := ex + (d - 53)) in *.
  assert (Hk : 0 <= e - e1 <= 1) by (destruct He; lia).
  pose proof (pow2Q_pos e1) as HE.
  assert (Ex : (y0 * 2 ^ ex == y * 2 ^ e1)%Q).
  { unfold e1. rewrite pow2Q_add, <- Ey. unfold S. rewrite pow2Q_inject by lia. ring. }
  assert (Ef : (Float64.to_Q (S754_finite false m e)
                == inject_Z (Zpos m * 2 ^ (e - e1)) * 2 ^ e1)%Q).
  { rewrite to_Q_finite. replace e with ((e - e1) + e1) at 1 by lia.
    rewrite pow2Q_add, inject_Z_mult, pow2Q_inject by lia. ring. }
  change (inject_Z (2 ^ 52)) with (4503599627370496 # 1)%Q in Hy.
  split.
  - rewrite Ex. apply Qmult_lt_0_compat; [lra | exact HE].
  - rewrite Ef, Ex. set (M := inject_Z (Zpos m * 2 ^ (e - e1))) in *.
    set (E1 := (2 ^ e1)%Q) in *. unfold u64.
    apply Qabs_Qle_condition. split.
    + assert (H1 : (0 <= (M - y + y * (1 # 9007199254740992)) * E1)%Q)
        by (apply Qmult_le_0_compat; lra).
      lra.
    + assert (H1 : (0 <= (y * (1 # 9007199254740992) - (M - y)) * E1)%Q)
        by (apply Qmult_le_0_compat; lra).
      lra.
Qed.

Lemma digits2_pos_iter_xO (p k : positive) :
  digits2_pos (Pos.iter xO p k) = (digits2_pos p + k)%positive.
Proof.
  induction k as [|k IH] using Pos.peano_ind.
  - simpl. lia.
  - rewrite Pos.iter_succ. simpl. rewrite IH. lia.
Qed.

Lemma iter_xO_mul (p k : positive) : Zpos (Pos.iter xO p k) = Zpos p * 2 ^ Zpos k.
Proof.
  induction k as [|k IH] using Pos.peano_ind.
  - simpl. lia.
  - rewrite Pos.iter_succ, Pos2Z.inj_succ, Z.pow_succ_r by lia.
    rewrite Pos2Z.inj_xO, IH. lia.
Qed.

(** int64 to double: a positive count converts with one rounding. *)
Lemma of_int_spec (n : Z) :
  0 < n < 2 ^ 63 ->
  approximates (Float64.of_int n) (inject_Z n) u64 (-52) 11.
Proof.
  intros [Hpos Hlt]. destruct n as [|p|p]; try lia.
  pose proof (digits2_pos_lower p) as Hl. pose proof (digits2_pos_upper p) as Hu.
  set (d := Zpos (digits2_pos p)) in *.
  assert (Hd : 1 <= d <= 63).
  { split; [subst d; lia|].
    destruct (Z.le_gt_cases d 63) as [H|H]; [exact H|].
    assert (2 ^ 63 <= 2 ^ (d - 1)) by (apply Z.pow_le_mono_r; lia). lia. }
  unfold Float64.of_int, binary_normalize, binary_round, shl_align, fexp, emin,
    Float64.prec, Float64.emax.
  fold d.
  replace (Z.max (d + 0 - 53) (3 - 1024 - 53)) with (d - 53) by lia.
  destruct (d - 53 - 0) as [|k|k] eqn:E.
  - destruct (binary_round_aux_rel p 0 loc_Exact (inject_Z (Zpos p))) as [m [e [E1 [Hdig [He [Hx Hr]]]]]];
      fold d; try lia; [simpl; reflexivity|].
    fold d in He. exists m, e. rewrite E1.
    change (2 ^ 0)%Q with 1%Q in Hx, Hr. rewrite Qmult_1_r in Hx, Hr.
    split; [reflexivity|]. split; [exact Hdig|]. split; [lia|]. split; assumption.
  - destruct (binary_round_aux_rel p 0 loc_Exact (inject_Z (Zpos p))) as [m [e [E1 [Hdig [He [Hx Hr]]]]]];
      fold d; try lia; [simpl; reflexivity|].
    fold d in He. exists m, e. rewrite E1.
    change (2 ^ 0)%Q with 1%Q in Hx, Hr. rewrite Qmult_1_r in Hx, Hr.
    split; [reflexivity|]. split; [exact Hdig|]. split; [lia|]. split; assumption.
  - assert (Hdk : Zpos (digits2_pos (Pos.iter xO p k)) = 53).
    { rewrite digits2_pos_iter_xO. rewrite Pos2Z.inj_add. fold d. lia. }
    destruct (binary_round_aux_rel (Pos.iter xO p k) (d - 53) loc_Exact
                (inject_Z (Zpos (Pos.iter xO p k)))) as [m [e [E1 [Hdig [He [Hx Hr]]]]]];
      rewrite ?Hdk; try lia; [simpl; reflexivity|].
    rewrite Hdk in He. exists m, e. rewrite E1.
    assert (Ex : (inject_Z (Zpos (Pos.iter xO p k)) * 2 ^ (d - 53) == inject_Z (Zpos p))%Q).
    { rewrite iter_xO_mul, inject_Z_mult, pow2Q_inject by lia.
      rewrite <- Qmult_assoc, <- pow2Q_add.
      replace (Zpos k + (d - 53)) with 0 by lia. change (2 ^ 0)%Q with 1%Q. ring. }
    rewrite Ex in Hx, Hr.
    split; [reflexivity|]. split; [exact Hdig|]. split; [lia|]. split; assumption.
Qed.

(** Where a quotient lies between two integers, read off the remainder. *)
Lemma new_location_located (m q r : Z) :
  0 < m -> 0 <= r < m ->
  located (inject_Z q + inject_Z r / inject_Z m) q (new_location m r).
Proof.
  intros Hm [Hr0 Hr].
  assert (HM : (0 < inject_Z m)%Q) by (change 0%Q with (inject_Z 0); now rewrite <- Zlt_Qlt).
  set (M := inject_Z m) in *. set (R := inject_Z r).
  assert (Hlt : 2 * r < m -> (R / M < 1 # 2)%Q).
  { intros H. apply Qlt_shift_div_r; [exact HM|].
    assert (H' : (inject_Z (2 * r) < inject_Z m)%Q) by now rewrite <- Zlt_Qlt.
    rewrite inject_Z_mult in H'. change (inject_Z 2) with 2%Q in H'. fold R M in H'. lra. }
  assert (Hgt : m < 2 * r -> ((1 # 2) < R / M)%Q).
  { intros H. apply Qlt_shift_div_l; [exact HM|].
    assert (H' : (inject_Z m < inject_Z (2 * r))%Q) by now rewrite <- Zlt_Qlt.
    rewrite inject_Z_mult in H'. change (inject_Z 2) with 2%Q in H'. fold R M in H'. lra. }
  assert (Heq : 2 * r = m -> (R / M == 1 # 2)%Q).
  { intros H. assert (H' : (inject_Z (2 * r) == inject_Z m)%Q) by now rewrite H.
    rewrite inject_Z_mult in H'. change (inject_Z 2) with 2%Q in H'. fold R M in H'.
    field_simplify_eq; lra. }
  assert (Hpos : 0 < r -> (0 < R / M)%Q).
  { intros H. apply Qlt_shift_div_l; [exact HM|].
    assert (H' : (inject_Z 0 < inject_Z r)%Q) by now rewrite <- Zlt_Qlt.
    change (inject_Z 0) with 0%Q in H'. fold R in H'. lra. }
  assert (Hone : (R / M < 1)%Q).
  { apply Qlt_shift_div_r; [exact HM|].
    assert (H' : (inject_Z r < inject_Z m)%Q) by now rewrite <- Zlt_Qlt.
    fold R M in H'. lra. }
  assert (E0 : r = 0 -> (R / M == 0)%Q).
  { intros E. unfold R. rewrite E. change (inject_Z 0) with 0%Q. unfold Qdiv. apply Qmult_0_l. }
  unfold new_location, new_location_even, new_location_odd.
  destruct (Z.even m) eqn:Ev; cbv beta; destruct (Z.eqb_spec r 0) as [E|Hne].
  - specialize (E0 E). cbn [located]. lra.
  - assert (Hr1 : 0 < r) by lia. specialize (Hpos Hr1).
    destruct (Z.compare_spec (2 * r) m) as [H|H|H]; cbn [located].
    + specialize (Heq H). lra.
    + specialize (Hlt H). lra.
    + specialize (Hgt H). lra.
  - specialize (E0 E). cbn [located]. lra.
  - assert (Hr1 : 0 < r) by lia. specialize (Hpos Hr1).
    assert (Hodd : 2 * r <> m).
    { intros <-. rewrite Z.even_mul in Ev. discriminate. }
    destruct (Z.compare_spec (2 * r + 1) m) as [H|H|H]; cbn [located].
    + assert (H2 : 2 * r < m) by lia. specialize (Hlt H2). lra.
    + assert (H2 : 2 * r < m) by lia. specialize (Hlt H2). lra.
    + assert (H2 : m < 2 * r) by lia. specialize (Hgt H2). lra.
Qed.

Lemma digits_between (p : positive) :
  2 ^ 52 <= Zpos p < 2 ^ 54 -> 53 <= Zpos (digits2_pos p) <= 54.
Proof.
  intros [Hl Hu].
  pose proof (digits2_pos_lower p) as Hl'. pose proof (digits2_pos_upper p) as Hu'.
  set (d := Zpos (digits2_pos p)) in *. split.
  - destruct (Z.le_gt_cases 53 d) as [H|H]; [exact H|].
    assert (2 ^ d <= 2 ^ 52) by (apply Z.pow_le_mono_r; lia). lia.
  - destruct (Z.le_gt_cases d 54) as [H|H]; [exact H|].
    assert (2 ^ 54 <= 2 ^ (d - 1)) by (apply Z.pow_le_mono_r; lia). lia.
Qed.

Lemma digits53_bounds (m : positive) :
  Zpos (digits2_pos m) = 53 -> 2 ^ 52 <= Zpos m < 2 ^ 53.
Proof.
  intros H. pose proof (digits2_pos_lower m) as Hl. pose proof (digits2_pos_upper m) as Hu.
  rewrite H in Hl, Hu. change (53 - 1) with 52 in Hl. lia.
Qed.

(** The quotient of two normal positive doubles, away from the ends of the
    exponent range: one rounding, stated without a division. *)
Lemma div_spec (m1 m2 : positive) (e1 e2 : Z) :
  Zpos (digits2_pos m1) = 53 ->
  Zpos (digits2_pos m2) = 53 ->
  -1000 <= e1 - e2 <= 1000 ->
  exists m e,
    Float64.div (S754_finite false m1 e1) (S754_finite false m2 e2) = S754_finite false m e
    /\ Zpos (digits2_pos m) = 53
    /\ e1 - e2 - 53 <= e <= e1 - e2 - 51
    /\ (Qabs (Float64.to_Q (S754_finite false m e) * Float64.to_Q (S754_finite false m2 e2)
              - Float64.to_Q (S754_finite false m1 e1))
        <= Float64.to_Q (S754_finite false m1 e1) * u64)%Q.
Proof.
  intros Hd1 Hd2 He.
  pose proof (digits53_bounds m1 Hd1) as [Hl1 Hu1].
  pose proof (digits53_bounds m2 Hd2) as [Hl2 Hu2].
  unfold Float64.div, SFdiv, SFdiv_core_binary, fexp, emin, Float64.prec, Float64.emax.
  cbn [Zdigits2 xorb]. rewrite Hd1, Hd2.
  replace (Z.min (Z.max (53 + e1 - (53 + e2) - 53) (3 - 1024 - 53)) (e1 - e2))
    with (e1 - e2 - 53) by lia.
  replace (e1 - e2 - (e1 - e2 - 53)) with 53 by lia.
  rewrite Z.shiftl_mul_pow2 by lia.
  set (M' := Zpos m1 * 2 ^ 53).
  pose proof (Z.div_eucl_eq M' (Zpos m2) ltac:(lia)) as Hdiv.
  pose proof (Z.mod_pos_bound M' (Zpos m2) ltac:(lia)) as Hmod.
  unfold Z.modulo in Hmod. unfold Z.div, Z.modulo in Hdiv.
  destruct (Z.div_eucl M' (Zpos m2)) as [q r].
  assert (Hq : 2 ^ 52 <= q < 2 ^ 54).
  { subst M'. change (2 ^ 53) with 9007199254740992 in *.
    change (2 ^ 52) with 4503599627370496 in *. change (2 ^ 54) with 18014398509481984. nia. }
  destruct q as [|pq|pq]; try (change (2 ^ 52) with 4503599627370496 in Hq; lia).
  pose proof (digits_between pq Hq) as Hdq.
  pose proof (new_location_located (Zpos m2) (Zpos pq) r ltac:(lia) Hmod) as Hloc.
  set (y0 := (inject_Z (Zpos pq) + inject_Z r / inject_Z (Zpos m2))%Q) in *.
  destruct (binary_round_aux_rel pq (e1 - e2 - 53) (new_location (Zpos m2) r) y0)
    as [m [e [E [Hdig [Hee [Hx Hr]]]]]]; try lia; [exact Hloc|].
  exists m, e. split; [exact E|]. split; [exact Hdig|]. split; [destruct Hee; lia|].
  set (f := Float64.to_Q (S754_finite false m e)) in *.
  rewrite !to_Q_finite.
  assert (HM2 : (0 < inject_Z (Zpos m2))%Q) by reflexivity.
  assert (Ey0 : (y0 * inject_Z (Zpos m2) == inject_Z (Zpos m1) * inject_Z (2 ^ 53))%Q).
  { unfold y0. rewrite <- inject_Z_mult. fold M'. rewrite Hdiv.
    rewrite inject_Z_plus, inject_Z_mult. field. lra. }
  pose proof (pow2Q_pos e2) as HE2.
  set (X := (y0 * 2 ^ (e1 - e2 - 53))%Q) in *.
  assert (EX : (X * (inject_Z (Zpos m2) * 2 ^ e2) == inject_Z (Zpos m1) * 2 ^ e1)%Q).
  { unfold X.
    transitivity ((y0 * inject_Z (Zpos m2)) * (2 ^ (e1 - e2 - 53) * 2 ^ e2))%Q; [ring|].
    rewrite Ey0, pow2Q_inject, <- pow2Q_add by lia.
    rewrite <- Qmult_assoc, <- pow2Q_add.
    replace (53 + (e1 - e2 - 53 + e2)) with e1 by lia. reflexivity. }
  set (Y := (inject_Z (Zpos m2) * 2 ^ e2)%Q) in *.
  assert (HY : (0 < Y)%Q) by (apply Qmult_lt_0_compat; assumption).
  rewrite <- EX.
  apply Qabs_Qle_condition in Hr. destruct Hr as [Hr1 Hr2].
  apply Qabs_Qle_condition. split.
  - assert (H1 : (0 <= (f - X + X * u64) * Y)%Q) by (apply Qmult_le_0_compat; lra). lra.
  - assert (H1 : (0 <= (X * u64 - (f - X)) * Y)%Q) by (apply Qmult_le_0_compat; lra). lra.
Qed.

Lemma digits_range (p : positive) (a b : Z) :
  0 <= a -> 2 ^ a <= Zpos p < 2 ^ b -> a + 1 <= Zpos (digits2_pos p) <= b.
Proof.
  intros Ha [Hl Hu].
  pose proof (digits2_pos_lower p) as Hl'. pose proof (digits2_pos_upper p) as Hu'.
  set (d := Zpos (digits2_pos p)) in *. split.
  - destruct (Z.le_gt_cases (a + 1) d) as [H|H]; [exact H|].
    assert (2 ^ d <= 2 ^ a) by (apply Z.pow_le_mono_r; lia). lia.
  - destruct (Z.le_gt_cases d b) as [H|H]; [exact H|].
    assert (2 ^ b <= 2 ^ (d - 1)) by (apply Z.pow_le_mono_r; lia). lia.
Qed.

(** The product of two normal positive doubles, away from the ends of the
    exponent range: one rounding. *)
Lemma mul_spec (m1 m2 : positive) (e1 e2 : Z) :
  Zpos (digits2_pos m1) = 53 ->
  Zpos (digits2_pos m2) = 53 ->
  -1000 <= e1 + e2 <= 800 ->
  exists m e,
    Float64.mul (S754_finite false m1 e1) (S754_finite false m2 e2) = S754_finite false m e
    /\ Zpos (digits2_pos m) = 53
    /\ e1 + e2 + 52 <= e <= e1 + e2 + 54
    /\ (Qabs (Float64.to_Q (S754_finite false m e)
              - Float64.to_Q (S754_finite false m1 e1) * Float64.to_Q (S754_finite false m2 e2))
        <= Float64.to_Q (S754_finite false m1 e1) * Float64.to_Q (S754_finite false m2 e2)
           * u64)%Q.
Proof.
  intros Hd1 Hd2 He.
  pose proof (digits53_bounds m1 Hd1) as [Hl1 Hu1].
  pose proof (digits53_bounds m2 Hd2) as [Hl2 Hu2].
  unfold Float64.mul, SFmul. cbn [xorb].
  assert (Hp : 2 ^ 104 <= Zpos (m1 * m2) < 2 ^ 106).
  { rewrite Pos2Z.inj_mul.
    change (2 ^ 104) with (2 ^ 52 * 2 ^ 52). change (2 ^ 106) with (2 ^ 53 * 2 ^ 53).
    split; [apply Z.mul_le_mono_nonneg; lia | apply Z.mul_lt_mono_nonneg; lia]. }
  pose proof (digits_range (m1 * m2) 104 106 ltac:(lia) Hp) as Hdp.
  destruct (binary_round_aux_rel (m1 * m2) (e1 + e2) loc_Exact (inject_Z (Zpos (m1 * m2))))
    as [m [e [E [Hdig [Hee [Hx Hr]]]]]]; try (unfold Float64.prec, Float64.emax in *; lia);
    [cbn [located]; reflexivity|].
  exists m, e. split; [exact E|]. split; [exact Hdig|]. split; [destruct Hee; lia|].
  rewrite !(to_Q_finite m1), !(to_Q_finite m2).
  assert (EX : (inject_Z (Zpos (m1 * m2)) * 2 ^ (e1 + e2)
                == inject_Z (Zpos m1) * 2 ^ e1 * (inject_Z (Zpos m2) * 2 ^ e2))%Q).
  { rewrite Pos2Z.inj_mul, inject_Z_mult, pow2Q_add. ring. }
  rewrite <- EX. exact Hr.
Qed.

Lemma to_Q_100 : (Float64.to_Q (Float64.of_int 100) == 100)%Q.
Proof. vm_compute. reflexivity. Qed.

Lemma of_int_100 : Float64.of_int 100 = S754_finite false 7036874417766400 (-46).
Proof. vm_compute. reflexivity. Qed.

(** Four roundings in a row, each with relative error [u], leave the
    percentage within [5 * u] of the exact one. *)
Lemma chain_bound (c T a b q p u : Q) :
  (0 < u)%Q -> (u <= 1 # 16)%Q -> (0 < c)%Q -> (0 < T)%Q ->
  (Qabs (a - c) <= c * u)%Q ->
  (Qabs (b - T) <= T * u)%Q ->
  (0 < q)%Q ->
  (Qabs (q * b - a) <= a * u)%Q ->
  (Qabs (p - q * 100) <= q * 100 * u)%Q ->
  (Qabs (p * T - 100 * c) <= 100 * c * (5 * u))%Q.
Proof.
  intros Hu Hu' Hc HT Ha Hb Hq Hqb Hp.
  apply Qabs_Qle_condition in Ha. destruct Ha as [Ha1 Ha2].
  apply Qabs_Qle_condition in Hb. destruct Hb as [Hb1 Hb2].
  apply Qabs_Qle_condition in Hqb. destruct Hqb as [Hq1 Hq2].
  apply Qabs_Qle_condition in Hp. destruct Hp as [Hp1 Hp2].
  assert (Hp0 : (0 < p)%Q) by nra.
  assert (Ha0 : (0 < a)%Q) by nra.
  assert (Hb0 : (0 < b)%Q) by nra.
  apply Qabs_Qle_condition. split.
  - assert (S1 : (p * b <= p * (T * (1 + u)))%Q) by nra.
    assert (S2 : (100 * (1 - u) * (q * b) <= p * b)%Q) by nra.
    assert (S3 : (100 * (1 - u) * (a * (1 - u)) <= 100 * (1 - u) * (q * b))%Q) by nra.
    assert (S4 : (100 * ((1 - u) * (1 - u)) * (c * (1 - u)) <= 100 * ((1 - u) * (1 - u)) * a)%Q) by nra.
    assert (S5 : (100 * c * ((1 - 5 * u) * (1 + u)) <= 100 * c * ((1 - u) * (1 - u) * (1 - u)))%Q).
    { assert ((1 - 5 * u) * (1 + u) <= (1 - u) * (1 - u) * (1 - u))%Q by nra.
      apply Qmult_le_l; [lra | exact H]. }
    assert (S6 : (100 * c * (1 - 5 * u) * (1 + u) <= p * T * (1 + u))%Q) by lra.
    assert (S7 : (100 * c * (1 - 5 * u) <= p * T)%Q) by nra.
    lra.
  - assert (S1 : (p * (T * (1 - u)) <= p * b)%Q) by nra.
    assert (S2 : (p * b <= 100 * (1 + u) * (q * b))%Q) by nra.
    assert (S3 : (100 * (1 + u) * (q * b) <= 100 * (1 + u) * (a * (1 + u)))%Q) by nra.
    assert (S4 : (100 * ((1 + u) * (1 + u)) * a <= 100 * ((1 + u) * (1 + u)) * (c * (1 + u)))%Q) by nra.
    assert (S5 : (100 * c * ((1 + u) * (1 + u) * (1 + u)) <= 100 * c * ((1 + 5 * u) * (1 - u)))%Q).
    { assert ((1 + u) * (1 + u) * (1 + u) <= (1 + 5 * u) * (1 - u))%Q by nra.
      apply Qmult_le_l; [lra | exact H]. }
    assert (S6 : (p * T * (1 - u) <= 100 * c * (1 + 5 * u) * (1 - u))%Q) by lra.
    assert (S7 : (p * T <= 100 * c * (1 + 5 * u))%Q) by nra.
    lra.
Qed.

Lemma u64_small : (0 < u64)%Q /\ (u64 <= 1 # 16)%Q.
Proof. split; reflexivity || (vm_compute; discriminate). Qed.

(** One percentage of the summary: binary64 count / total * 100 is a finite
    double within the relative error [5 * u64] of the exact percentage. *)
Lemma porcentaje_spec (c T : Z) :
  0 < c <= T -> T < 2 ^ 63 ->
  exists m e,
    Float64.mul (Float64.div (Float64.of_int c) (Float64.of_int T)) (Float64.of_int 100)
    = S754_finite false m e
    /\ (Qabs (Float64.to_Q (S754_finite false m e) * inject_Z T - 100 * inject_Z c)
        <= 100 * inject_Z c * (5 * u64))%Q.
Proof.
  intros Hc HT.
  destruct (of_int_spec c ltac:(lia)) as [ma [ea [Ea [Hda [Hea [Hc0 Ha]]]]]].
  destruct (of_int_spec T ltac:(lia)) as [mb [eb [Eb [Hdb [Heb [HT0 Hb]]]]]].
  rewrite Ea in Ha. rewrite Eb in Hb. rewrite Ea, Eb.
  destruct (div_spec ma mb ea eb Hda Hdb ltac:(lia)) as [mq [eq [Eq [Hdq [Heq Hq]]]]].
  rewrite Eq, of_int_100.
  destruct (mul_spec mq 7036874417766400 eq (-46) Hdq eq_refl ltac:(lia))
    as [m [e [E [Hd [He Hp]]]]].
  exists m, e. split; [exact E|].
  assert (E100 : (Float64.to_Q (S754_finite false 7036874417766400 (-46)) == 100)%Q)
    by (vm_compute; reflexivity).
  rewrite E100 in Hp.
  destruct u64_small as [Hu Hu'].
  apply (chain_bound (inject_Z c) (inject_Z T)
           (Float64.to_Q (S754_finite false ma ea)) (Float64.to_Q (S754_finite false mb eb))
           (Float64.to_Q (S754_finite false mq eq))); try assumption.
  rewrite to_Q_finite. apply Qmult_lt_0_compat; [|apply pow2Q_pos].
  change 0%Q with (inject_Z 0). rewrite <- Zlt_Qlt. lia.
Qed.

Lemma porcentaje_zero (T : Z) :
  0 < T < 2 ^ 63 ->
  Float64.mul (Float64.div (Float64.of_int 0) (Float64.of_int T)) (Float64.of_int 100)
  = S754_zero false.
Proof.
  intros HT.
  destruct (of_int_spec T HT) as [mb [eb [Eb _]]]. rewrite Eb, of_int_100. reflexivity.
Qed.


Lemma div_eucl_mul (q b : Z) : b <> 0 -> Z.div_eucl (q * b) b = (q, 0).
Proof.
  intros Hb. generalize (Z.div_mul q b Hb) (Z.mod_mul q b Hb).
  unfold Z.div, Z.modulo. destruct (Z.div_eucl (q * b) b). simpl. congruence.
Qed.

(** x / x = 1.0 for every finite non-zero double. *)
Lemma div_self (s : bool) (m : positive) (e : Z) :
  Float64.div (S754_finite s m e) (S754_finite s m e)
  = S754_finite false 4503599627370496 (-52).
Proof.
  unfold Float64.div, SFdiv, SFdiv_core_binary.
  rewrite !Z.sub_diag.
  change (Z.min (fexp Float64.prec Float64.emax 0) 0) with (-53).
  change (0 - -53) with 53.
  rewrite Z.shiftl_mul_pow2 by lia. rewrite (Z.mul_comm (Zpos m)).
  rewrite div_eucl_mul by lia.
  replace (new_location (Zpos m) 0) with loc_Exact.
  - replace (xorb s s) with false by (destruct s; reflexivity).
    vm_compute. reflexivity.
  - unfold new_location, new_location_even, new_location_odd.
    destruct (Z.even (Zpos m)); reflexivity.
Qed.

Lemma Forall2_fst_snd {A B : Type} (P : A -> B -> Prop) (l : list (A * B)) :
  Forall (fun kv => P (fst kv) (snd kv)) l -> Forall2 P (map fst l) (map snd l).
Proof.
  induction 1; simpl; constructor; assumption.
Qed.


(** C2: on a table without the requested categorical column the call prints
    one warning and returns None; it does not raise. *)
Theorem category_distribution_missing_column (df : DataFrame) (cat_col : string) :
  ~ In cat_col (columns df) ->
  category_distribution df cat_col
  = (Returned None,
     [Print " No se encontró la columna 'ica_category'. Asegúrate de ejecutar la sección de procesamiento de datos."]).
Proof.
  intros H. unfold category_distribution.
  destruct (has_column cat_col df) eqn:E.
  - apply has_column_In in E. contradiction.
  - reflexivity.
Qed.

Lemma category_distribution_missing_column_witness :
  ~ In "ica_category" (columns df_timed)
  /\ category_distribution df_timed "ica_category"
     = (Returned None,
        [Print " No se encontró la columna 'ica_category'. Asegúrate de ejecutar la sección de procesamiento de datos."]).
Proof.
  assert (H : ~ In "ica_category" (columns df_timed)).
  { simpl. intros [E|[]]. discriminate E. }
  split; [exact H | exact (category_distribution_missing_column df_timed "ica_category" H)].
Defined.

Lemma descending_counts (dropna : bool) (declared s : list Cell) :
  descending Z.leb (map snd (value_counts dropna declared s)).
Proof.
  apply (descending_map snd (fun a b : Cell * Z => snd a <=? snd b)).
  - reflexivity.
  - apply value_counts_descending.
Qed.

(** C7, as amended: on a table with the categorical column [s], the summary
    has one row per distinct value of [s], a missing value being a value like
    any other (None, NaN and NaT are three), and, for a column of category
    dtype, one row per declared category, also when no row holds it; each row
    gives the number of rows that hold its value, rows come largest count
    first, and the percentage is the binary64 product by 100 of the binary64
    quotient of the count by the number of rows. *)
Theorem category_distribution_counts (df : DataFrame) (cat_col : string) (s : list Cell) :
  getitem df cat_col = Some s ->
  exists (out : DataFrame) (cats : list Cell) (ns : list Z),
    category_distribution df cat_col = (Returned (Some out), [])
    /\ getitem out "Categoría" = Some cats
    /\ getitem out "conteo" = Some (map CInt ns)
    /\ getitem out "porcentaje"
       = Some (map (fun n =>
                      CFloat (Float64.mul
                                (Float64.div (Float64.of_int n)
                                   (Float64.of_int (Z.of_nat (List.length s))))
                                (Float64.of_int 100))) ns)
    /\ NoDup (map key cats)
    /\ (forall c, In c s \/ In c (categories_of df cat_col) -> In (key c) (map key cats))
    /\ (forall k, In k cats -> In k s \/ In k (categories_of df cat_col))
    /\ Forall2 (fun c n => n = Z.of_nat (List.length (filter (same_value c) s))) cats ns
    /\ descending Z.leb ns.
Proof.
  intros H.
  pose proof (category_distribution_eq df cat_col s H) as Heq. cbv zeta in Heq.
  set (counts := value_counts false (categories_of df cat_col) s) in *.
  pose proof (value_counts_keys false (categories_of df cat_col) s) as Hk.
  fold counts in Hk.
  eexists. exists (map fst counts), (map snd counts).
  split; [exact Heq|]. split; [reflexivity|]. split; [reflexivity|].
  split; [reflexivity|]. split; [|split; [|split; [|split]]].
  - eapply Permutation_NoDup; [apply Permutation_map, Permutation_sym, Hk|].
    apply key_unique_NoDup.
  - intros c Hc. eapply Permutation_in; [apply Permutation_map, Permutation_sym, Hk|].
    apply key_unique_In, in_or_app. tauto.
  - intros k Hin. eapply Permutation_in in Hin; [|exact Hk].
    apply unique_incl, in_app_or in Hin. tauto.
  - apply Forall2_fst_snd, Forall_forall. intros kv Hkv.
    rewrite (value_counts_entry false _ s kv Hkv). apply occurrences_filter.
  - apply descending_counts.
Qed.

Lemma category_distribution_counts_witness :
  getitem df_gaps "ica_category"
  = Some [CStr "Buena"; CNaN; CStr "Buena"; CNone; CStr "Moderada"; CStr "Buena"]
  /\ category_distribution df_gaps "ica_category"
     = (Returned (Some
          (mkDataFrame (RangeIndex 4)
             [ ("Categoría", [CStr "Buena"; CNaN; CNone; CStr "Moderada"]);
               ("conteo", [CInt 3; CInt 1; CInt 1; CInt 1]);
               ("porcentaje",
                [ CFloat (S754_finite false 7036874417766400 (-47));
                  CFloat (S754_finite false 4691249611844266 (-48));
                  CFloat (S754_finite false 4691249611844266 (-48));
                  CFloat (S754_finite false 4691249611844266 (-48)) ]) ])), [])
  /\ exists (out : DataFrame) (cats : list Cell) (ns : list Z),
      category_distribution df_gaps "ica_category" = (Returned (Some out), [])
      /\ getitem out "Categoría" = Some cats
      /\ getitem out "conteo" = Some (map CInt ns)
      /\ NoDup (map key cats)
      /\ Forall2 (fun c n =>
                    n = Z.of_nat (List.length
                                    (filter (same_value c)
                                       [CStr "Buena"; CNaN; CStr "Buena"; CNone;
                                        CStr "Moderada"; CStr "Buena"]))) cats ns
      /\ descending Z.leb ns.
Proof.
  split; [reflexivity|]. split; [vm_compute; reflexivity|].
  destruct (category_distribution_counts df_gaps "ica_category" _ eq_refl)
    as [out [cats [ns [H1 [H2 [H3 [_ [H5 [_ [_ [H8 H9]]]]]]]]]]].
  exists out, cats, ns. repeat split; assumption.
Defined.

(** C7, as first stated, fails on a column of category dtype: of the five
    declared levels the two rows hold one, and the summary has five rows,
    four of them for values that no row holds, with count 0. *)
Lemma category_distribution_unused_categories :
  getitem df_declared "ica_category" = Some [CStr "Buena"; CStr "Buena"]
  /\ categories_of df_declared "ica_category"
     = [ CStr "Buena"; CStr "Moderada"; CStr "Dañina para grupos sensibles";
         CStr "Muy dañina"; CStr "Peligrosa" ]
  /\ category_distribution df_declared "ica_category"
     = (Returned (Some
          (mkFrame (RangeIndex 5)
             [ ("Categoría",
                [ CStr "Buena"; CStr "Moderada"; CStr "Dañina para grupos sensibles";
                  CStr "Muy dañina"; CStr "Peligrosa" ]);
               ("conteo", [CInt 2; CInt 0; CInt 0; CInt 0; CInt 0]);
               ("porcentaje",
                [ CFloat (S754_finite false 7036874417766400 (-46));
                  CFloat (S754_zero false); CFloat (S754_zero false);
                  CFloat (S754_zero false); CFloat (S754_zero false) ]) ]
             [ ("Categoría",
                [ CStr "Buena"; CStr "Moderada"; CStr "Dañina para grupos sensibles";
                  CStr "Muy dañina"; CStr "Peligrosa" ]) ])), [])
  /\ List.length (unique [CStr "Buena"; CStr "Buena"]) = 1%nat.
Proof.
  repeat split; vm_compute; reflexivity.
Qed.

(** *** The percentages of a summary *)

Lemma Zsum_nonneg (ns : list Z) : Forall (fun k => 0 <= k) ns -> 0 <= Zsum ns.
Proof.
  unfold Zsum. induction 1 as [|k ns Hk _ IH]; simpl; lia.
Qed.

Lemma Zsum_In_le (ns : list Z) (n : Z) :
  Forall (fun k => 0 <= k) ns -> In n ns -> n <= Zsum ns.
Proof.
  induction 1 as [|k ns Hk Hns IH]; [intros []|].
  pose proof (Zsum_nonneg ns Hns) as H0.
  change (Zsum (k :: ns)) with (k + Zsum ns).
  intros [->|Hin]; [lia | specialize (IH Hin); lia].
Qed.

(** Every count of a column of [T] rows gives a finite percentage, and the
    percentages of the counts [ns], added up exactly and scaled by [T], are
    100 times the sum of [ns] up to the relative error [5 * u64]. *)
Lemma Qsum_porcentajes (T : Z) (ns : list Z) :
  0 < T < 2 ^ 63 ->
  Forall (fun n => 0 <= n <= T) ns ->
  Forall (fun p => Float64.is_finite p = true) (map (fun n => porcentaje_of n T) ns)
  /\ (Qabs (Qsum (map Float64.to_Q (map (fun n => porcentaje_of n T) ns)) * inject_Z T
            - 100 * inject_Z (Zsum ns))
      <= 100 * inject_Z (Zsum ns) * (5 * u64))%Q.
Proof.
  intros HT. induction 1 as [|n ns Hn Hns [IHf IH]].
  - split; [constructor|]. vm_compute. discriminate.
  - cbn [map Qsum fold_right]. fold (Qsum (map Float64.to_Q (map (fun n => porcentaje_of n T) ns))).
    change (Zsum (n :: ns)) with (n + Zsum ns). rewrite inject_Z_plus.
    set (S := Qsum (map Float64.to_Q (map (fun n => porcentaje_of n T) ns))) in *.
    apply Qabs_Qle_condition in IH. destruct IH as [IH1 IH2].
    destruct (Z.eq_dec n 0) as [->|Hn0].
    + unfold porcentaje_of at 1 3. rewrite porcentaje_zero by exact HT.
      split; [constructor; [reflexivity | exact IHf]|].
      cbn [Float64.to_Q]. change (inject_Z 0) with 0%Q.
      apply Qabs_Qle_condition. split; lra.
    + destruct (porcentaje_spec n T ltac:(lia) ltac:(lia)) as [m [e [E Hb]]].
      unfold porcentaje_of at 1 3. rewrite E.
      split; [constructor; [reflexivity | exact IHf]|].
      apply Qabs_Qle_condition in Hb. destruct Hb as [Hb1 Hb2].
      set (x := Float64.to_Q (S754_finite false m e)) in *.
      apply Qabs_Qle_condition. split; lra.
Qed.

(** The percentages of counts that add up to the number of rows add up,
    exactly as rationals, to 100 within 10^-13. *)
Lemma porcentajes_total (ns : list Z) :
  0 < Zsum ns < 2 ^ 63 ->
  Forall (fun n => 0 <= n) ns ->
  let ps := map (fun n => porcentaje_of n (Zsum ns)) ns in
  Forall (fun p => Float64.is_finite p = true) ps
  /\ (Qabs (Qsum (map Float64.to_Q ps) - 100) <= 1 # 10000000000000)%Q.
Proof.
  intros HT Hns ps.
  assert (Hle : Forall (fun n => 0 <= n <= Zsum ns) ns).
  { apply Forall_forall. intros n Hin. split.
    - exact (proj1 (Forall_forall _ _) Hns n Hin).
    - now apply Zsum_In_le. }
  destruct (Qsum_porcentajes (Zsum ns) ns HT Hle) as [Hf Hb]. fold ps in Hf, Hb.
  split; [exact Hf|].
  set (S := Qsum (map Float64.to_Q ps)) in *.
  assert (Ht : (0 < inject_Z (Zsum ns))%Q).
  { change 0%Q with (inject_Z 0). rewrite <- Zlt_Qlt. lia. }
  set (t := inject_Z (Zsum ns)) in *.
  apply Qabs_Qle_condition in Hb. destruct Hb as [Hb1 Hb2].
  assert (Hu : (5 * u64 <= 1 # 1000000000000000)%Q) by (vm_compute; discriminate).
  assert (Hu0 : (0 <= 5 * u64)%Q) by (vm_compute; discriminate).
  set (u := (5 * u64)%Q) in *.
  assert (Hb1' : (0 <= (S - 100 + 100 * u) * t)%Q) by lra.
  assert (Hb2' : (0 <= (100 + 100 * u - S) * t)%Q) by lra.
  assert (L1 : (0 <= S - 100 + 100 * u)%Q).
  { destruct (Qlt_le_dec (S - 100 + 100 * u) 0) as [Hlt|Hge]; [|exact Hge]. exfalso.
    assert ((S - 100 + 100 * u) * t < 0)%Q by nra. lra. }
  assert (L2 : (0 <= 100 + 100 * u - S)%Q).
  { destruct (Qlt_le_dec (100 + 100 * u - S) 0) as [Hlt|Hge]; [|exact Hge]. exfalso.
    assert ((100 + 100 * u - S) * t < 0)%Q by nra. lra. }
  apply Qabs_Qle_condition. split; lra.
Qed.

(** In a column whose rows all hold the value [c], [c] is held by every row
    and any other value by none. *)
Lemma occurrences_all (c x : Cell) (s : list Cell) :
  Forall (fun y => same_value c y = true) s ->
  occurrences x s = if Key_eq_dec (key x) (key c) then Z.of_nat (List.length s) else 0.
Proof.
  intros Hs. unfold occurrences.
  destruct (Key_eq_dec (key x) (key c)) as [E|Hne].
  - f_equal. induction Hs as [|y s Hy _ IH]; [reflexivity|].
    apply same_value_iff in Hy. cbn [map count_occ List.length].
    destruct (Key_eq_dec (key y) (key x)) as [_|Hn]; [now rewrite IH | congruence].
  - replace (count_occ Key_eq_dec (map key s) (key x)) with 0%nat; [reflexivity|].
    symmetry. apply count_occ_not_In. intros Hin.
    apply in_map_iff in Hin. destruct Hin as [y [Ey Hy]].
    apply (proj1 (Forall_forall _ _) Hs), same_value_iff in Hy. congruence.
Qed.

(** The counts of a column whose rows all hold one value: that value first,
    with every row, then the declared categories that no row holds, with
    none. *)
Lemma value_counts_single (declared s : list Cell) (c : Cell) :
  s <> [] ->
  Forall (fun y => same_value c y = true) s ->
  exists k others,
    value_counts false declared s
    = (k, Z.of_nat (List.length s)) :: map (fun o => (o, 0)) others
    /\ same_value c k = true
    /\ (declared = [] -> others = []).
Proof.
  intros Hne Hs.
  pose proof (value_counts_keys false declared s) as Hk.
  pose proof (value_counts_descending false declared s) as Hd.
  assert (He : forall kv, In kv (value_counts false declared s) ->
                 snd kv = if Key_eq_dec (key (fst kv)) (key c)
                          then Z.of_nat (List.length s) else 0).
  { intros kv Hin. rewrite (value_counts_entry false declared s kv Hin).
    now apply occurrences_all. }
  assert (Hnd : NoDup (map key (map fst (value_counts false declared s)))).
  { eapply Permutation_NoDup; [apply Permutation_map, Permutation_sym, Hk|].
    apply key_unique_NoDup. }
  assert (Hw : exists w, In w (value_counts false declared s) /\ key (fst w) = key c).
  { destruct s as [|y s]; [congruence|].
    assert (Hy : In (key y) (map key (map fst (value_counts false declared (y :: s))))).
    { eapply Permutation_in; [apply Permutation_map, Permutation_sym, Hk|].
      apply key_unique_In, in_or_app. right. now left. }
    rewrite map_map in Hy. apply in_map_iff in Hy. destruct Hy as [w [Ew Hin]].
    exists w. split; [exact Hin|]. rewrite Ew.
    inversion Hs as [|? ? Hy _]; subst. symmetry. now apply same_value_iff. }
  assert (Hu : forall kv, In kv (value_counts false declared s) ->
                 In (fst kv) (declared ++ s)).
  { intros kv Hin. apply unique_incl. eapply Permutation_in; [exact Hk|].
    now apply in_map. }
  assert (Hlen : 1 <= Z.of_nat (List.length s)).
  { destruct s; [congruence | cbn [List.length]; lia]. }
  destruct (value_counts false declared s) as [|kv rest]; [destruct Hw as [w [[] _]]|].
  inversion Hd as [|? ? _ Hall]; subst.
  cbn [map] in Hnd. inversion Hnd as [|? ? Hnot Hrest]; subst.
  destruct (Key_eq_dec (key (fst kv)) (key c)) as [E|Hnk].
  - assert (Hzero : forall b, In b rest -> snd b = 0).
    { intros b Hb. rewrite (He b (or_intror Hb)).
      destruct (Key_eq_dec (key (fst b)) (key c)) as [Eb|_]; [|reflexivity].
      exfalso. apply Hnot. rewrite E, <- Eb. now apply in_map, in_map. }
    exists (fst kv), (map fst rest). split; [|split].
    + f_equal.
      * pose proof (He kv (or_introl eq_refl)) as Hkv.
        destruct (Key_eq_dec (key (fst kv)) (key c)); [|congruence].
        destruct kv; simpl in *; congruence.
      * rewrite map_map. rewrite <- (map_id rest) at 1. apply map_ext_in.
        intros b Hb. specialize (Hzero b Hb). destruct b; simpl in *; congruence.
    + apply same_value_iff. congruence.
    + intros ->. destruct rest as [|b rest]; [reflexivity|]. exfalso.
      apply Hnot. pose proof (Hu b (or_intror (or_introl eq_refl))) as Hb.
      cbn [app] in Hb. apply (proj1 (Forall_forall _ _) Hs), same_value_iff in Hb.
      cbn [map]. left. congruence.
  - exfalso. destruct Hw as [w [[->|Hin] Ew]]; [congruence|].
    pose proof (proj1 (Forall_forall _ _) Hall w Hin) as Hle. cbv beta in Hle.
    apply Z.leb_le in Hle.
    rewrite (He w (or_intror Hin)), (He kv (or_introl eq_refl)) in Hle.
    destruct (Key_eq_dec (key (fst w)) (key c)); [|congruence].
    destruct (Key_eq_dec (key (fst kv)) (key c)); [congruence|]. lia.
Qed.

(** A column of one value, of fewer than 2^63 rows: 100.0 for the value and
    0.0 for a count of none. *)
Lemma porcentaje_of_all (n : Z) :
  0 < n < 2 ^ 63 -> porcentaje_of n n = Float64.of_int 100.
Proof.
  intros Hn. unfold porcentaje_of.
  destruct (of_int_spec n Hn) as [m [e [-> _]]].
  rewrite div_self. vm_compute. reflexivity.
Qed.

(** C3, as amended: on a table whose categorical column [s] has at least one
    row (and fewer than 2^63, which is every column whose counts are int64),
    each percentage of the summary is the binary64 product by 100 of the
    binary64 quotient of the row's count by the number of rows, a finite
    double, and the percentages, added up exactly as rationals, are 100 within
    the tolerance 10^-13.  When every row of [s] holds one value, the first
    row of the summary is for that value, with all the rows as its count and
    exactly 100.0 as its percentage; the other rows, which there are only on a
    column of category dtype, are for the declared categories that no row
    holds, with count 0 and percentage 0.0. *)
Theorem category_distribution_percentages (df : DataFrame) (cat_col : string) (s : list Cell) :
  getitem df cat_col = Some s ->
  s <> [] ->
  Z.of_nat (List.length s) < 2 ^ 63 ->
  exists (out : DataFrame) (cats : list Cell) (ns : list Z) (ps : list Float64.t),
    category_distribution df cat_col = (Returned (Some out), [])
    /\ getitem out "Categoría" = Some cats
    /\ getitem out "conteo" = Some (map CInt ns)
    /\ getitem out "porcentaje" = Some (map CFloat ps)
    /\ ps = map (fun n =>
                   Float64.mul
                     (Float64.div (Float64.of_int n)
                        (Float64.of_int (Z.of_nat (List.length s))))
                     (Float64.of_int 100)) ns
    /\ Forall (fun p => Float64.is_finite p = true) ps
    /\ (Qabs (Qsum (map Float64.to_Q ps) - 100) <= 1 # 10000000000000)%Q
    /\ (forall c, Forall (fun y => same_value c y = true) s ->
          exists k others,
            cats = k :: others
            /\ same_value c k = true
            /\ ns = Z.of_nat (List.length s) :: map (fun _ => 0) others
            /\ ps = Float64.of_int 100 :: map (fun _ => S754_zero false) others
            /\ (categories_of df cat_col = [] -> others = [])).
Proof.
  intros H Hne Hlen.
  pose proof (category_distribution_eq df cat_col s H) as Heq. cbv zeta in Heq.
  set (counts := value_counts false (categories_of df cat_col) s) in *.
  assert (Htot : Zsum (map snd counts) = Z.of_nat (List.length s))
    by apply (value_counts_total false).
  assert (Hpos : 0 < Z.of_nat (List.length s)).
  { destruct s; [congruence | cbn [List.length]; lia]. }
  assert (Hnn : Forall (fun n => 0 <= n) (map snd counts)).
  { apply Forall_forall. intros n Hn. apply in_map_iff in Hn. destruct Hn as [kv [<- Hkv]].
    rewrite (value_counts_entry false _ s kv Hkv). apply occurrences_nonneg. }
  destruct (porcentajes_total (map snd counts)) as [Hfin Htol];
    [rewrite Htot; lia | exact Hnn |]. rewrite Htot in Hfin, Htol.
  eexists. exists (map fst counts), (map snd counts),
    (map (fun n => porcentaje_of n (Z.of_nat (List.length s))) (map snd counts)).
  split; [exact Heq|]. split; [reflexivity|]. split; [reflexivity|].
  split; [cbn; now rewrite (map_map _ CFloat)|].
  split; [reflexivity|]. split; [exact Hfin|]. split; [exact Htol|].
  intros c Hc.
  destruct (value_counts_single (categories_of df cat_col) s c Hne Hc)
    as [k [others [E [Hk Hno]]]].
  fold counts in E. exists k, others. rewrite E. cbn [map fst snd].
  split; [now rewrite map_map, map_id|]. split; [exact Hk|].
  split; [now rewrite !map_map|]. split; [|exact Hno].
  rewrite porcentaje_of_all by lia. f_equal. rewrite !map_map. apply map_ext.
  intros o. cbn [snd]. unfold porcentaje_of. apply porcentaje_zero. lia.
Qed.

Lemma category_distribution_percentages_witness :
  (getitem df_three "ica_category" = Some [CStr "Buena"; CStr "Moderada"; CStr "Peligrosa"]
   /\ Z.of_nat (List.length [CStr "Buena"; CStr "Moderada"; CStr "Peligrosa"]) < 2 ^ 63
   /\ exists (out : DataFrame) (ps : list Float64.t),
       category_distribution df_three "ica_category" = (Returned (Some out), [])
       /\ getitem out "porcentaje" = Some (map CFloat ps)
       /\ Forall (fun p => Float64.is_finite p = true) ps
       /\ (Qabs (Qsum (map Float64.to_Q ps) - 100) <= 1 # 10000000000000)%Q)
  /\ (getitem df_uniform "ica_category" = Some (repeat (CStr "Buena") 4)
      /\ Forall (fun y => same_value (CStr "Buena") y = true) (repeat (CStr "Buena") 4)
      /\ exists (out : DataFrame) (cats : list Cell) (ns : list Z) (ps : list Float64.t),
          category_distribution df_uniform "ica_category" = (Returned (Some out), [])
          /\ getitem out "Categoría" = Some cats
          /\ getitem out "conteo" = Some (map CInt ns)
          /\ getitem out "porcentaje" = Some (map CFloat ps)
          /\ exists k, cats = [k] /\ same_value (CStr "Buena") k = true
                       /\ ns = [4] /\ ps = [Float64.of_int 100]).
Proof.
  split.
  - split; [reflexivity|]. split; [reflexivity|].
    destruct (category_distribution_percentages df_three "ica_category"
                [CStr "Buena"; CStr "Moderada"; CStr "Peligrosa"] eq_refl
                ltac:(discriminate) eq_refl)
      as [out [cats [ns [ps [Hrun [_ [_ [Hp [_ [Hfin [Htol _]]]]]]]]]]].
    exists out, ps. repeat split; assumption.
  - assert (Hall : Forall (fun y => same_value (CStr "Buena") y = true)
                     (repeat (CStr "Buena") 4))
      by (repeat constructor).
    split; [reflexivity|]. split; [exact Hall|].
    destruct (category_distribution_percentages df_uniform "ica_category"
                (repeat (CStr "Buena") 4) eq_refl ltac:(discriminate) eq_refl)
      as [out [cats [ns [ps [Hrun [Hc [Hn [Hp [_ [_ [_ Hone]]]]]]]]]]].
    destruct (Hone (CStr "Buena") Hall) as [k [others [Ec [Hk [En [Ep Hno]]]]]].
    rewrite (Hno eq_refl) in Ec, En, Ep.
    exists out, cats, ns, ps. repeat (split; [assumption|]).
    exists k. repeat split; assumption.
Defined.

(** C3, as first stated, fails: three rows of three categories get the
    percentage 33.33333333333333 each, and these add up to 99.99999999999999,
    in binary64 and as exact rationals alike; 100.0 is the next double up.
    And two rows of one category, in a column of category dtype that declares
    five, give a summary of five rows, not of one. *)
Lemma category_distribution_percentages_inexact :
  let p := S754_finite false 4691249611844266 (-47) in
  category_distribution df_three "ica_category"
  = (Returned (Some
       (mkDataFrame (RangeIndex 3)
          [ ("Categoría", [CStr "Buena"; CStr "Moderada"; CStr "Peligrosa"]);
            ("conteo", [CInt 1; CInt 1; CInt 1]);
            ("porcentaje", [CFloat p; CFloat p; CFloat p]) ])), [])
  /\ Float64.sum [p; p; p] = S754_finite false 7036874417766399 (-46)
  /\ Float64.of_int 100 = S754_finite false 7036874417766400 (-46)
  /\ Float64.sum [p; p; p] <> Float64.of_int 100
  /\ ~ (Qsum (map Float64.to_Q [p; p; p]) == 100)%Q
  /\ getitem df_declared "ica_category" = Some [CStr "Buena"; CStr "Buena"]
  /\ exists out : DataFrame,
      category_distribution df_declared "ica_category" = (Returned (Some out), [])
      /\ index out = RangeIndex 5
      /\ getitem out "conteo" = Some [CInt 2; CInt 0; CInt 0; CInt 0; CInt 0]
      /\ getitem out "porcentaje"
         = Some [ CFloat (Float64.of_int 100); CFloat (S754_zero false);
                  CFloat (S754_zero false); CFloat (S754_zero false);
                  CFloat (S754_zero false) ].
Proof.
  cbv zeta. split; [vm_compute; reflexivity|].
  split; [vm_compute; reflexivity|].
  split; [vm_compute; reflexivity|].
  split; [vm_compute; discriminate|].
  split; [vm_compute; discriminate|].
  split; [reflexivity|].
  eexists. split; [vm_compute; reflexivity|].
  repeat split; vm_compute; reflexivity.
Qed.

(** C10, as amended: on a table that has the categorical column and no rows
    the call neither raises nor returns None.  The summary it returns has its
    three columns and one row per declared category of the column, with the
    count 0 and a NaN for percentage: no row at all when the column is not of
    category dtype.  The percentages of no rows add up to 0.0, not to 100. *)
Theorem category_distribution_empty (df : DataFrame) (cat_col : string) :
  getitem df cat_col = Some [] ->
  exists (out : DataFrame) (cats : list Cell),
    category_distribution df cat_col = (Returned (Some out), [])
    /\ columns out = ["Categoría"; "conteo"; "porcentaje"]%string
    /\ index out = RangeIndex (List.length cats)
    /\ getitem out "Categoría" = Some cats
    /\ getitem out "conteo" = Some (map (fun _ => CInt 0) cats)
    /\ getitem out "porcentaje" = Some (map (fun _ => CFloat S754_nan) cats)
    /\ Permutation cats (unique (categories_of df cat_col))
    /\ (lookup cat_col (categories df) = None ->
        out = mkDataFrame (RangeIndex 0)
                [ ("Categoría", []); ("conteo", []); ("porcentaje", []) ])
    /\ Float64.sum [] = S754_zero false
    /\ Float64.sum [] <> Float64.of_int 100.
Proof.
  intros H.
  pose proof (category_distribution_eq df cat_col [] H) as Heq. cbv zeta in Heq.
  set (counts := value_counts false (categories_of df cat_col) []) in *.
  assert (Hzero : forall kv, In kv counts -> snd kv = 0).
  { intros kv Hkv. now rewrite (value_counts_entry false _ [] kv Hkv). }
  assert (Hns : map snd counts = map (fun _ => 0) (map fst counts)).
  { rewrite map_map. apply map_ext_in. exact Hzero. }
  eexists. exists (map fst counts).
  split; [exact Heq|]. split; [reflexivity|].
  split; [cbn [index]; now rewrite length_map|].
  split; [reflexivity|]. split; [|split; [|split; [|split; [|split]]]].
  - cbn [getitem cols lookup String.eqb Ascii.eqb Bool.eqb]. simpl lookup.
    rewrite Hns, !map_map. reflexivity.
  - simpl lookup. rewrite Hns, !map_map. reflexivity.
  - pose proof (value_counts_keys false (categories_of df cat_col) []) as Hk.
    cbn [negb] in Hk. now rewrite app_nil_r in Hk.
  - intros Hno. subst counts. unfold categories_of. rewrite Hno. reflexivity.
  - reflexivity.
  - vm_compute. discriminate.
Qed.

Lemma category_distribution_empty_witness :
  getitem df_empty "ica_category" = Some []
  /\ lookup "ica_category" (categories df_empty) = None
  /\ category_distribution df_empty "ica_category"
     = (Returned (Some
          (mkDataFrame (RangeIndex 0)
             [ ("Categoría", []); ("conteo", []); ("porcentaje", []) ])), []).
Proof.
  split; [reflexivity|]. split; [reflexivity|].
  destruct (category_distribution_empty df_empty "ica_category" eq_refl)
    as [out [cats [H1 [_ [_ [_ [_ [_ [_ [H8 _]]]]]]]]]].
  rewrite H1, (H8 eq_refl). reflexivity.
Defined.

(** C10, as first stated, fails on a column of category dtype: with no rows
    the summary still has one row per declared category, five here, each with
    the count 0 and the percentage 0 / 0 * 100, a NaN. *)
Lemma category_distribution_empty_declared :
  getitem df_declared_empty "ica_category" = Some []
  /\ category_distribution df_declared_empty "ica_category"
     = (Returned (Some
          (mkFrame (RangeIndex 5)
             [ ("Categoría",
                [ CStr "Buena"; CStr "Moderada"; CStr "Dañina para grupos sensibles";
                  CStr "Muy dañina"; CStr "Peligrosa" ]);
               ("conteo", [CInt 0; CInt 0; CInt 0; CInt 0; CInt 0]);
               ("porcentaje",
                [ CFloat S754_nan; CFloat S754_nan; CFloat S754_nan; CFloat S754_nan;
                  CFloat S754_nan ]) ]
             [ ("Categoría",
                [ CStr "Buena"; CStr "Moderada"; CStr "Dañina para grupos sensibles";
                  CStr "Muy dañina"; CStr "Peligrosa" ]) ])), []).
Proof.
  split; vm_compute; reflexivity.
Qed.

(** C4: the reference table is the same at every call: five rows, the
    category column reading Buena, Moderada, Dañina para grupos sensibles,
    Muy dañina, Peligrosa in this order. *)
Theorem show_ica_health_table_rows :
  index (show_ica_health_table tt) = RangeIndex 5
  /\ Forall (fun kv => List.length (snd kv) = 5%nat) (cols (show_ica_health_table tt))
  /\ getitem (show_ica_health_table tt) "Categoría ICA"
     = Some [ CStr "Buena"; CStr "Moderada"; CStr "Dañina para grupos sensibles";
              CStr "Muy dañina"; CStr "Peligrosa" ]
  /\ getitem (show_ica_health_table tt) "Categoría ICA" = Some (map CStr ICA_ORDER)
  /\ (forall u : unit, show_ica_health_table u = show_ica_health_table tt).
Proof.
  split; [reflexivity|]. split; [repeat constructor|].
  split; [reflexivity|]. split; [reflexivity|].
  intros []. reflexivity.
Qed.

(** ** Running a call *)

Lemma savefig_if_returns (save_path : option string) :
  savefig_if save_path = (Returned tt, trace (savefig_if save_path)).
Proof.
  destruct save_path as [p|]; simpl; [destruct (String.eqb p "")|]; reflexivity.
Qed.

Lemma savefig_if_saves (p : string) :
  p <> "" -> trace (savefig_if (Some p)) = [Savefig p].
Proof.
  intros Hp. simpl. destruct (String.eqb p "") eqn:E; [|reflexivity].
  apply String.eqb_eq in E. contradiction.
Qed.

Lemma savefig_if_printed (save_path : option string) :
  printed (trace (savefig_if save_path)) = [].
Proof.
  destruct save_path as [p|]; simpl; [destruct (String.eqb p "")|]; reflexivity.
Qed.

Lemma printed_app (t u : list Event) : printed (t ++ u) = printed t ++ printed u.
Proof. apply flat_map_app. Qed.

Lemma saved_files_app (t u : list Event) : saved_files (t ++ u) = saved_files t ++ saved_files u.
Proof. apply flat_map_app. Qed.

Lemma printed_top_app (t u : list Event) : printed_top (t ++ u) = printed_top t ++ printed_top u.
Proof. apply flat_map_app. Qed.

Lemma printed_lines (top : list (string * Q)) :
  printed (map (fun kv => PrintCorr (fst kv) (snd kv)) top) = [].
Proof.
  unfold printed. induction top as [|kv top IH]; simpl; [reflexivity | exact IH].
Qed.

Lemma printed_top_lines (top : list (string * Q)) :
  printed_top (map (fun kv => PrintCorr (fst kv) (snd kv)) top) = top.
Proof.
  unfold printed_top. induction top as [|[k v] top IH]; simpl; [reflexivity | now rewrite IH].
Qed.

Lemma savefig_if_printed_top (save_path : option string) :
  printed_top (trace (savefig_if save_path)) = [].
Proof.
  destruct save_path as [p|]; simpl; [destruct (String.eqb p "")|]; reflexivity.
Qed.

Create Rewrite HintDb traces.
#[global] Hint Rewrite printed_app saved_files_app printed_top_app printed_lines
  printed_top_lines savefig_if_printed savefig_if_printed_top : traces.

Lemma bind_ret {A B : Type} (a : A) (k : A -> Py B) : bind (ret a) k = k a.
Proof. unfold bind, ret. simpl. destruct (k a); reflexivity. Qed.

Lemma for_each_emits {A : Type} (f : A -> Py unit) (g : A -> list Event) (l : list A) :
  (forall x, f x = (Returned tt, g x)) ->
  for_each f l = (Returned tt, flat_map g l).
Proof.
  intros H. induction l as [|x l IH]; simpl; [reflexivity|].
  unfold bind. rewrite H, IH. reflexivity.
Qed.

Lemma flat_map_single {A B : Type} (f : A -> B) (l : list A) :
  flat_map (fun x => [f x]) l = map f l.
Proof. induction l as [|x l IH]; simpl; [reflexivity | now rewrite IH]. Qed.

Lemma has_column_false_getitem (df : DataFrame) (name : string) :
  has_column name df = false -> getitem df name = None.
Proof.
  unfold getitem, has_column, columns. rewrite lookup_existsb.
  destruct (lookup name (cols df)); [discriminate | reflexivity].
Qed.

(** ** The time index *)

Lemma lookup_map_values {A B : Type} (f : A -> B) (name : string) (l : list (string * A)) :
  lookup name (map (fun kv => (fst kv, f (snd kv))) l) = option_map f (lookup name l).
Proof.
  induction l as [|[k v] l IH]; simpl; [reflexivity|].
  destruct (String.eqb name k); [reflexivity | exact IH].
Qed.

Lemma lookup_replace {A : Type} (v : A) (name : string) (l : list (string * A)) :
  lookup name (map (fun kv => if String.eqb name (fst kv) then (fst kv, v) else kv) l)
  = option_map (fun _ => v) (lookup name l).
Proof.
  induction l as [|[k w] l IH]; simpl; [reflexivity|].
  destruct (String.eqb name k) eqn:E; simpl; rewrite E; [reflexivity | exact IH].
Qed.

Lemma getitem_setitem (df : DataFrame) (name : string) (old new : list Cell) :
  getitem df name = Some old -> getitem (setitem df name new) name = Some new.
Proof.
  intros H. unfold getitem, setitem. rewrite (getitem_has_column _ _ _ H). simpl.
  rewrite lookup_replace. unfold getitem in H. now rewrite H.
Qed.

Lemma columns_setitem (df : DataFrame) (name : string) (old new : list Cell) :
  getitem df name = Some old -> columns (setitem df name new) = columns df.
Proof.
  intros H. unfold columns, setitem. rewrite (getitem_has_column _ _ _ H). simpl.
  rewrite map_map. apply map_ext. intros [k v]. simpl. now destruct (String.eqb name k).
Qed.

Lemma columns_dropna_subset (df : DataFrame) (name : string) :
  columns (dropna_subset df name) = columns df.
Proof.
  unfold dropna_subset, columns. destruct (getitem df name); [|reflexivity].
  simpl. rewrite map_map. reflexivity.
Qed.

Lemma columns_set_index (df : DataFrame) (name c : string) :
  In c (columns (set_index df name)) -> In c (columns df).
Proof.
  unfold set_index, columns. destruct (getitem df name); [|tauto].
  simpl. rewrite !in_map_iff. intros [kv [E H]]. apply filter_In in H.
  exists kv. tauto.
Qed.

Section RendererFacts.
Context {ext : Externals}.
Import DataVisualization.

Lemma times_of_parsed (date : list Cell) :
  exists ts, times_of (select (map notna (parse_dates date)) (parse_dates date)) = Some ts.
Proof.
  unfold parse_dates. induction (to_datetime date) as [|[t|] l [ts IH]].
  - now exists [].
  - cbn [map notna isna negb select times_of]. rewrite IH. now exists (t :: ts).
  - cbn [map notna isna negb select times_of]. now exists ts.
Qed.

(** After the conversion the index is a [DatetimeIndex]. *)
Lemma ensure_datetime_index_converts (df : DataFrame) (date : list Cell) :
  is_datetime_index (index df) = false ->
  getitem df "date" = Some date ->
  is_datetime_index (index (ensure_datetime_index df)) = true.
Proof.
  intros Hi Hd. unfold ensure_datetime_index.
  rewrite Hi, (getitem_has_column _ _ _ Hd), Hd. cbn [negb].
  unfold set_index, dropna_subset.
  rewrite (getitem_setitem _ _ _ (parse_dates date) Hd).
  unfold getitem at 1. cbn [cols]. rewrite lookup_map_values.
  fold (getitem (setitem df "date" (parse_dates date)) "date").
  rewrite (getitem_setitem _ _ _ (parse_dates date) Hd). cbn [option_map index].
  destruct (times_of_parsed date) as [ts ->]. reflexivity.
Qed.

Lemma ensure_datetime_index_columns (df : DataFrame) (c : string) :
  In c (columns (ensure_datetime_index df)) -> In c (columns df).
Proof.
  unfold ensure_datetime_index.
  destruct (negb (is_datetime_index (index df))); [|tauto].
  destruct (has_column "date" df); [|tauto].
  destruct (getitem df "date") as [date|] eqn:Hd; [|tauto].
  intros H. apply columns_set_index in H.
  rewrite columns_dropna_subset, (columns_setitem _ _ _ _ Hd) in H. exact H.
Qed.

(** C5: normalising the time index twice gives what normalising once gives,
    and a table that already has a time index comes back unchanged. *)
Theorem ensure_datetime_index_idempotent (df : DataFrame) :
  ensure_datetime_index (ensure_datetime_index df) = ensure_datetime_index df
  /\ (is_datetime_index (index df) = true -> ensure_datetime_index df = df).
Proof.
  assert (Hfix : forall d, is_datetime_index (index d) = true -> ensure_datetime_index d = d).
  { intros d Hd. unfold ensure_datetime_index. now rewrite Hd. }
  split; [|apply Hfix].
  destruct (is_datetime_index (index df)) eqn:Hi.
  - now rewrite !(Hfix df Hi).
  - destruct (has_column "date" df) eqn:Hc.
    + destruct (has_column_getitem _ _ Hc) as [date Hd].
      apply Hfix. now apply ensure_datetime_index_converts with date.
    + assert (E : ensure_datetime_index df = df).
      { unfold ensure_datetime_index. now rewrite Hi, Hc. }
      now rewrite !E.
Qed.

(** ** Renderers on a missing column *)

Lemma trace_bind {A B : Type} (c : Py A) (k : A -> Py B) :
  trace (bind c k)
  = trace c ++ match result c with
               | Returned a => trace (k a)
               | Raised _ => []
               end.
Proof.
  unfold bind, trace, result. destruct (fst c); cbn [snd]; [reflexivity|].
  now rewrite app_nil_r.
Qed.

(** A call that draws data is made, and returns unless the library raises. *)
Lemma plot_call_eq (e : Event) :
  plot_call e
  = (match draw_error e with Some exc => Raised exc | None => Returned tt end, [e]).
Proof. unfold plot_call. now destruct (draw_error e). Qed.

Lemma line_step_eq (df : DataFrame) (col : string) :
  line_step df col
  = (match getitem df col with
     | Some y =>
         match draw_error (Plot (index df) y (str_upper col)) with
         | Some exc => Raised exc
         | None => Returned tt
         end
     | None => Returned tt
     end,
     lines df [col]).
Proof.
  unfold line_step, lines. cbn [flat_map]. rewrite app_nil_r.
  destruct (has_column col df) eqn:E.
  - destruct (has_column_getitem _ _ E) as [y Hy]. unfold column. rewrite Hy, bind_ret.
    apply plot_call_eq.
  - now rewrite (has_column_false_getitem _ _ E).
Qed.

Lemma lines_app (df : DataFrame) (cs cs' : list string) :
  lines df (cs ++ cs') = lines df cs ++ lines df cs'.
Proof. apply flat_map_app. Qed.

(** The loop over the requested columns draws the lines of the first of
    them, up to the one on which the library raises, if any. *)
Lemma line_steps (df : DataFrame) (columnas : list string) :
  exists n,
    trace (for_each (line_step df) columnas) = lines df (firstn n columnas)
    /\ (result (for_each (line_step df) columnas) = Returned tt
        -> firstn n columnas = columnas).
Proof.
  induction columnas as [|c cs [n [IH1 IH2]]].
  - exists O. split; reflexivity.
  - cbn [for_each]. rewrite trace_bind. unfold result at 1.
    unfold bind. rewrite line_step_eq. cbn [fst snd trace].
    destruct (getitem df c) as [y|] eqn:Hy.
    + destruct (draw_error (Plot (index df) y (str_upper c))) as [exc|].
      * exists 1%nat. cbn [firstn]. rewrite app_nil_r. split; [reflexivity | discriminate].
      * exists (S n). cbn [firstn]. change (c :: firstn n cs) with ([c] ++ firstn n cs).
        rewrite lines_app, <- IH1. split; [reflexivity|].
        intros Hr. cbn [app]. f_equal. apply IH2. exact Hr.
    + exists (S n). cbn [firstn]. change (c :: firstn n cs) with ([c] ++ firstn n cs).
      rewrite lines_app, <- IH1. split; [reflexivity|].
      intros Hr. cbn [app]. f_equal. apply IH2. exact Hr.
Qed.


(** A column the table lacks is passed over. *)
Lemma line_steps_skip (df : DataFrame) (col : string) (columnas : list string) :
  has_column col df = false ->
  for_each (line_step df) (filter (fun c => negb (String.eqb c col)) columnas)
  = for_each (line_step df) columnas.
Proof.
  intros Hcol. induction columnas as [|c cs IH]; [reflexivity|].
  cbn [filter for_each]. destruct (String.eqb c col) eqn:E; cbn [negb].
  - apply String.eqb_eq in E. subst c. rewrite IH.
    unfold line_step at 2. rewrite Hcol. now rewrite bind_ret.
  - cbn [for_each]. now rewrite IH.
Qed.

Lemma plot_time_series_steps (df : DataFrame) (columnas : list string)
    (figsize : Z * Z) (titulo : string) (save_path : option string) :
  plot_time_series df columnas figsize titulo save_path
  = (emit (Figure figsize) ;;
     for_each (line_step (ensure_datetime_index df)) columnas ;;
     emit (XLabel "Fecha") ;;
     emit (YLabel "Concentración (µg/m³)") ;;
     emit (Title titulo) ;;
     emit Legend ;;
     emit Grid ;;
     emit TightLayout ;;
     savefig_if save_path ;;
     emit Show)%py.
Proof. reflexivity. Qed.

(** The whole run of the line chart: the figure, the lines up to the one the
    library raises on, and, when it raises on none, the rest of the chart. *)
Lemma plot_time_series_run (df : DataFrame) (columnas : list string)
    (figsize : Z * Z) (titulo : string) (save_path : option string) :
  exists n rest,
    trace (plot_time_series df columnas figsize titulo save_path)
    = Figure figsize :: lines (ensure_datetime_index df) (firstn n columnas) ++ rest
    /\ (rest = []
        \/ rest = [XLabel "Fecha"; YLabel "Concentración (µg/m³)"; Title titulo; Legend;
                   Grid; TightLayout] ++ trace (savefig_if save_path) ++ [Show]).
Proof.
  rewrite plot_time_series_steps.
  destruct (line_steps (ensure_datetime_index df) columnas) as [n [Ht _]].
  exists n. rewrite trace_bind. cbn [emit trace result fst snd app].
  rewrite trace_bind, Ht.
  destruct (result (for_each (line_step (ensure_datetime_index df)) columnas)).
  - eexists. split; [reflexivity|]. right.
    rewrite (savefig_if_returns save_path).
    unfold bind, emit, trace. cbn [fst snd app]. reflexivity.
  - exists []. split; [reflexivity | now left].
Qed.


Lemma plot_lines_quiet (df : DataFrame) (columnas : list string) :
  printed (lines df columnas) = [] /\ saved_files (lines df columnas) = [].
Proof.
  unfold lines. induction columnas as [|c cs [IH1 IH2]]; simpl; [split; reflexivity|].
  rewrite printed_app, saved_files_app, IH1, IH2.
  destruct (getitem df c); split; reflexivity.
Qed.

(** C1, as amended: when [col] is not a column of the table, the scatter
    renderer (with [col] on either axis) and the hourly heatmap print one
    warning and do nothing else, so no figure is drawn and no file saved.  The
    line chart prints no warning, for this column or any other: it passes
    [col] over, runs as if it had not been requested, and opens its figure. *)
Theorem missing_column_renderers (df : DataFrame) (col : string) :
  ~ In col (columns df) ->
  (forall other figsize save_path,
      plot_scatter_comparison df col other figsize save_path
      = (Returned tt, [Print "❌ Una o ambas columnas no existen en el DataFrame."])
      /\ plot_scatter_comparison df other col figsize save_path
         = (Returned tt, [Print "❌ Una o ambas columnas no existen en el DataFrame."]))
  /\ (forall figsize save_path,
      plot_heatmap_hourly df col figsize save_path
      = (Returned tt, [Print ("❌ La columna '" ++ col ++ "' no existe en el DataFrame.")%string]))
  /\ (forall columnas figsize titulo save_path,
      let run := plot_time_series df columnas figsize titulo save_path in
      run = plot_time_series df (filter (fun c => negb (String.eqb c col)) columnas)
              figsize titulo save_path
      /\ printed (trace run) = []
      /\ In (Figure figsize) (trace run)).
Proof.
  intros Hcol.
  assert (Hdf : has_column col df = false).
  { destruct (has_column col df) eqn:E; [|reflexivity].
    apply has_column_In in E. contradiction. }
  assert (Hdf' : has_column col (ensure_datetime_index df) = false).
  { destruct (has_column col (ensure_datetime_index df)) eqn:E; [|reflexivity].
    apply has_column_In, ensure_datetime_index_columns in E. contradiction. }
  split; [|split].
  - intros other figsize save_path. unfold plot_scatter_comparison. rewrite Hdf.
    cbn [negb orb]. rewrite orb_true_r. split; reflexivity.
  - intros figsize save_path. unfold plot_heatmap_hourly. rewrite Hdf'. reflexivity.
  - intros columnas figsize titulo save_path run. subst run.
    split; [|split].
    + rewrite !plot_time_series_steps. now rewrite (line_steps_skip _ col columnas Hdf').
    + destruct (plot_time_series_run df columnas figsize titulo save_path)
        as [n [rest [-> Hrest]]].
      change (printed (Figure figsize :: ?t)) with (printed t).
      rewrite printed_app, (proj1 (plot_lines_quiet _ _)).
      destruct Hrest as [->| ->]; [reflexivity|].
      change (printed ([XLabel ?a; YLabel ?b; Title ?c; Legend; Grid; TightLayout] ++ ?t))
        with (printed t).
      now rewrite printed_app, savefig_if_printed.
    + destruct (plot_time_series_run df columnas figsize titulo save_path)
        as [n [rest [-> _]]]. now left.
Qed.

(** ** The category bar chart *)

(** Reindexing the counts to a list of labels reads, label by label, the
    number of rows that hold it: 0 for a label no row holds, whatever
    categories the column declares. *)
Lemma reindex_value_counts (declared s : list Cell) (labels : list string) :
  reindex (value_counts true declared s) labels 0
  = map (fun l => (l, occurrences (CStr l) s)) labels.
Proof.
  unfold reindex. apply map_ext. intros l. f_equal.
  assert (Hocc : occurrences (CStr l) (filter notna s) = occurrences (CStr l) s)
    by now apply occurrences_notna.
  destruct (find _ (value_counts true declared s)) as [kv|] eqn:E.
  - apply find_some in E. destruct E as [Hin Heq]. apply Cell_eqb_eq in Heq.
    rewrite (value_counts_entry true declared s kv Hin), <- Heq. exact Hocc.
  - rewrite <- Hocc. symmetry. apply occurrences_not_In.
    intros Hin. apply in_map_iff in Hin. destruct Hin as [y [Hy Hin]].
    apply key_str in Hy. subst y.
    assert (Hu : In (CStr l) (unique (declared ++ filter notna s))).
    { apply unique_In_str, in_or_app. now right. }
    eapply Permutation_in in Hu; [|apply Permutation_sym, (value_counts_keys true declared s)].
    apply in_map_iff in Hu. destruct Hu as [kv [Hk Hkv]].
    pose proof (find_none _ _ E kv Hkv) as Hno. simpl in Hno. rewrite Hk in Hno.
    assert (Cell_eqb (CStr l) (CStr l) = true) by now apply Cell_eqb_eq. congruence.
Qed.

(** C8: on a table with the column 'ica_category', the bar chart has one bar
    per label of the six-label order Buena, Moderada, Dañina para grupos
    sensibles, Dañina, Muy dañina, Peligrosa, in this order; a bar's width is
    the number of rows holding its label, 0 when none does; and each bar is
    annotated with its count and the binary64 quotient count / total, the
    total being the sum over the six bars. *)
Theorem plot_ica_distribution_bars (df : DataFrame) (figsize : Z * Z)
    (save_path : option string) (s : list Cell) :
  getitem df "ica_category" = Some s ->
  let counts := map (fun l => occurrences (CStr l) s) orden_ica in
  let total := Zsum counts in
  plot_ica_distribution df figsize save_path
  = (Returned tt,
     [ Figure figsize;
       BarH (range 6) counts (map (fun cat => dict_get ICA_COLORS cat "#CCCCCC") orden_ica);
       YTicks (range 6);
       YTickLabels orden_ica;
       XLabel "Frecuencia";
       Title "Distribución de Categorías ICA";
       Grid ]
     ++ map (fun iv =>
               BarText (snd iv + 1) (fst iv) (snd iv)
                 (Float64.div (Float64.of_int (snd iv)) (Float64.of_int total)))
            (enumerate counts)
     ++ [TightLayout] ++ trace (savefig_if save_path) ++ [Show])
  /\ orden_ica = ["Buena"; "Moderada"; "Dañina para grupos sensibles"; "Dañina";
                  "Muy dañina"; "Peligrosa"]
  /\ (forall l, In l orden_ica -> ~ In (CStr l) s -> occurrences (CStr l) s = 0).
Proof.
  intros H counts total. split; [|split].
  - unfold plot_ica_distribution, column.
    rewrite (getitem_has_column _ _ _ H), H. cbn [negb].
    rewrite bind_ret, reindex_value_counts.
    rewrite !map_map. cbn [fst snd]. rewrite !length_map.
    fold counts. fold total.
    rewrite (for_each_emits _
               (fun iv => [BarText (snd iv + 1) (fst iv) (snd iv)
                             (Float64.div (Float64.of_int (snd iv)) (Float64.of_int total))])).
    + rewrite (savefig_if_returns save_path).
      unfold bind, emit. cbn [fst snd app trace].
      rewrite flat_map_single, map_id. reflexivity.
    + intros [i v]. reflexivity.
  - reflexivity.
  - intros l _ Hnot. rewrite occurrences_str.
    now rewrite (proj1 (count_occ_not_In Cell_eq_dec _ _) Hnot).
Qed.

(** ** The correlation matrix *)

Lemma column_returns (df : DataFrame) (c : string) (v : list Cell) :
  getitem df c = Some v -> column df c = ret v.
Proof. intros H. unfold column. now rewrite H. Qed.

Lemma map_py_column (df : DataFrame) (cs : list string) :
  (forall c, In c cs -> has_column c df = true) ->
  exists sub,
    map_py (column df) cs = (Returned sub, [])
    /\ Forall2 (fun c v => getitem df c = Some v) cs sub.
Proof.
  induction cs as [|c cs IH]; intros Hcs.
  - exists []. split; [reflexivity | constructor].
  - destruct IH as [sub [Hsub Hall]]; [intros x Hx; apply Hcs; now right|].
    destruct (has_column_getitem df c) as [v Hv]; [apply Hcs; now left|].
    exists (v :: sub). split; [|now constructor].
    cbn [map_py]. rewrite (column_returns _ _ _ Hv), bind_ret, Hsub. reflexivity.
Qed.

Lemma Qle_bool_total (a b : string * Q) :
  Qle_bool (snd a) (snd b) = true \/ Qle_bool (snd b) (snd a) = true.
Proof.
  rewrite !Qle_bool_iff. destruct (Qlt_le_dec (snd a) (snd b)) as [H|H].
  - left. now apply Qlt_le_weak.
  - now right.
Qed.

Lemma Qle_bool_trans (a b c : string * Q) :
  Qle_bool (snd a) (snd b) = true -> Qle_bool (snd b) (snd c) = true ->
  Qle_bool (snd a) (snd c) = true.
Proof. rewrite !Qle_bool_iff. apply Qle_trans. Qed.

Lemma firstn_In {A : Type} (n : nat) (l : list A) (x : A) : In x (firstn n l) -> In x l.
Proof.
  revert l. induction n as [|n IH]; intros [|y l]; simpl; try tauto.
  intros [H|H]; [now left | right; now apply IH].
Qed.

Lemma descending_firstn {A : Type} (leb : A -> A -> bool) (n : nat) (l : list A) :
  descending leb l -> descending leb (firstn n l).
Proof.
  unfold descending. intros H. revert n.
  induction H as [|x l Hs IH Hx]; intros [|n]; simpl; constructor.
  - apply IH.
  - apply Forall_forall. intros y Hy. apply firstn_In in Hy.
    rewrite Forall_forall in Hx. now apply Hx.
Qed.

(** [head] always keeps a prefix. *)
Lemma head_firstn {A : Type} (n : Z) (l : list A) : exists m, head n l = firstn m l.
Proof.
  unfold head. destruct (0 <=? n); eexists; reflexivity.
Qed.

Lemma head_length {A : Type} (n : Z) (l : list A) :
  0 <= n -> Z.of_nat (List.length (head n l)) <= n.
Proof.
  intros Hn. unfold head. replace (0 <=? n) with true by (symmetry; now apply Z.leb_le).
  rewrite length_firstn. lia.
Qed.

Lemma dropna_In (serie : list (string * option Q)) (k : string) (v : Q) :
  In (k, v) (dropna serie) -> In (k, Some v) serie.
Proof.
  induction serie as [|[k' [v'|]] serie IH]; simpl; [tauto| |].
  - intros [E|H]; [left; congruence | right; now apply IH].
  - intros H. right. now apply IH.
Qed.

(** The entries of the sorted top list: correlations with [ref] that are
    numbers, of labels other than [ref]. *)
Lemma top_entries (corr : CorrMatrix) (ref : string) (top_k : Z) (kv : string * Q) :
  In kv (head top_k (sort_values_desc (dropna (drop_label ref (corr_column corr ref))))) ->
  fst kv <> ref /\ In (fst kv, Some (snd kv)) (corr_column corr ref).
Proof.
  intros H. destruct (head_firstn top_k (sort_values_desc (dropna (drop_label ref (corr_column corr ref))))) as [m Hm].
  rewrite Hm in H. apply firstn_In in H.
  eapply Permutation_in in H; [|apply sort_desc_perm].
  destruct kv as [k v]. apply dropna_In in H. unfold drop_label in H.
  apply filter_In in H. destruct H as [Hin Hne]. cbn [fst snd] in *. split; [|exact Hin].
  intros ->. rewrite String.eqb_refl in Hne. discriminate.
Qed.

Lemma top_descending (corr : CorrMatrix) (ref : string) (top_k : Z) :
  descending (fun a b : string * Q => Qle_bool (snd a) (snd b))
    (head top_k (sort_values_desc (dropna (drop_label ref (corr_column corr ref))))).
Proof.
  destruct (head_firstn top_k (sort_values_desc (dropna (drop_label ref (corr_column corr ref))))) as [m ->].
  apply descending_firstn. apply sort_desc_sorted; [apply Qle_bool_total | apply Qle_bool_trans].
Qed.

(** The function filters the requested labels in each branch of its test on
    [columnas]; [existing] is the same list with the test inside. *)
Ltac name_existing columnas existing :=
  match goal with
  | |- context [match columnas with
                | Some cs => filter ?f cs
                | None => filter ?f ?d
                end] =>
      replace (match columnas with
               | Some cs => filter f cs
               | None => filter f d
               end) with existing by (unfold existing; destruct columnas; reflexivity)
  end.

(** The columns the correlation is taken over. *)
Lemma existing_columns (df : DataFrame) (requested : list string) (c : string) :
  In c (filter (fun c => has_column c df) requested) -> has_column c df = true.
Proof. intros H. apply filter_In in H. tauto. Qed.

Lemma first_error_none (sub : list (list Cell)) :
  Forall (fun v => float_error v = None) sub -> first_error sub = None.
Proof.
  induction 1 as [|v sub Hv _ IH]; [reflexivity|]. cbn [first_error]. now rewrite Hv.
Qed.


(** What [plot_correlation_matrix] does once two requested columns exist:
    the conversion to floats may raise; otherwise the chart is drawn, saved
    and shown, and then the top list printed when it is asked for and [ref]
    is a label of the matrix, unless [ref] labels more than one column. *)
Lemma plot_correlation_matrix_run (df : DataFrame) (columnas : option (list string))
    (figsize : Z * Z) (save_path : option string) (ref : string) (top_k : Z)
    (print_top : bool) :
  let existing :=
    filter (fun c => has_column c df)
           (match columnas with None => CONTAMINANTES | Some cs => cs end) in
  (2 <= List.length existing)%nat ->
  exists sub,
    Forall2 (fun c v => getitem df c = Some v) existing sub
    /\ let corr := mkCorr existing (map (fun a => map (fun b => pearson a b) sub) sub) in
       let drawn :=
         [Figure figsize; HeatmapCorr corr;
          Title "Matriz de Correlación entre Contaminantes"; TightLayout]
         ++ trace (savefig_if save_path) ++ [Show] in
       plot_correlation_matrix df columnas figsize save_path ref top_k print_top
       = match first_error sub with
         | Some exc => (Raised exc, [])
         | None =>
             if print_top && existsb (String.eqb ref) existing then
               if (1 <? count_occ string_dec existing ref)%nat then
                 (Raised "TypeError", drawn)
               else
                 (Returned (Some corr),
                  drawn
                  ++ Print "🔎 Correlaciones más altas con PM2.5:"
                     :: map (fun kv => PrintCorr (fst kv) (snd kv))
                          (head top_k
                             (sort_values_desc
                                (dropna (drop_label ref (corr_column corr ref))))))
             else (Returned (Some corr), drawn)
         end.
Proof.
  intros existing Hlen.
  destruct (map_py_column df existing (existing_columns df _)) as [sub [Hsub Hall]].
  exists sub. split; [exact Hall|]. intros corr drawn.
  unfold plot_correlation_matrix.
  name_existing columnas existing.
  replace (List.length existing <? 2)%nat with false
    by (symmetry; apply Nat.ltb_ge; exact Hlen).
  unfold corr_of. rewrite Hsub. change (Returned sub, []) with (ret sub).
  rewrite bind_ret. destruct (first_error sub) as [exc|]; [reflexivity|].
  rewrite !bind_ret. fold corr.
  rewrite (savefig_if_returns save_path).
  change (corr_labels corr) with existing.
  destruct (print_top && existsb (String.eqb ref) existing).
  - destruct (1 <? count_occ string_dec existing ref)%nat.
    + unfold bind, emit, ret, raise. cbn [fst snd app trace]. subst drawn.
      rewrite ?app_nil_r. reflexivity.
    + rewrite (for_each_emits _ (fun kv => [PrintCorr (fst kv) (snd kv)])) by reflexivity.
      unfold bind, emit, ret. cbn [fst snd app trace].
      rewrite flat_map_single, ?app_nil_r. subst drawn.
      cbn [app]. rewrite <- ?app_assoc. reflexivity.
  - unfold bind, emit, ret. cbn [fst snd app trace]. subst drawn.
    rewrite ?app_nil_r. reflexivity.
Qed.

(** The chart itself prints no line of the top list. *)
Lemma drawn_prints_nothing (corr : CorrMatrix) (figsize : Z * Z) (save_path : option string) :
  let drawn :=
    [Figure figsize; HeatmapCorr corr;
     Title "Matriz de Correlación entre Contaminantes"; TightLayout]
    ++ trace (savefig_if save_path) ++ [Show] in
  printed drawn = [] /\ printed_top drawn = [].
Proof.
  cbv zeta. split.
  - change (printed ([Figure ?a; HeatmapCorr ?b; Title ?c; TightLayout] ++ ?t)) with (printed t).
    now autorewrite with traces.
  - change (printed_top ([Figure ?a; HeatmapCorr ?b; Title ?c; TightLayout] ++ ?t))
      with (printed_top t).
    now autorewrite with traces.
Qed.

(** What the call prints as its top list: nothing, or the first entries of
    the sorted column of [ref]. *)
Lemma printed_top_run (df : DataFrame) (columnas : option (list string))
    (figsize : Z * Z) (save_path : option string) (ref : string) (top_k : Z) :
  let existing :=
    filter (fun c => has_column c df)
           (match columnas with None => CONTAMINANTES | Some cs => cs end) in
  (2 <= List.length existing)%nat ->
  In ref existing ->
  exists sub,
    Forall2 (fun c v => getitem df c = Some v) existing sub
    /\ let corr := mkCorr existing (map (fun a => map (fun b => pearson a b) sub) sub) in
       let run := plot_correlation_matrix df columnas figsize save_path ref top_k true in
       (printed_top (trace run) = []
        \/ printed_top (trace run)
           = head top_k (sort_values_desc (dropna (drop_label ref (corr_column corr ref)))))
       /\ (Forall (fun v => float_error v = None) sub ->
           count_occ string_dec existing ref = 1%nat ->
           result run = Returned (Some corr)
           /\ printed (trace run) = ["🔎 Correlaciones más altas con PM2.5:"]
           /\ printed_top (trace run)
              = head top_k (sort_values_desc (dropna (drop_label ref (corr_column corr ref))))).
Proof.
  intros existing Hlen Href.
  destruct (plot_correlation_matrix_run df columnas figsize save_path ref top_k true Hlen)
    as [sub [Hall Heq]].
  exists sub. split; [exact Hall|]. intros corr run.
  cbv zeta in Heq. fold existing in Heq. fold corr in Heq.
  assert (Hex : existsb (String.eqb ref) existing = true).
  { apply existsb_exists. exists ref. split; [exact Href | apply String.eqb_refl]. }
  rewrite Hex in Heq. cbn [andb] in Heq.
  destruct (drawn_prints_nothing corr figsize save_path) as [Hp Hpt]. cbv zeta in Hp, Hpt.
  assert (Hlist : forall l,
            printed_top
              (([Figure figsize; HeatmapCorr corr;
                 Title "Matriz de Correlación entre Contaminantes"; TightLayout]
                ++ trace (savefig_if save_path) ++ [Show])
               ++ Print "🔎 Correlaciones más altas con PM2.5:"
                  :: map (fun kv => PrintCorr (fst kv) (snd kv)) l) = l).
  { intros l. rewrite printed_top_app, Hpt.
    change (printed_top (Print ?m :: ?t)) with (printed_top t).
    now autorewrite with traces. }
  split.
  - subst run. rewrite Heq. destruct (first_error sub); [now left|].
    destruct (1 <? count_occ string_dec existing ref)%nat.
    + left. exact Hpt.
    + right. apply Hlist.
  - intros Hok Hone. subst run. rewrite Heq, (first_error_none sub Hok), Hone.
    cbn [Nat.ltb Nat.leb]. split; [reflexivity|]. split; [|apply Hlist].
    unfold trace at 1. cbn [snd]. rewrite printed_app, Hp.
    change (printed (Print ?m :: ?t)) with (m :: printed t).
    now autorewrite with traces.
Qed.


(** C9, as amended: when the top list is asked for and the reference column
    is among the correlated columns, the list printed is in descending order
    of correlation with the reference, holds only numeric correlations of
    other labels with it, never the reference itself, and has at most [top_k]
    entries whenever [top_k] is not negative.  When the columns convert to
    floats and the reference was requested once, the call returns the matrix
    and prints the heading before the list. *)
Theorem plot_correlation_matrix_top (df : DataFrame) (columnas : option (list string))
    (figsize : Z * Z) (save_path : option string) (ref : string) (top_k : Z) :
  let existing :=
    filter (fun c => has_column c df)
           (match columnas with None => CONTAMINANTES | Some cs => cs end) in
  (2 <= List.length existing)%nat ->
  In ref existing ->
  let run := plot_correlation_matrix df columnas figsize save_path ref top_k true in
  let top := printed_top (trace run) in
  (0 <= top_k -> Z.of_nat (List.length top) <= top_k)
  /\ descending (fun a b : string * Q => Qle_bool (snd a) (snd b)) top
  /\ ~ In ref (map fst top)
  /\ exists sub,
      Forall2 (fun c v => getitem df c = Some v) existing sub
      /\ let corr := mkCorr existing (map (fun a => map (fun b => pearson a b) sub) sub) in
         (forall kv, In kv top -> In (fst kv, Some (snd kv)) (corr_column corr ref))
         /\ (Forall (fun v => float_error v = None) sub ->
             count_occ string_dec existing ref = 1%nat ->
             result run = Returned (Some corr)
             /\ printed (trace run) = ["🔎 Correlaciones más altas con PM2.5:"]).
Proof.
  intros existing Hlen Href run top.
  destruct (printed_top_run df columnas figsize save_path ref top_k Hlen Href)
    as [sub [Hall Hrun]].
  cbv zeta in Hrun. fold existing in Hall, Hrun. fold run in Hrun. fold top in Hrun.
  set (corr := mkCorr existing (map (fun a => map (fun b => pearson a b) sub) sub)) in *.
  destruct Hrun as [Htop Hgood].
  assert (Hcases : top = [] \/ top = head top_k (sort_values_desc
                                         (dropna (drop_label ref (corr_column corr ref)))))
    by exact Htop.
  split; [|split; [|split]].
  - intros Hk. destruct Hcases as [->| ->]; [simpl; lia | now apply head_length].
  - destruct Hcases as [->| ->]; [constructor | apply top_descending].
  - destruct Hcases as [->| ->]; [simpl; tauto|].
    intros Hin. apply in_map_iff in Hin. destruct Hin as [kv [Hk Hin]].
    apply top_entries in Hin. tauto.
  - exists sub. split; [exact Hall|]. intros corr'. subst corr'. split.
    + intros kv Hkv. destruct Hcases as [E|E]; rewrite E in Hkv; [contradiction|].
      now apply top_entries in Hkv.
    + intros Hok Hone. destruct (Hgood Hok Hone) as [H1 [H2 _]]. split; assumption.
Qed.

End RendererFacts.

(** ** The theorems at sample inputs *)

Import DataVisualization.

Lemma ensure_datetime_index_idempotent_witness :
  is_datetime_index (index df_timed) = true
  /\ ensure_datetime_index (ext := sample_externals)
       (ensure_datetime_index (ext := sample_externals) df_sample)
     = ensure_datetime_index (ext := sample_externals) df_sample
  /\ ensure_datetime_index (ext := sample_externals) df_timed = df_timed.
Proof.
  split; [reflexivity|]. split.
  - exact (proj1 (ensure_datetime_index_idempotent (ext := sample_externals) df_sample)).
  - exact (proj2 (ensure_datetime_index_idempotent (ext := sample_externals) df_timed) eq_refl).
Defined.

Lemma nope_not_in_df_sample : ~ In "nope" (columns df_sample).
Proof.
  simpl. intros H. repeat (destruct H as [H|H]; [discriminate H|]). exact H.
Qed.

Lemma missing_column_renderers_witness :
  ~ In "nope" (columns df_sample)
  /\ plot_scatter_comparison (ext := sample_externals) df_sample "pm2_5" "nope" (10, 6)
       (Some "s.png")
     = (Returned tt, [Print "❌ Una o ambas columnas no existen en el DataFrame."])
  /\ plot_heatmap_hourly (ext := sample_externals) df_sample "nope" (12, 6) (Some "h.png")
     = (Returned tt, [Print "❌ La columna 'nope' no existe en el DataFrame."])
  /\ plot_time_series (ext := sample_externals) df_sample ["pm2_5"; "nope"] (14, 6)
       "Evolución Temporal de Contaminantes" (Some "t.png")
     = plot_time_series (ext := sample_externals) df_sample ["pm2_5"] (14, 6)
         "Evolución Temporal de Contaminantes" (Some "t.png")
  /\ printed
       (trace (plot_time_series (ext := sample_externals) df_sample ["pm2_5"; "nope"] (14, 6)
                 "Evolución Temporal de Contaminantes" (Some "t.png")))
     = [].
Proof.
  pose proof (missing_column_renderers (ext := sample_externals) df_sample "nope"
                nope_not_in_df_sample) as [Hs [Hh Ht]].
  split; [exact nope_not_in_df_sample|]. split; [|split].
  - exact (proj2 (Hs "pm2_5" (10, 6) (Some "s.png"))).
  - exact (Hh (12, 6) (Some "h.png")).
  - destruct (Ht ["pm2_5"; "nope"] (14, 6) "Evolución Temporal de Contaminantes"
                (Some "t.png")) as [H1 [H2 _]].
    split; [exact H1 | exact H2].
Defined.

(** C1, as first stated, fails for the line chart: asked for a column the
    table does not have, it prints nothing, draws the (empty) figure and
    saves it to the given path. *)
Lemma plot_time_series_missing_column_saves :
  has_column "nope" df_sample = false
  /\ plot_time_series (ext := sample_externals) df_sample ["nope"] (14, 6)
       "Evolución Temporal de Contaminantes" (Some "out.png")
     = (Returned tt,
        [ Figure (14, 6); XLabel "Fecha"; YLabel "Concentración (µg/m³)";
          Title "Evolución Temporal de Contaminantes"; Legend; Grid; TightLayout;
          Savefig "out.png"; Show ]).
Proof.
  split; vm_compute; reflexivity.
Qed.

Lemma plot_ica_distribution_bars_witness :
  getitem df_sample "ica_category" = Some [CStr "Buena"; CStr "Rara"; CStr "Buena"]
  /\ plot_ica_distribution (ext := sample_externals) df_sample (12, 5) None
     = (Returned tt,
        [ Figure (12, 5);
          BarH [0; 1; 2; 3; 4; 5] [2; 0; 0; 0; 0; 0]
            ["#2ECC71"; "#F1C40F"; "#CCCCCC"; "#CCCCCC"; "#CCCCCC"; "#CCCCCC"];
          YTicks [0; 1; 2; 3; 4; 5];
          YTickLabels ["Buena"; "Moderada"; "Dañina para grupos sensibles"; "Dañina";
                       "Muy dañina"; "Peligrosa"];
          XLabel "Frecuencia"; Title "Distribución de Categorías ICA"; Grid;
          BarText 3 0 2 (S754_finite false 4503599627370496 (-52));
          BarText 1 1 0 (S754_zero false); BarText 1 2 0 (S754_zero false);
          BarText 1 3 0 (S754_zero false); BarText 1 4 0 (S754_zero false);
          BarText 1 5 0 (S754_zero false);
          TightLayout; Show ]).
Proof.
  split; [reflexivity|].
  exact (proj1 (plot_ica_distribution_bars (ext := sample_externals) df_sample (12, 5) None
                  [CStr "Buena"; CStr "Rara"; CStr "Buena"] eq_refl)).
Defined.





Lemma plot_correlation_matrix_top_witness :
  (2 <= List.length (filter (fun c => has_column c df_sample)
                       CONTAMINANTES))%nat
  /\ In "pm2_5" (filter (fun c => has_column c df_sample)
                   CONTAMINANTES)
  /\ 0 <= 5
  /\ Z.of_nat (List.length
                 (printed_top (trace (plot_correlation_matrix (ext := sample_externals)
                                        df_sample None (10, 8) None "pm2_5" 5 true)))) <= 5
  /\ ~ In "pm2_5"
       (map fst (printed_top (trace (plot_correlation_matrix (ext := sample_externals)
                                       df_sample None (10, 8) None "pm2_5" 5 true)))).
Proof.
  assert (H2 : (2 <= List.length (filter (fun c => has_column c df_sample)
                                  CONTAMINANTES))%nat)
    by (vm_compute; lia).
  assert (Hin : In "pm2_5" (filter (fun c => has_column c df_sample)
                              CONTAMINANTES))
    by (vm_compute; tauto).
  assert (H5 : 0 <= 5) by lia.
  pose proof (plot_correlation_matrix_top (ext := sample_externals) df_sample None (10, 8)
                None "pm2_5" 5 H2 Hin) as [Hlen [_ [Hnot _]]].
  split; [exact H2|]. split; [exact Hin|]. split; [exact H5|].
  split; [exact (Hlen H5) | exact Hnot].
Defined.

(** C9, as first stated, fails for a negative [top_k]: [head(-1)] keeps all
    entries but the last, so of the two correlations with pm2_5 (co 0.96,
    pm10 0.94) the line of co is printed: one entry, which is more than -1. *)
Lemma plot_correlation_matrix_top_negative :
  printed_top (trace (plot_correlation_matrix (ext := sample_externals) df_sample None
                        (10, 8) None "pm2_5" (-1) true))
  = [("co", 120000 # 124899)%Q]
  /\ -1 < Z.of_nat (List.length
                      (printed_top (trace (plot_correlation_matrix (ext := sample_externals)
                                             df_sample None (10, 8) None "pm2_5" (-1) true)))).
Proof.
  split; vm_compute; reflexivity.
Qed.

(** * Further properties *)

(** ** What the time-index normalisation does to a table *)

Lemma lookup_filter_other {A : Type} (name c : string) (l : list (string * A)) :
  c <> name ->
  lookup c (filter (fun kv => negb (String.eqb name (fst kv))) l) = lookup c l.
Proof.
  intros Hc. induction l as [|[k v] l IH]; simpl; [reflexivity|].
  destruct (String.eqb name k) eqn:E; simpl.
  - apply String.eqb_eq in E. subst k.
    replace (String.eqb c name) with false; [exact IH|].
    symmetry. now apply String.eqb_neq.
  - now rewrite IH.
Qed.

Lemma lookup_filter_same {A : Type} (name : string) (l : list (string * A)) :
  lookup name (filter (fun kv => negb (String.eqb name (fst kv))) l) = None.
Proof.
  induction l as [|[k v] l IH]; simpl; [reflexivity|].
  destruct (String.eqb name k) eqn:E; simpl; [exact IH | now rewrite E].
Qed.

Lemma lookup_replace_other {A : Type} (v : A) (name c : string) (l : list (string * A)) :
  c <> name ->
  lookup c (map (fun kv => if String.eqb name (fst kv) then (fst kv, v) else kv) l)
  = lookup c l.
Proof.
  intros Hc. induction l as [|[k w] l IH]; simpl; [reflexivity|].
  destruct (String.eqb name k) eqn:E; simpl.
  - apply String.eqb_eq in E. subst k.
    replace (String.eqb c name) with false by (symmetry; now apply String.eqb_neq).
    exact IH.
  - now rewrite IH.
Qed.

Lemma columns_filter (name : string) (l : list (string * list Cell)) :
  map fst (filter (fun kv => negb (String.eqb name (fst kv))) l)
  = filter (fun c => negb (String.eqb name c)) (map fst l).
Proof.
  induction l as [|[k v] l IH]; simpl; [reflexivity|].
  destruct (String.eqb name k); simpl; now rewrite IH.
Qed.

(** Whatever the frame, the label it was indexed by is no column afterwards. *)
Lemma set_index_drops (d : DataFrame) (name : string) :
  has_column name (set_index d name) = false.
Proof.
  unfold set_index. destruct (getitem d name) as [cs|] eqn:E.
  - unfold has_column, columns. cbn [cols]. rewrite lookup_existsb.
    now rewrite lookup_filter_same.
  - unfold has_column, columns. rewrite lookup_existsb.
    unfold getitem in E. now rewrite E.
Qed.

Lemma lookup_In {A : Type} (name : string) (l : list (string * A)) (v : A) :
  lookup name l = Some v -> In (name, v) l.
Proof.
  induction l as [|[k w] l IH]; simpl; [discriminate|].
  destruct (String.eqb name k) eqn:E.
  - apply String.eqb_eq in E. subst k. intros [= ->]. now left.
  - intros H. right. now apply IH.
Qed.

Lemma select_length {A : Type} (mask : list bool) (l : list A) :
  List.length l = List.length mask ->
  List.length (select mask l) = List.length (filter (fun b => b) mask).
Proof.
  revert l. induction mask as [|b mask IH]; intros [|x l] H; simpl in *; try discriminate;
    try reflexivity.
  destruct b; simpl; rewrite IH by lia; reflexivity.
Qed.

Lemma valid_times_length (parsed : list (option Z)) :
  List.length (valid_times parsed)
  = List.length (filter (fun b => b) (map is_some parsed)).
Proof.
  induction parsed as [|[t|] l IH]; simpl; [reflexivity | now rewrite IH | exact IH].
Qed.

Section NormalisationFacts.
Context {ext : Externals}.
Import DataVisualization.

Lemma parse_dates_mask (date : list Cell) :
  map notna (parse_dates date) = map is_some (to_datetime date).
Proof.
  unfold parse_dates. rewrite map_map. apply map_ext. now intros [t|].
Qed.

Lemma times_of_valid (date : list Cell) :
  times_of (select (map notna (parse_dates date)) (parse_dates date))
  = Some (valid_times (to_datetime date)).
Proof.
  unfold parse_dates. induction (to_datetime date) as [|[t|] l IH].
  - reflexivity.
  - cbn [map notna isna negb select times_of valid_times flat_map app].
    rewrite IH. reflexivity.
  - cbn [map notna isna negb select times_of valid_times flat_map app]. exact IH.
Qed.

(** The frame a conversion produces, written out. *)
Lemma ensure_datetime_index_converted (df : DataFrame) (date : list Cell) :
  is_datetime_index (index df) = false ->
  getitem df "date" = Some date ->
  ensure_datetime_index df
  = mkFrame (DatetimeIndex (valid_times (to_datetime date)))
      (filter (fun kv => negb (String.eqb "date" (fst kv)))
         (map (fun kv => (fst kv, select (map is_some (to_datetime date)) (snd kv)))
            (cols (setitem df "date" (parse_dates date)))))
      (without "date" (categories (setitem df "date" (parse_dates date)))).
Proof.
  intros Hi Hd. unfold ensure_datetime_index.
  rewrite Hi, (getitem_has_column _ _ _ Hd), Hd. cbn [negb].
  unfold dropna_subset. rewrite (getitem_setitem _ _ _ (parse_dates date) Hd).
  unfold set_index, getitem at 1. cbn [cols]. rewrite lookup_map_values.
  fold (getitem (setitem df "date" (parse_dates date)) "date").
  rewrite (getitem_setitem _ _ _ (parse_dates date) Hd). cbn [option_map].
  rewrite times_of_valid, parse_dates_mask. reflexivity.
Qed.

(** X1: a conversion turns the parsed dates into the index, leaves out the
    rows whose date did not parse, in every column alike, and takes the 'date'
    column out of the table; the other columns keep their order. *)
Theorem ensure_datetime_index_conversion (df : DataFrame) (date : list Cell) :
  is_datetime_index (index df) = false ->
  getitem df "date" = Some date ->
  index (ensure_datetime_index df) = DatetimeIndex (valid_times (to_datetime date))
  /\ columns (ensure_datetime_index df)
     = filter (fun c => negb (String.eqb "date" c)) (columns df)
  /\ (forall c, c <> "date"%string ->
      getitem (ensure_datetime_index df) c
      = option_map (select (map is_some (to_datetime date))) (getitem df c)).
Proof.
  intros Hi Hd. rewrite (ensure_datetime_index_converted df date Hi Hd).
  split; [reflexivity|]. split.
  - unfold columns at 1. cbn [cols]. rewrite columns_filter, map_map.
    rewrite (map_ext _ fst) by reflexivity.
    change (map fst (cols ?d)) with (columns d).
    now rewrite (columns_setitem _ _ _ _ Hd).
  - intros c Hc. unfold getitem at 1. cbn [cols].
    rewrite (lookup_filter_other "date" c) by exact Hc.
    rewrite lookup_map_values. f_equal.
    unfold setitem. rewrite (getitem_has_column _ _ _ Hd). cbn [cols].
    now apply lookup_replace_other.
Qed.

(** X2: when the date parser gives one result per entry, a table whose
    columns all have as many entries as its index has rows is still such a
    table after the normalisation. *)
Theorem ensure_datetime_index_rectangular (df : DataFrame) :
  (forall cs, List.length (to_datetime cs) = List.length cs) ->
  rectangular df ->
  rectangular (ensure_datetime_index df).
Proof.
  intros Hlen Hrect.
  destruct (is_datetime_index (index df)) eqn:Hi.
  { unfold ensure_datetime_index. now rewrite Hi. }
  destruct (has_column "date" df) eqn:Hc.
  2:{ unfold ensure_datetime_index. now rewrite Hi, Hc. }
  destruct (has_column_getitem _ _ Hc) as [date Hd].
  rewrite (ensure_datetime_index_converted df date Hi Hd).
  assert (Hdate : List.length date = nrows df).
  { unfold rectangular in Hrect. rewrite Forall_forall in Hrect.
    apply (Hrect ("date", date)). now apply lookup_In. }
  unfold rectangular, nrows. cbn [index cols].
  apply Forall_forall. intros [k v] Hin. cbn [snd].
  apply filter_In in Hin. destruct Hin as [Hin _].
  apply in_map_iff in Hin. destruct Hin as [[k' v'] [E Hin]].
  cbn [fst snd] in E. injection E as <- <-.
  rewrite valid_times_length. apply select_length.
  rewrite length_map, Hlen, Hdate.
  unfold setitem in Hin. rewrite Hc in Hin. cbn [cols] in Hin.
  apply in_map_iff in Hin. destruct Hin as [[k0 v0] [E Hin]].
  unfold rectangular in Hrect. rewrite Forall_forall in Hrect.
  specialize (Hrect _ Hin). cbn [fst snd] in *.
  destruct (String.eqb "date" k0).
  - injection E as _ <-. unfold parse_dates. now rewrite length_map, Hlen.
  - injection E as _ <-. exact Hrect.
Qed.

(** X3: on a table without a time index the hourly heatmap of the column
    'date' only warns that the column does not exist, also when the table has
    it: the normalisation has made it the index by then. *)
Theorem plot_heatmap_hourly_date_column (df : DataFrame) (figsize : Z * Z)
    (save_path : option string) :
  is_datetime_index (index df) = false ->
  plot_heatmap_hourly df "date" figsize save_path
  = (Returned tt, [Print "❌ La columna 'date' no existe en el DataFrame."]).
Proof.
  intros Hi.
  assert (H : has_column "date" (ensure_datetime_index df) = false).
  { unfold ensure_datetime_index. rewrite Hi. cbn [negb].
    destruct (has_column "date" df) eqn:Hc; [|exact Hc].
    destruct (has_column_getitem _ _ Hc) as [date ->]. apply set_index_drops. }
  unfold plot_heatmap_hourly. rewrite H. reflexivity.
Qed.

End NormalisationFacts.


Lemma figures_app (t u : list Event) : figures (t ++ u) = figures t ++ figures u.
Proof. apply flat_map_app. Qed.

Lemma scatters_app (t u : list Event) : scatters (t ++ u) = scatters t ++ scatters u.
Proof. apply flat_map_app. Qed.

(** Saving draws nothing and opens no figure. *)
Lemma savefig_if_only_saves (save_path : option string) :
  plotted_lines (trace (savefig_if save_path)) = []
  /\ figures (trace (savefig_if save_path)) = []
  /\ scatters (trace (savefig_if save_path)) = [].
Proof.
  destruct save_path as [p|]; simpl; [destruct (String.eqb p "")|]; repeat split.
Qed.

Section MoreRendererFacts.
Context {ext : Externals}.
Import DataVisualization.

(** X4: on a table that has neither a time index nor a 'date' column the
    hourly heatmap of a column the table has raises AttributeError, having
    printed and drawn nothing. *)
Theorem plot_heatmap_hourly_no_time_index (df : DataFrame) (columna : string)
    (figsize : Z * Z) (save_path : option string) :
  is_datetime_index (index df) = false ->
  ~ In "date"%string (columns df) ->
  In columna (columns df) ->
  plot_heatmap_hourly df columna figsize save_path = (Raised "AttributeError", []).
Proof.
  intros Hi Hdate Hcol.
  assert (Hc : has_column "date" df = false).
  { destruct (has_column "date" df) eqn:E; [|reflexivity].
    apply has_column_In in E. contradiction. }
  assert (E : ensure_datetime_index df = df).
  { unfold ensure_datetime_index. now rewrite Hi, Hc. }
  unfold plot_heatmap_hourly. rewrite E.
  rewrite (proj2 (has_column_In df columna) Hcol). cbn [negb].
  destruct (index df); [reflexivity | discriminate Hi | reflexivity].
Qed.




(** What [plot_ica_distribution] does on a table that has the column. *)
Lemma plot_ica_distribution_eq (df : DataFrame) (figsize : Z * Z)
    (save_path : option string) (s : list Cell) :
  getitem df "ica_category" = Some s ->
  plot_ica_distribution df figsize save_path
  = (Returned tt,
     [ Figure figsize;
       BarH (range 6) (map (fun l => occurrences (CStr l) s) orden_ica)
         (map (fun cat => dict_get ICA_COLORS cat "#CCCCCC") orden_ica);
       YTicks (range 6);
       YTickLabels orden_ica;
       XLabel "Frecuencia";
       Title "Distribución de Categorías ICA";
       Grid ]
     ++ map (fun iv =>
               BarText (snd iv + 1) (fst iv) (snd iv)
                 (Float64.div (Float64.of_int (snd iv))
                    (Float64.of_int (Zsum (map (fun l => occurrences (CStr l) s) orden_ica)))))
            (enumerate (map (fun l => occurrences (CStr l) s) orden_ica))
     ++ [TightLayout] ++ trace (savefig_if save_path) ++ [Show]).
Proof.
  intros H. unfold plot_ica_distribution, column.
  rewrite (getitem_has_column _ _ _ H), H. cbn [negb].
  rewrite bind_ret, reindex_value_counts.
  rewrite !map_map. cbn [fst snd]. rewrite !length_map.
  set (counts := map (fun l => occurrences (CStr l) s) orden_ica).
  set (total := Zsum counts).
  rewrite (for_each_emits _
             (fun iv => [BarText (snd iv + 1) (fst iv) (snd iv)
                           (Float64.div (Float64.of_int (snd iv)) (Float64.of_int total))])).
  - rewrite (savefig_if_returns save_path).
    unfold bind, emit. cbn [fst snd app trace].
    rewrite flat_map_single, map_id. reflexivity.
  - intros [i v]. reflexivity.
Qed.

Lemma orden_ica_NoDup : NoDup (map CStr orden_ica).
Proof.
  apply (NoDup_count_occ' Cell_eq_dec). intros c Hc.
  simpl in Hc. repeat (destruct Hc as [<-|Hc]; [vm_compute; reflexivity|]). contradiction.
Qed.

(** The six widths add up to the rows that hold one of the six labels. *)
Lemma bar_total (s : list Cell) :
  Zsum (map (fun l => occurrences (CStr l) s) orden_ica)
  = Z.of_nat (List.length (filter (fun c => existsb (Cell_eqb c) (map CStr orden_ica)) s)).
Proof.
  rewrite (map_ext _ (fun l => Z.of_nat (count_occ Cell_eq_dec s (CStr l))))
    by (intros; apply occurrences_str).
  rewrite <- (map_map (fun l => count_occ Cell_eq_dec s (CStr l)) Z.of_nat), Zsum_of_nat.
  f_equal. rewrite <- (map_map CStr (count_occ Cell_eq_dec s)).
  apply (count_by_value Cell_eq_dec), orden_ica_NoDup.
Qed.

(** X6: on a table with the column 'ica_category' the total that the bar
    annotations divide by is the number of rows holding one of the six labels
    of the chart: rows with another label or with none are counted in no bar
    and not in the total, which is therefore at most the number of rows. *)
Theorem plot_ica_distribution_total (df : DataFrame) (figsize : Z * Z)
    (save_path : option string) (s : list Cell) :
  getitem df "ica_category" = Some s ->
  exists widths colors,
    In (BarH (range 6) widths colors) (trace (plot_ica_distribution df figsize save_path))
    /\ Forall (fun w => 0 <= w) widths
    /\ Zsum widths
       = Z.of_nat (List.length
                     (filter (fun c => existsb (Cell_eqb c) (map CStr orden_ica)) s))
    /\ Zsum widths <= Z.of_nat (List.length s)
    /\ (forall x i v f,
        In (BarText x i v f) (trace (plot_ica_distribution df figsize save_path)) ->
        In (i, v) (enumerate widths)
        /\ f = Float64.div (Float64.of_int v) (Float64.of_int (Zsum widths))).
Proof.
  intros H. rewrite (plot_ica_distribution_eq df figsize save_path s H).
  exists (map (fun l => occurrences (CStr l) s) orden_ica),
         (map (fun cat => dict_get ICA_COLORS cat "#CCCCCC") orden_ica).
  set (widths := map (fun l => occurrences (CStr l) s) orden_ica).
  unfold trace. cbn [snd].
  split; [right; now left|]. split; [|split; [|split]].
  - subst widths. apply Forall_map, Forall_forall. intros l _. unfold occurrences. lia.
  - apply bar_total.
  - subst widths. rewrite bar_total. apply inj_le, filter_length_le.
  - intros x i v f Hin. apply in_app_or in Hin. destruct Hin as [Hin|Hin].
    { simpl in Hin. repeat (destruct Hin as [Hin|Hin]; [discriminate Hin|]). contradiction. }
    apply in_app_or in Hin. destruct Hin as [Hin|Hin].
    { apply in_map_iff in Hin. destruct Hin as [[i' v'] [E Hin]]. cbn [fst snd] in E.
      injection E as _ <- <- <-. split; [exact Hin | reflexivity]. }
    apply in_app_or in Hin. destruct Hin as [Hin|Hin].
    { simpl in Hin. destruct Hin as [Hin|[]]. discriminate Hin. }
    apply in_app_or in Hin. destruct Hin as [Hin|Hin].
    { destruct save_path as [p|]; simpl in Hin; [destruct (String.eqb p "")|];
        simpl in Hin; try contradiction. destruct Hin as [Hin|[]]. discriminate Hin. }
    simpl in Hin. destruct Hin as [Hin|[]]. discriminate Hin.
Qed.


End MoreRendererFacts.

(** ** The top list of the correlation matrix *)





Section TopListFacts.
Context {ext : Externals}.
Import DataVisualization.








End TopListFacts.

(** ** The summary and the bar chart together *)

Lemma Forall2_map_r {A B : Type} (P : A -> B -> Prop) (f : A -> B) (l : list A) :
  (forall x, In x l -> P x (f x)) -> Forall2 P l (map f l).
Proof.
  induction l as [|x l IH]; intros H; simpl; constructor.
  - apply H. now left.
  - apply IH. intros y Hy. apply H. now right.
Qed.

Lemma nth_error_fst_snd {A B : Type} (l : list (A * B)) (j : nat) (a : A) :
  nth_error (map fst l) j = Some a ->
  exists kv, nth_error l j = Some kv /\ fst kv = a /\ nth_error (map snd l) j = Some (snd kv).
Proof.
  rewrite !nth_error_map. destruct (nth_error l j) as [kv|]; simpl; [|discriminate].
  intros [= <-]. now exists kv.
Qed.

(** X10: on a table with the categorical column the summary has the three
    columns Categoría, conteo, porcentaje over a fresh range index, one entry
    each per row of the summary; no count is negative and the counts add up to
    the number of rows of the table; the summary has at most as many rows as
    the table has rows and the column declares categories.  When the column
    declares none (it is not of category dtype), every count is at least 1
    and the summary has no more rows than the table. *)
Theorem category_distribution_shape (df : DataFrame) (cat_col : string) (s : list Cell) :
  getitem df cat_col = Some s ->
  exists (out : DataFrame) (ns : list Z),
    category_distribution df cat_col = (Returned (Some out), [])
    /\ columns out = ["Categoría"; "conteo"; "porcentaje"]%string
    /\ index out = RangeIndex (List.length ns)
    /\ rectangular out
    /\ getitem out "conteo" = Some (map CInt ns)
    /\ Forall (fun n => 0 <= n) ns
    /\ Zsum ns = Z.of_nat (List.length s)
    /\ (List.length ns <= List.length (categories_of df cat_col) + List.length s)%nat
    /\ (categories_of df cat_col = [] ->
        Forall (fun n => 1 <= n) ns /\ (List.length ns <= List.length s)%nat).
Proof.
  intros H. rewrite (category_distribution_eq df cat_col s H).
  set (declared := categories_of df cat_col).
  set (counts := value_counts false declared s).
  assert (Hrows : (List.length counts <= List.length (declared ++ s))%nat).
  { rewrite <- (length_map fst). subst counts.
    rewrite (Permutation_length (value_counts_keys false declared s)).
    apply NoDup_incl_length; [apply unique_NoDup|]. intros c. apply unique_incl. }
  eexists. exists (map snd counts).
  split; [reflexivity|]. split; [reflexivity|].
  split; [cbn [index]; now rewrite length_map|].
  split; [|split; [reflexivity|split; [|split; [|split]]]].
  - unfold rectangular, nrows. cbn [index cols].
    repeat constructor; cbn [snd]; now rewrite !length_map.
  - apply Forall_map, Forall_forall. intros kv Hkv.
    rewrite (value_counts_entry false _ s kv Hkv). apply occurrences_nonneg.
  - exact (value_counts_total false declared s).
  - rewrite length_map. now rewrite length_app in Hrows.
  - intros Hnone. subst counts. rewrite Hnone in *. cbn [app] in *. split.
    + apply Forall_map, Forall_forall. intros kv Hkv.
      rewrite (value_counts_entry false _ s kv Hkv). cbn [negb].
      apply occurrences_In, in_map, unique_incl.
      eapply Permutation_in; [apply (value_counts_keys false [] s)|].
      now apply in_map.
    + now rewrite length_map.
Qed.

Section SummaryAndChart.
Context {ext : Externals}.
Import DataVisualization.

(** X11: the bar chart and the summary agree: for each of the six labels
    of the chart, the width of its bar is the count the summary gives that
    label, and 0 when the summary has no row for it. *)
Theorem bars_match_summary (df : DataFrame) (figsize : Z * Z)
    (save_path : option string) (s : list Cell) :
  getitem df "ica_category" = Some s ->
  exists (out : DataFrame) (cats : list Cell) (ns widths : list Z) (colors : list string),
    category_distribution df "ica_category" = (Returned (Some out), [])
    /\ getitem out "Categoría" = Some cats
    /\ getitem out "conteo" = Some (map CInt ns)
    /\ In (BarH (range 6) widths colors) (trace (plot_ica_distribution df figsize save_path))
    /\ Forall2 (fun l w =>
                  (forall j, nth_error cats j = Some (CStr l) -> nth_error ns j = Some w)
                  /\ (~ In (CStr l) cats -> w = 0))
         orden_ica widths.
Proof.
  intros H. rewrite (category_distribution_eq df "ica_category" s H).
  rewrite (plot_ica_distribution_eq df figsize save_path s H).
  set (counts := value_counts false (categories_of df "ica_category") s).
  eexists. exists (map fst counts), (map snd counts).
  exists (map (fun l => occurrences (CStr l) s) orden_ica).
  eexists. split; [reflexivity|]. split; [reflexivity|]. split; [reflexivity|].
  split; [right; left; reflexivity|].
  apply Forall2_map_r. intros l _. split.
  - intros j Hj. destruct (nth_error_fst_snd _ _ _ Hj) as [kv [Hkv [Hfst Hsnd]]].
    rewrite Hsnd. f_equal.
    rewrite (value_counts_entry false _ s kv (nth_error_In _ _ Hkv)), Hfst. reflexivity.
  - intros Hno. apply occurrences_not_In.
    intros Hin. apply Hno. apply in_map_iff in Hin. destruct Hin as [y [Hy Hin]].
    apply key_str in Hy. subst y. eapply Permutation_in.
    + apply Permutation_sym, (value_counts_keys false (categories_of df "ica_category") s).
    + apply unique_In_str, in_or_app. now right.
Qed.

(** X12: when the table has both columns the scatter renderer opens one
    figure and makes one scatter call on the two columns.  Without a column
    'ica_category' the colour passed is 'purple'; with it, the colours passed
    are, row by row, the colour-table entries of the categories, and none
    (NaN) for a row whose category is missing or has no entry in the table. *)
Theorem plot_scatter_comparison_points (df : DataFrame) (col_x col_y : string)
    (figsize : Z * Z) (save_path : option string) (x y : list Cell) :
  getitem df col_x = Some x ->
  getitem df col_y = Some y ->
  figures (trace (plot_scatter_comparison df col_x col_y figsize save_path)) = [figsize]
  /\ exists c,
      scatters (trace (plot_scatter_comparison df col_x col_y figsize save_path))
      = [(x, y, c)]
      /\ (~ In "ica_category"%string (columns df) -> c = inr "purple"%string)
      /\ (forall cat, getitem df "ica_category" = Some cat ->
          c = inl (map (fun v => match v with
                                 | CStr k => lookup k ICA_COLORS
                                 | _ => None
                                 end) cat)).
Proof.
  intros Hx Hy. unfold plot_scatter_comparison.
  rewrite (getitem_has_column _ _ _ Hx), (getitem_has_column _ _ _ Hy). cbn [negb orb].
  rewrite (column_returns _ _ _ Hx), (column_returns _ _ _ Hy).
  destruct (savefig_if_only_saves save_path) as [_ [Hf Hs]].
  rewrite (savefig_if_returns save_path).
  set (sv := trace (savefig_if save_path)) in *.
  destruct (has_column "ica_category" df) eqn:E.
  - destruct (has_column_getitem _ _ E) as [cat Hcat].
    rewrite (column_returns _ _ _ Hcat), !bind_ret, plot_call_eq.
    destruct (draw_error _).
    + unfold bind, emit, ret, trace. cbn [fst snd app].
      split; [reflexivity|]. eexists. split; [reflexivity|]. split.
      * intros Hno. apply has_column_In in E. contradiction.
      * intros cat' Hcat'. rewrite Hcat in Hcat'. injection Hcat' as <-. reflexivity.
    + unfold bind, emit, ret, trace. cbn [fst snd app].
      split.
      * change (figures (Figure figsize :: ?b :: ?c :: ?d :: ?e :: ?f :: ?g :: ?t))
          with (figsize :: figures t).
        rewrite figures_app, Hf. reflexivity.
      * eexists. split; [|split].
        -- change (scatters (?a :: Scatter ?p ?q ?r :: ?c :: ?d :: ?e :: ?f :: ?g :: ?t))
             with ((p, q, r) :: scatters t).
           rewrite scatters_app, Hs. reflexivity.
        -- intros Hno. apply has_column_In in E. contradiction.
        -- intros cat' Hcat'. rewrite Hcat in Hcat'. injection Hcat' as <-. reflexivity.
  - rewrite !bind_ret, plot_call_eq.
    destruct (draw_error _).
    + unfold bind, emit, ret, trace. cbn [fst snd app].
      split; [reflexivity|]. eexists. split; [reflexivity|]. split; [reflexivity|].
      intros cat Hcat. apply getitem_has_column in Hcat. congruence.
    + unfold bind, emit, ret, trace. cbn [fst snd app].
      split.
      * change (figures (Figure figsize :: ?b :: ?c :: ?d :: ?e :: ?f :: ?g :: ?t))
          with (figsize :: figures t).
        rewrite figures_app, Hf. reflexivity.
      * eexists. split; [|split].
        -- change (scatters (?a :: Scatter ?p ?q ?r :: ?c :: ?d :: ?e :: ?f :: ?g :: ?t))
             with ((p, q, r) :: scatters t).
           rewrite scatters_app, Hs. reflexivity.
        -- reflexivity.
        -- intros cat Hcat. apply getitem_has_column in Hcat. congruence.
Qed.

End SummaryAndChart.

(** ** Saving only on request *)

(** A step that saves nothing, then one that saves only on request. *)
Lemma saves_only_after {A B : Type} (save_path : option string) (c : Py A) (k : A -> Py B) :
  saved_files (trace c) = [] ->
  (forall a, saves_only save_path (trace (k a))) ->
  saves_only save_path (trace (bind c k)).
Proof.
  intros Hc Hk. rewrite trace_bind. unfold saves_only. rewrite saved_files_app, Hc.
  destruct (result c) as [a|exc]; [apply Hk | now left].
Qed.

(** A step that saves only on request, then one that saves nothing. *)
Lemma saves_only_before {A B : Type} (save_path : option string) (c : Py A) (k : A -> Py B) :
  saves_only save_path (trace c) ->
  (forall a, saved_files (trace (k a)) = []) ->
  saves_only save_path (trace (bind c k)).
Proof.
  intros Hc Hk. rewrite trace_bind. unfold saves_only in *. rewrite saved_files_app.
  destruct (result c) as [a|exc]; [rewrite Hk|]; cbn [saved_files flat_map];
    rewrite app_nil_r; exact Hc.
Qed.

Lemma savefig_if_saves_only (save_path : option string) :
  saves_only save_path (trace (savefig_if save_path)).
Proof.
  destruct save_path as [p|]; [|now left]. simpl.
  destruct (String.eqb p "") eqn:E; [now left|].
  right. exists p. apply String.eqb_neq in E. repeat split; assumption.
Qed.

Lemma column_saves_nothing (df : DataFrame) (c : string) :
  saved_files (trace (column df c)) = [].
Proof. unfold column. now destruct (getitem df c). Qed.

Lemma list_item_saves_nothing {A : Type} (l : list A) (i : Z) :
  saved_files (trace (list_item l i)) = [].
Proof.
  unfold list_item. destruct ((0 <=? _) && _); [|reflexivity].
  now destruct (nth_error l _).
Qed.

Lemma bind_saves_nothing {A B : Type} (c : Py A) (k : A -> Py B) :
  saved_files (trace c) = [] ->
  (forall a, saved_files (trace (k a)) = []) ->
  saved_files (trace (bind c k)) = [].
Proof.
  intros Hc Hk. rewrite trace_bind, saved_files_app, Hc.
  destruct (result c); [apply Hk | reflexivity].
Qed.

Lemma for_each_saves_nothing {A : Type} (f : A -> Py unit) (l : list A) :
  (forall x, saved_files (trace (f x)) = []) ->
  saved_files (trace (for_each f l)) = [].
Proof.
  intros H. induction l as [|x l IH]; [reflexivity|]. cbn [for_each].
  apply bind_saves_nothing; [apply H | intros _; exact IH].
Qed.

Lemma map_py_saves_nothing {A B : Type} (f : A -> Py B) (l : list A) :
  (forall x, saved_files (trace (f x)) = []) ->
  saved_files (trace (map_py f l)) = [].
Proof.
  intros H. induction l as [|x l IH]; [reflexivity|]. cbn [map_py].
  apply bind_saves_nothing; [apply H | intros y].
  apply bind_saves_nothing; [exact IH | reflexivity].
Qed.

Lemma call_saves_nothing {A : Type} (r : Result A) : saved_files (trace (call r)) = [].
Proof. reflexivity. Qed.

Lemma plot_call_saves_nothing {ext : Externals} (e : Event) :
  saved_files [e] = [] -> saved_files (trace (DataVisualization.plot_call e)) = [].
Proof.
  intros He. rewrite plot_call_eq. exact He.
Qed.

(** Steps through a renderer: every step but [savefig_if] saves nothing. *)
Ltac saves_nothing :=
  repeat first
    [ reflexivity
    | apply column_saves_nothing
    | apply list_item_saves_nothing
    | apply call_saves_nothing
    | apply plot_call_saves_nothing; reflexivity
    | match goal with
      | |- context [match DataVisualization.first_error ?s with _ => _ end] =>
          destruct (DataVisualization.first_error s)
      end
    | apply for_each_saves_nothing; intros ?
    | apply map_py_saves_nothing; intros ?
    | apply bind_saves_nothing; [|intros ?]
    | match goal with |- context [if ?b then _ else _] => destruct b end
    | match goal with |- context [let '(_, _) := ?p in _] => destruct p end ].

Ltac saves_on_request :=
  repeat first
    [ now left
    | apply saves_only_before; [apply savefig_if_saves_only | intros ?; saves_nothing]
    | apply saves_only_after; [solve [saves_nothing] | intros ?]
    | match goal with |- context [if ?b then _ else _] => destruct b end ].

Section SavingFacts.
Context {ext : Externals}.
Import DataVisualization.

(** X13: none of the five renderers saves a figure unless it is given a
    path that is not empty, and then it saves to that path, at most once:
    whatever the table and the other arguments, whether the call returns,
    warns or raises. *)
Theorem renderers_save_on_request (df : DataFrame) (figsize : Z * Z)
    (save_path : option string) :
  (forall columnas titulo,
      saves_only save_path (trace (plot_time_series df columnas figsize titulo save_path)))
  /\ saves_only save_path (trace (plot_ica_distribution df figsize save_path))
  /\ (forall columnas ref top_k print_top,
      saves_only save_path
        (trace (plot_correlation_matrix df columnas figsize save_path ref top_k print_top)))
  /\ (forall columna,
      saves_only save_path (trace (plot_heatmap_hourly df columna figsize save_path)))
  /\ (forall col_x col_y,
      saves_only save_path (trace (plot_scatter_comparison df col_x col_y figsize save_path))).
Proof.
  split; [|split; [|split; [|split]]].
  - intros columnas titulo. unfold plot_time_series. saves_on_request.
  - unfold plot_ica_distribution. saves_on_request.
  - intros columnas ref top_k print_top. unfold plot_correlation_matrix, corr_of.
    saves_on_request.
  - intros columna. unfold plot_heatmap_hourly.
    destruct (negb (has_column columna (ensure_datetime_index df))); [now left|].
    destruct (index (ensure_datetime_index df)); [now left | | now left].
    saves_on_request.
  - intros col_x col_y. unfold plot_scatter_comparison. saves_on_request.
Qed.

End SavingFacts.

(** ** The regression plot and the ranking of days *)

Section RestFacts.
Context {ext : Externals} {pext : PlotExternals}.
Import DataVisualization DataVisualizationRest DataProcessing.


(** X15: the ranked-days renderer asks the station for its ranking only
    when the station's table has the column: without it, it prints one
    warning naming the column and the station and draws nothing.  When the
    ranking raises, the call raises the same and opens no figure.  When the
    ranking and the library calls return, it draws one bar and one tick per
    row of the ranking, however many days were asked for. *)
Theorem plot_top_n_contaminated_days_ranking (estacion : EstacionCalidadAire)
    (columna : string) (n : Z) (figsize : Z * Z) (save_path : option string) :
  (~ In columna (columns (df estacion)) ->
   plot_top_n_contaminated_days estacion columna n figsize save_path
   = (Returned tt,
      [Core (Print ("❌ La columna '" ++ columna
                    ++ "' no existe en los datos de la estación '"
                    ++ nombre estacion ++ "'.")%string)]))
  /\ (forall exc t,
      In columna (columns (df estacion)) ->
      top_n_dias_mas_contaminados estacion columna n = (Raised exc, t) ->
      plot_top_n_contaminated_days estacion columna n figsize save_path
      = (Raised exc, map Core t))
  /\ (forall top t colors width fechas names,
      In columna (columns (df estacion)) ->
      top_n_dias_mas_contaminados estacion columna n = (Returned top, t) ->
      reds_linspace n = (Returned colors, []) ->
      getitem top columna = Some width ->
      getitem top "date" = Some fechas ->
      date_names fechas = (Returned names, []) ->
      plot_top_n_contaminated_days estacion columna n figsize save_path
      = (Returned tt,
         map Core t
         ++ [ Core (Figure figsize);
              BarHValues (range (nrows top)) width colors;
              YTickNames (range (nrows top)) names;
              Core (XLabel (str_upper columna ++ " (µg/m³)")%string);
              Core (YLabel "Fecha");
              Core (Title ("Top " ++ str_int n ++ " Días más contaminados en "
                           ++ nombre estacion ++ " (" ++ str_upper columna ++ ")")%string);
              InvertYAxis;
              Core Grid;
              Core TightLayout ]
         ++ map Core (trace (savefig_if save_path)) ++ [Core Show])).
Proof.
  split; [|split].
  - intros Hc. unfold plot_top_n_contaminated_days.
    destruct (has_column columna (df estacion)) eqn:E; [|reflexivity].
    apply has_column_In in E. contradiction.
  - intros exc t Hc Hr. unfold plot_top_n_contaminated_days.
    rewrite (proj2 (has_column_In _ _) Hc), Hr. reflexivity.
  - intros top t colors width fechas names Hc Hr Hcol Hw Hf Hn.
    unfold plot_top_n_contaminated_days.
    rewrite (proj2 (has_column_In _ _) Hc), Hr, Hcol. cbn [negb].
    unfold bindD at 1. cbn [lift fst snd].
    rewrite (column_returns _ _ _ Hw), (column_returns _ _ _ Hf).
    rewrite (savefig_if_returns save_path).
    unfold bindD, lift, draw, emit, ret, trace. cbn [fst snd map app].
    rewrite Hn. cbn [fst snd map app]. reflexivity.
Qed.

End RestFacts.

(** ** The further properties at sample inputs *)

Import DataVisualization.

Lemma ensure_datetime_index_conversion_witness :
  is_datetime_index (index df_sample) = false
  /\ getitem df_sample "date" = Some [CTime 0; CStr "bad"; CTime 25]
  /\ index (ensure_datetime_index (ext := sample_externals) df_sample) = DatetimeIndex [0; 25]
  /\ columns (ensure_datetime_index (ext := sample_externals) df_sample)
     = ["pm2_5"; "pm10"; "co"; "ica_category"]%string
  /\ getitem (ensure_datetime_index (ext := sample_externals) df_sample) "pm10"
     = Some [CInt 2; CInt 7].
Proof.
  destruct (ensure_datetime_index_conversion (ext := sample_externals) df_sample
              [CTime 0; CStr "bad"; CTime 25] eq_refl eq_refl) as [H1 [H2 H3]].
  split; [reflexivity|]. split; [reflexivity|]. split; [exact H1|]. split; [exact H2|].
  apply (H3 "pm10"%string). discriminate.
Defined.

Lemma ensure_datetime_index_rectangular_witness :
  (forall cs, List.length (to_datetime (Externals := sample_externals) cs) = List.length cs)
  /\ rectangular df_sample
  /\ rectangular (ensure_datetime_index (ext := sample_externals) df_sample).
Proof.
  assert (H1 : forall cs, List.length (to_datetime (Externals := sample_externals) cs)
                          = List.length cs)
    by (intros cs; apply length_map).
  assert (H2 : rectangular df_sample) by (repeat constructor).
  split; [exact H1|]. split; [exact H2|].
  exact (ensure_datetime_index_rectangular (ext := sample_externals) df_sample H1 H2).
Defined.

Lemma plot_heatmap_hourly_date_column_witness :
  is_datetime_index (index df_sample) = false
  /\ has_column "date" df_sample = true
  /\ plot_heatmap_hourly (ext := sample_externals) df_sample "date" (12, 6) (Some "h.png")
     = (Returned tt, [Print "❌ La columna 'date' no existe en el DataFrame."]).
Proof.
  split; [reflexivity|]. split; [reflexivity|].
  exact (plot_heatmap_hourly_date_column (ext := sample_externals) df_sample (12, 6)
           (Some "h.png") eq_refl).
Defined.

Lemma date_not_in_df_uniform : ~ In "date"%string (columns df_uniform).
Proof.
  simpl. intros H. repeat (destruct H as [H|H]; [discriminate H|]). exact H.
Qed.

Lemma plot_heatmap_hourly_no_time_index_witness :
  is_datetime_index (index df_uniform) = false
  /\ ~ In "date"%string (columns df_uniform)
  /\ In "pm2_5"%string (columns df_uniform)
  /\ plot_heatmap_hourly (ext := sample_externals) df_uniform "pm2_5" (12, 6) None
     = (Raised "AttributeError", []).
Proof.
  assert (Hin : In "pm2_5"%string (columns df_uniform)) by (simpl; tauto).
  split; [reflexivity|]. split; [exact date_not_in_df_uniform|]. split; [exact Hin|].
  exact (plot_heatmap_hourly_no_time_index (ext := sample_externals) df_uniform "pm2_5"
           (12, 6) None eq_refl date_not_in_df_uniform Hin).
Defined.

Lemma plot_ica_distribution_total_witness :
  getitem df_sample "ica_category" = Some [CStr "Buena"; CStr "Rara"; CStr "Buena"]
  /\ exists widths colors,
      In (BarH (range 6) widths colors)
         (trace (plot_ica_distribution (ext := sample_externals) df_sample (12, 5) None))
      /\ Zsum widths = 2
      /\ Zsum widths <= 3.
Proof.
  split; [reflexivity|].
  destruct (plot_ica_distribution_total (ext := sample_externals) df_sample (12, 5) None
              [CStr "Buena"; CStr "Rara"; CStr "Buena"] eq_refl)
    as [widths [colors [H1 [_ [H3 [H4 _]]]]]].
  exists widths, colors. split; [exact H1|]. split; [exact H3 | exact H4].
Defined.


Lemma sample_has_pm2_5 :
  In "pm2_5"%string (filter (fun c => has_column c df_sample) CONTAMINANTES).
Proof. vm_compute. tauto. Qed.



Lemma category_distribution_shape_witness :
  getitem df_gaps "ica_category"
  = Some [CStr "Buena"; CNaN; CStr "Buena"; CNone; CStr "Moderada"; CStr "Buena"]
  /\ exists (out : DataFrame) (ns : list Z),
      category_distribution df_gaps "ica_category" = (Returned (Some out), [])
      /\ rectangular out
      /\ Forall (fun n => 0 <= n) ns
      /\ Zsum ns = 6.
Proof.
  split; [reflexivity|].
  destruct (category_distribution_shape df_gaps "ica_category" _ eq_refl)
    as [out [ns [H1 [_ [_ [H4 [_ [H6 [H7 _]]]]]]]]].
  exists out, ns. repeat split; assumption.
Defined.


(** The line chart on a column that mixes numbers and text, with libraries
    that refuse to draw it: the call raises after the figure and the line,
    and neither saves nor shows. *)
Lemma plot_time_series_raises :
  plot_time_series (ext := sample_externals) df_mixed ["pm2_5"; "pm10"] (14, 6)
    "Evolución Temporal de Contaminantes" (Some "t.png")
  = (Raised "ValueError",
     [ Figure (14, 6);
       Plot (DatetimeIndex [0; 1; 2]) [CInt 5; CStr "bad"; CInt 7] "PM2_5" ]).
Proof. vm_compute. reflexivity. Qed.

Lemma bars_match_summary_witness :
  getitem df_sample "ica_category" = Some [CStr "Buena"; CStr "Rara"; CStr "Buena"]
  /\ exists (out : DataFrame) (cats : list Cell) (ns widths : list Z) (colors : list string),
      category_distribution df_sample "ica_category" = (Returned (Some out), [])
      /\ getitem out "Categoría" = Some cats
      /\ getitem out "conteo" = Some (map CInt ns)
      /\ In (BarH (range 6) widths colors)
            (trace (plot_ica_distribution (ext := sample_externals) df_sample (12, 5) None))
      /\ Forall2 (fun l w =>
                    (forall j, nth_error cats j = Some (CStr l) -> nth_error ns j = Some w)
                    /\ (~ In (CStr l) cats -> w = 0))
           orden_ica widths.
Proof.
  split; [reflexivity|].
  exact (bars_match_summary (ext := sample_externals) df_sample (12, 5) None _ eq_refl).
Defined.

Lemma plot_scatter_comparison_points_witness :
  getitem df_sample "pm2_5" = Some [CInt 5; CInt 6; CInt 7]
  /\ getitem df_sample "pm10" = Some [CInt 2; CInt 6; CInt 7]
  /\ scatters (trace (plot_scatter_comparison (ext := sample_externals) df_sample
                        "pm2_5" "pm10" (10, 6) None))
     = [([CInt 5; CInt 6; CInt 7], [CInt 2; CInt 6; CInt 7],
         inl [Some "#2ECC71"%string; None; Some "#2ECC71"%string])].
Proof.
  split; [reflexivity|]. split; [reflexivity|].
  destruct (plot_scatter_comparison_points (ext := sample_externals) df_sample
              "pm2_5" "pm10" (10, 6) None _ _ eq_refl eq_refl)
    as [_ [c [H1 [_ H3]]]].
  rewrite H1, (H3 _ eq_refl). reflexivity.
Defined.


Import DataVisualizationRest.


Lemma plot_top_n_contaminated_days_ranking_witness :
  In "pm2_5"%string (columns (DataProcessing.df sample_estacion))
  /\ plot_top_n_contaminated_days (ext := sample_externals) (pext := sample_plot_externals)
       sample_estacion "pm2_5" 10 (12, 6) None
     = (Returned tt,
        [ Core (Figure (12, 6));
          BarHValues [0; 1] [CInt 7; CInt 5]
            ["Reds#0"; "Reds#1"; "Reds#2"; "Reds#3"; "Reds#4"; "Reds#5"; "Reds#6"; "Reds#7";
             "Reds#8"; "Reds#9"]%string;
          YTickNames [0; 1] ["day 1"; "day 0"]%string;
          Core (XLabel "PM2_5 (µg/m³)");
          Core (YLabel "Fecha");
          Core (Title "Top 10 Días más contaminados en Centro (PM2_5)");
          InvertYAxis; Core Grid; Core TightLayout; Core Show ]).
Proof.
  assert (Hin : In "pm2_5"%string (columns (DataProcessing.df sample_estacion)))
    by (simpl; tauto).
  split; [exact Hin|].
  exact (proj2 (proj2 (plot_top_n_contaminated_days_ranking (ext := sample_externals)
           (pext := sample_plot_externals) sample_estacion "pm2_5" 10 (12, 6) None))
           _ _ _ _ _ _ Hin eq_refl eq_refl eq_refl eq_refl eq_refl).
Defined.
